(** * PatientDataManagement/main.py: BMI, record validation and the record store

    A shallow embedding of the FastAPI patient service.  Python [float]s are
    IEEE 754 binary64 values ([spec_float] at precision 53), Python [int]s are
    [Z], [str] is [string], exceptions are the [Raise] results of an error
    monad, and the file [patients.json] is the state threaded through the
    endpoints.  Multiplication, division and [round] are correctly rounded,
    as IEEE 754 and the interpreter define them; the square [height ** 2] is
    computed by the [pow] of the C library, which is a parameter. *)

From Stdlib Require Import ZArith Bool List String Lia.
From Stdlib Require Import Sorting.Sorted Sorting.Permutation.
From Stdlib Require Import Floats.SpecFloat.
Import ListNotations.
Open Scope string_scope.
Open Scope list_scope.
Open Scope Z_scope.

(** ** Exceptions and the error monad *)

Inductive exn : Type :=
| ZeroDivisionError
| OverflowError
| ValidationError (fields : list string)
| HTTPException (status_code : Z) (detail : string).

Inductive result (A : Type) : Type :=
| Ok (a : A)
| Raise (e : exn).

Arguments Ok {A} a.
Arguments Raise {A} e.

Definition bind {A B : Type} (m : result A) (k : A -> result B) : result B :=
  match m with
  | Ok a => k a
  | Raise e => Raise e
  end.

Notation "x <- m ;; k" := (bind m (fun x => k))
  (at level 61, m at next level, right associativity).

(** ** Python floats *)

Module PyFloat.

Definition prec : Z := 53.
Definition emax : Z := 1024.

Definition float : Type := spec_float.

Definition valid (x : float) : bool := valid_binary prec emax x.

(** The binary64 value nearest to [num / den], ties to even: what the
    correctly rounded string-to-double conversion yields for that rational. *)
Definition nearest_float (s : bool) (num den : positive) : float :=
  SFdiv prec emax (S754_finite s num 0) (S754_finite false den 0).

(** The decimal literal [digits]e[exp10]. *)
Definition decimal (digits : positive) (exp10 : Z) : float :=
  match exp10 with
  | Zneg k => nearest_float false digits (10 ^ k)
  | Z0 => nearest_float false digits 1
  | Zpos k => nearest_float false (digits * 10 ^ k) 1
  end.

Definition of_int (z : Z) : float :=
  match z with
  | Z0 => S754_zero false
  | Zpos p => nearest_float false p 1
  | Zneg p => nearest_float true p 1
  end.

(** Comparisons: every comparison with a NaN is false. *)
Definition lt (x y : float) : bool := SFltb x y.
Definition le (x y : float) : bool := SFleb x y.
Definition gt (x y : float) : bool := SFltb y x.
Definition ge (x y : float) : bool := SFleb y x.
Definition eq (x y : float) : bool := SFeqb x y.

Definition is_nan (x : float) : bool :=
  match x with S754_nan => true | _ => false end.

Definition is_zero (x : float) : bool :=
  match x with S754_zero _ => true | _ => false end.

Definition mul (x y : float) : float := SFmul prec emax x y.
Definition div (x y : float) : float := SFdiv prec emax x y.

Definition is_inf (x : float) : bool :=
  match x with S754_infinity _ => true | _ => false end.

(** The sign bit; a NaN counts as unsigned. *)
Definition sign (x : float) : bool :=
  match x with
  | S754_zero s | S754_infinity s | S754_finite s _ _ => s
  | S754_nan => false
  end.

Definition one : float := S754_finite false 4503599627370496 (-52).

(** The C library.  The interpreter computes [x ** y] on floats with the C
    function [pow]; how close its result is to the exact power is left open
    by the C standard and differs between C libraries, and it is not code of
    this repository, so it is a parameter of the development.  The source
    only squares: [libm_pow2 x] is the call [pow(x, 2.0)], the value it
    returns and whether it leaves [errno] at [ERANGE]; a square is never
    negative, so the value has a clear sign bit or is a NaN. *)
Class Libm : Type := {
  libm_pow2 : float -> float * bool;
  libm_pow2_sign : forall x, sign (fst (libm_pow2 x)) = false
}.

(** [x ** 2], as [float_pow] computes it for the exponent 2.0.  A NaN base
    is returned, an infinite base gives [inf] and a zero base [0.0]; the sign
    of a negative base is dropped, the exponent being even; the base 1.0
    gives 1.0; every other base goes to [pow].  After the call [errno] is
    adjusted: an infinite result sets it when it is clear, a zero result
    clears [ERANGE]; when it is set in the end, [OverflowError] is raised. *)
Definition pow2 {L : Libm} (x : float) : result float :=
  match x with
  | S754_nan => Ok x
  | S754_infinity _ => Ok (S754_infinity false)
  | S754_zero _ => Ok (S754_zero false)
  | S754_finite _ m e =>
      let iv := S754_finite false m e in
      if eq iv one then Ok one
      else
        let '(ix, erange) := libm_pow2 iv in
        let errno := if erange then negb (is_zero ix) else is_inf ix in
        if errno then Raise OverflowError else Ok ix
  end.

(** [x / y]: a zero divisor raises [ZeroDivisionError]. *)
Definition truediv (x y : float) : result float :=
  if is_zero y then Raise ZeroDivisionError else Ok (div x y).

Definition round_half_even (num den : Z) : Z :=
  let q := num / den in
  let r := num mod den in
  match 2 * r ?= den with
  | Lt => q
  | Gt => q + 1
  | Eq => if Z.even q then q else q + 1
  end.

(** [round(x, ndigits)] for [ndigits >= 0]: the exact value of [x] is
    rounded to [ndigits] decimal places, ties to even, and that decimal is
    converted back to the nearest float.  Zeros, infinities and NaN round
    to themselves. *)
Definition round (x : float) (ndigits : N) : float :=
  match x with
  | S754_finite s m e =>
      let scale := 10 ^ Z.of_N ndigits in
      let n := match e with
               | Zneg p => round_half_even (Zpos m * scale) (2 ^ Zpos p)
               | _ => Zpos m * scale * 2 ^ e
               end in
      match n with
      | Zpos p => nearest_float s p (Z.to_pos scale)
      | _ => S754_zero s
      end
  | _ => x
  end.

End PyFloat.

Abbreviation float := PyFloat.float.

(** The float literals of the source. *)
Definition f0 : float := S754_zero false.
Definition f18_5 : float := Eval vm_compute in PyFloat.decimal 185 (-1).
Definition f25 : float := Eval vm_compute in PyFloat.of_int 25.
Definition f30 : float := Eval vm_compute in PyFloat.of_int 30.

(** ** class Patient *)

Module Patient.

Record t : Type := mk {
  id : string;
  name : string;
  city : string;
  age : Z;
  gender : string;
  height : float;
  weight : float
}.

(** The [bmi] computed field: [round(self.weight/(self.height**2),2)]. *)
Definition bmi {L : PyFloat.Libm} (self : t) : result float :=
  sq <- PyFloat.pow2 (height self) ;;
  q <- PyFloat.truediv (weight self) sq ;;
  Ok (PyFloat.round q 2).

(** The if/elif chain of the [verdict] computed field, on the value of
    [self.bmi]. *)
Definition classify (b : float) : string :=
  if PyFloat.lt b f18_5 then "Underweight"
  else if PyFloat.ge b f18_5 && PyFloat.lt b f25 then "Normal"
  else if PyFloat.ge b f25 && PyFloat.lt b f30 then "Overweight"
  else "Obese".

(** The property is read again at each test; it is pure, so every read
    gives the same result. *)
Definition verdict {L : PyFloat.Libm} (self : t) : result string :=
  b <- bmi self ;;
  Ok (classify b).

End Patient.

(** ** Validation of [Patient] *)

(** One keyword argument: [None] stands for a key that is missing or bound to
    Python's [None]; neither is accepted by a required field. *)
Definition check {T : Type} (field : string) (ok : T -> bool) (v : option T)
  : list string :=
  match v with
  | Some x => if ok x then [] else [field]
  | None => [field]
  end.

Definition literal (choices : list string) (s : string) : bool :=
  existsb (String.eqb s) choices.

Module PatientArgs.

(** The keyword arguments of [Patient(...)]: the decoded request body of
    the POST endpoint, or [**existing_patient_info] in the PUT endpoint. *)
Record t : Type := mk {
  id : option string;
  name : option string;
  city : option string;
  age : option Z;
  gender : option string;
  height : option float;
  weight : option float
}.

End PatientArgs.

(** [age]: [gt=0, lt=120]. *)
Definition age_ok (a : Z) : bool := (0 <? a) && (a <? 120).

(** [gender]: [Literal['male', 'female', 'others']]. *)
Definition gender_ok (g : string) : bool := literal ["male"; "female"; "others"] g.

(** [height], [weight]: [gt=0]. *)
Definition positive_ok (x : float) : bool := PyFloat.gt x f0.

Definition any_str (_ : string) : bool := true.

(** The names of the fields that fail, in declaration order. *)
Definition Patient_errors (k : PatientArgs.t) : list string :=
  check "id" any_str (PatientArgs.id k) ++
  check "name" any_str (PatientArgs.name k) ++
  check "city" any_str (PatientArgs.city k) ++
  check "age" age_ok (PatientArgs.age k) ++
  check "gender" gender_ok (PatientArgs.gender k) ++
  check "height" positive_ok (PatientArgs.height k) ++
  check "weight" positive_ok (PatientArgs.weight k).

(** [Patient] built from the keyword arguments [k]: the model, or a
    [ValidationError] naming the fields. *)
Definition Patient_new (k : PatientArgs.t) : result Patient.t :=
  match Patient_errors k, k with
  | [], PatientArgs.mk (Some i) (Some n) (Some c) (Some a) (Some g) (Some h) (Some w) =>
      Ok (Patient.mk i n c a g h w)
  | errs, _ => Raise (ValidationError errs)
  end.

(** ** class PatientUpdate *)

(** A field of the request body: absent, [null], or a value. *)
Inductive arg (T : Type) : Type :=
| Unset
| Null
| Val (v : T).

Arguments Unset {T}.
Arguments Null {T}.
Arguments Val {T} v.

Definition check_opt {T : Type} (field : string) (ok : T -> bool) (v : arg T)
  : list string :=
  match v with
  | Val x => if ok x then [] else [field]
  | _ => []
  end.

Module PatientUpdate.

Record t : Type := mk {
  name : arg string;
  city : arg string;
  age : arg Z;
  gender : arg string;
  height : arg float;
  weight : arg float
}.

(** [age]: [gt=0] only. *)
Definition age_ok (a : Z) : bool := 0 <? a.

(** [gender]: [Literal['male', 'female']]. *)
Definition gender_ok (g : string) : bool := literal ["male"; "female"] g.

Definition errors (u : t) : list string :=
  check_opt "name" any_str (name u) ++
  check_opt "city" any_str (city u) ++
  check_opt "age" age_ok (age u) ++
  check_opt "gender" gender_ok (gender u) ++
  check_opt "height" positive_ok (height u) ++
  check_opt "weight" positive_ok (weight u).

(** [PatientUpdate] built from the request body. *)
Definition new (u : t) : result t :=
  match errors u with
  | [] => Ok u
  | errs => Raise (ValidationError errs)
  end.

Definition empty : t := mk Unset Unset Unset Unset Unset Unset.

End PatientUpdate.

(** ** The stored records and the mapping *)

Module Info.

(** A value of the mapping: [model_dump] of a [Patient] without its id. *)
Record t : Type := mk {
  name : string;
  city : string;
  age : Z;
  gender : string;
  height : float;
  weight : float;
  bmi : float;
  verdict : string
}.

End Info.

(** [patient.model_dump(exclude=['id'])]: the fields, then the computed
    fields [bmi] and [verdict]; an exception of a property propagates. *)
Definition model_dump {L : PyFloat.Libm} (p : Patient.t) : result Info.t :=
  b <- Patient.bmi p ;;
  v <- Patient.verdict p ;;
  Ok (Info.mk (Patient.name p) (Patient.city p) (Patient.age p)
              (Patient.gender p) (Patient.height p) (Patient.weight p) b v).

(** A Python [dict] with [str] keys: an association list in insertion order,
    every key bound once. *)
Definition dict : Type := list (string * Info.t).

Fixpoint dict_get (k : string) (d : dict) : option Info.t :=
  match d with
  | [] => None
  | (k', v) :: d' => if String.eqb k k' then Some v else dict_get k d'
  end.

Definition dict_in (k : string) (d : dict) : bool :=
  match dict_get k d with Some _ => true | None => false end.

(** [d[k] = v]: an existing key keeps its position, a new key goes last. *)
Fixpoint dict_set (k : string) (v : Info.t) (d : dict) : dict :=
  match d with
  | [] => [(k, v)]
  | (k', v') :: d' =>
      if String.eqb k k' then (k', v) :: d' else (k', v') :: dict_set k v d'
  end.

(** [del d[k]]. *)
Fixpoint dict_del (k : string) (d : dict) : dict :=
  match d with
  | [] => []
  | (k', v') :: d' =>
      if String.eqb k k' then d' else (k', v') :: dict_del k d'
  end.

Definition dict_keys (d : dict) : list string := map fst d.
Definition dict_values (d : dict) : list Info.t := map snd d.

(** ** The file [patients.json] *)

(** The content of the file is the mapping it encodes. *)
Definition load_data (file : dict) : dict := file.
Definition save_data (data : dict) : dict := data.

(** What an endpoint leaves behind: its answer and the content of the file. *)
Definition outcome (A : Type) : Type := (result A * dict)%type.

Inductive JSONResponse : Type :=
| Response (status_code : Z) (message : string).

(** ** [sorted] *)

(** The numbers a record holds: [int] and [float]. *)
Inductive num : Type :=
| Int (z : Z)
| Float (f : float).

(** The exact value of a finite float is [m * 2^e]; an [int] is compared
    with it exactly, as Python does. *)
Definition int_lt_float (a : Z) (f : float) : bool :=
  match f with
  | S754_nan => false
  | S754_infinity s => negb s
  | S754_zero _ => a <? 0
  | S754_finite s m e =>
      let v := if s then Zneg m else Zpos m in
      match e with
      | Zneg p => a * 2 ^ Zpos p <? v
      | _ => a <? v * 2 ^ e
      end
  end.

Definition float_lt_int (f : float) (b : Z) : bool :=
  match f with
  | S754_nan => false
  | S754_infinity s => s
  | S754_zero _ => 0 <? b
  | S754_finite s m e =>
      let v := if s then Zneg m else Zpos m in
      match e with
      | Zneg p => v <? b * 2 ^ Zpos p
      | _ => v * 2 ^ e <? b
      end
  end.

(** [x < y] on numbers. *)
Definition num_lt (x y : num) : bool :=
  match x, y with
  | Int a, Int b => a <? b
  | Float f, Float g => PyFloat.lt f g
  | Int a, Float g => int_lt_float a g
  | Float f, Int b => float_lt_int f b
  end.

(** [x == y] on numbers: neither is below the other, and neither is NaN. *)
Definition num_eq (x y : num) : bool :=
  match x, y with
  | Int a, Int b => a =? b
  | Float f, Float g => PyFloat.eq f g
  | Int a, Float g =>
      negb (PyFloat.is_nan g) && negb (int_lt_float a g) && negb (float_lt_int g a)
  | Float f, Int b =>
      negb (PyFloat.is_nan f) && negb (int_lt_float b f) && negb (float_lt_int f b)
  end.

Section Sorted.

Variable A : Type.
Variable key : A -> num.

(** [x] goes in front of the first element that is not below it: it
    passes only elements strictly smaller than itself, so it stays in
    front of the elements it compares equal to. *)
Fixpoint insert (x : A) (l : list A) : list A :=
  match l with
  | [] => [x]
  | y :: l' =>
      if num_lt (key y) (key x) then y :: insert x l' else x :: y :: l'
  end.

(** The built-in list sort: a stable ascending sort that compares with [<]
    only.  It is written here as an insertion sort; on keys that [<] orders
    totally every stable sort returns this list. *)
Definition sort_stable (l : list A) : list A := fold_right insert [] l.

(** [sorted(l, key=key, reverse=reverse)]: with [reverse] the list is
    reversed, sorted, and reversed again, which keeps equal elements in
    their original order. *)
Definition sorted (l : list A) (reverse : bool) : list A :=
  if reverse then rev (sort_stable (rev l)) else sort_stable l.

End Sorted.

Arguments insert {A} key x l.
Arguments sort_stable {A} key l.
Arguments sorted {A} key l reverse.

(** [x.get(sort_by, 0)] on the numeric keys of a record; the endpoint admits
    only [age], [height] and [weight]. *)
Definition get_num (sort_by : string) (x : Info.t) : num :=
  if String.eqb sort_by "age" then Int (Info.age x)
  else if String.eqb sort_by "height" then Float (Info.height x)
  else if String.eqb sort_by "weight" then Float (Info.weight x)
  else if String.eqb sort_by "bmi" then Float (Info.bmi x)
  else Int 0.

(** ** The endpoints *)

Definition view_data (file : dict) : outcome dict :=
  let data := load_data file in
  (Ok data, file).

Definition view_paitent_data (p_id : string) (file : dict) : outcome Info.t :=
  let data := load_data file in
  match dict_get p_id data with
  | Some x => (Ok x, file)
  | None => (Raise (HTTPException 404 "Patient ID not Found"), file)
  end.

Definition valid_fields : list string := ["age"; "height"; "weight"].

Definition sort_patient_data (sort_by order : string) (file : dict)
  : outcome (list Info.t) :=
  if negb (literal valid_fields sort_by) then
    (Raise (HTTPException 400
       ("Invalid field " ++ sort_by ++
        ". Please choose from ['age', 'height', 'weight']")%string), file)
  else if negb (literal ["asc"; "desc"] order) then
    (Raise (HTTPException 400
       ("Invalid order " ++ order ++
        ". Please choose between asc and desc")%string), file)
  else
    let data := load_data file in
    let sort_order := if String.eqb order "desc" then true else false in
    let sorted_data := sorted (get_num sort_by) (dict_values data) sort_order in
    (Ok sorted_data, file).

(** POST /patient, called with a validated [Patient]. *)
Definition create_patient_data {L : PyFloat.Libm} (patient : Patient.t) (file : dict)
  : outcome JSONResponse :=
  let data := load_data file in
  if dict_in (Patient.id patient) data then
    (Raise (HTTPException 400 "Patient ID already exists"), file)
  else
    match model_dump patient with
    | Raise e => (Raise e, file)
    | Ok info =>
        let data := dict_set (Patient.id patient) info data in
        (Ok (Response 200 "Patient data created successfully"), save_data data)
    end.

(** The framework validates the request body against [Patient] before it
    calls the endpoint; a body that fails never reaches it. *)
Definition post_patient {L : PyFloat.Libm} (body : PatientArgs.t) (file : dict)
  : outcome JSONResponse :=
  match Patient_new body with
  | Raise e => (Raise e, file)
  | Ok patient => create_patient_data patient file
  end.

(** [existing_patient_info[key] = value] for a key of the update. *)
Definition assign {T : Type} (a : arg T) (old : T) : option T :=
  match a with
  | Unset => Some old
  | Null => None
  | Val v => Some v
  end.

(** [existing_patient_info] after the loop over the set fields of the update
    and the assignment of ['id']; its [bmi] and [verdict] keys are not
    fields of [Patient] and are ignored by it. *)
Definition merged_info (existing : Info.t) (u : PatientUpdate.t) (p_id : string)
  : PatientArgs.t :=
  PatientArgs.mk (Some p_id)
    (assign (PatientUpdate.name u) (Info.name existing))
    (assign (PatientUpdate.city u) (Info.city existing))
    (assign (PatientUpdate.age u) (Info.age existing))
    (assign (PatientUpdate.gender u) (Info.gender existing))
    (assign (PatientUpdate.height u) (Info.height existing))
    (assign (PatientUpdate.weight u) (Info.weight existing)).

(** PUT /patient_edit/{p_id}, called with a validated [PatientUpdate].  The
    loop mutates the loaded mapping in place; that mapping is either saved
    with the entry replaced or dropped when an exception leaves the
    function, so the file changes only through [save_data]. *)
Definition update_patient_data {L : PyFloat.Libm} (patient_update : PatientUpdate.t)
  (p_id : string) (file : dict) : outcome JSONResponse :=
  let data := load_data file in
  match dict_get p_id data with
  | None => (Raise (HTTPException 404 "Patient ID not Found"), file)
  | Some existing_patient_info =>
      let existing_patient_info := merged_info existing_patient_info patient_update p_id in
      match (patient_pydantic_obj <- Patient_new existing_patient_info ;;
             model_dump patient_pydantic_obj) with
      | Raise e => (Raise e, file)
      | Ok existing_patient_info =>
          let data := dict_set p_id existing_patient_info data in
          (Ok (Response 200 "Patient data updated successfully"), save_data data)
      end
  end.

Definition put_patient_edit {L : PyFloat.Libm} (body : PatientUpdate.t) (p_id : string)
  (file : dict) : outcome JSONResponse :=
  match PatientUpdate.new body with
  | Raise e => (Raise e, file)
  | Ok patient_update => update_patient_data patient_update p_id file
  end.

(** DELETE /patient_delete/{p_id}. *)
Definition delete_patient_data (p_id : string) (file : dict) : outcome JSONResponse :=
  let data := load_data file in
  if negb (dict_in p_id data) then
    (Raise (HTTPException 404 "Patient ID not found"), file)
  else
    let data := dict_del p_id data in
    (Ok (Response 200 "Patient data deleted successfully"), save_data data).

(** The requests that change the file. *)
Inductive request : Type :=
| Create (body : PatientArgs.t)
| Update (body : PatientUpdate.t) (p_id : string)
| Delete (p_id : string).

Definition serve {L : PyFloat.Libm} (r : request) (file : dict)
  : outcome JSONResponse :=
  match r with
  | Create body => post_patient body file
  | Update body p_id => put_patient_edit body p_id file
  | Delete p_id => delete_patient_data p_id file
  end.

(** The file after a sequence of requests. *)
Definition serve_all {L : PyFloat.Libm} (rs : list request) (file : dict) : dict :=
  fold_left (fun f r => snd (serve r f)) rs file.

(** ** Predicates of the specification *)

(** [height ** 2] raises nothing and is not zero: the [bmi] property returns. *)
Definition bmi_defined {L : PyFloat.Libm} (height : float) : bool :=
  match PyFloat.pow2 height with
  | Ok sq => negb (PyFloat.is_zero sq)
  | Raise _ => false
  end.

(** The derived-field invariant of a stored record: [height ** 2] returns a
    square that is not zero, the stored bmi is [round(weight / square, 2)],
    and the stored verdict is the class of the stored bmi. *)
Definition derived_ok {L : PyFloat.Libm} (x : Info.t) : Prop :=
  (exists sq : float,
     PyFloat.pow2 (Info.height x) = Ok sq /\ PyFloat.is_zero sq = false /\
     Info.bmi x = PyFloat.round (PyFloat.div (Info.weight x) sq) 2) /\
  Info.verdict x = Patient.classify (Info.bmi x).

(** The range constraints of [Patient] on a stored record. *)
Definition info_valid (x : Info.t) : Prop :=
  0 < Info.age x < 120 /\
  gender_ok (Info.gender x) = true /\
  positive_ok (Info.height x) = true /\
  positive_ok (Info.weight x) = true.

(** What [model_dump] of an accepted [Patient] satisfies. *)
Definition stored_ok {L : PyFloat.Libm} (x : Info.t) : Prop :=
  info_valid x /\ derived_ok x /\ bmi_defined (Info.height x) = true.

(** The value a field has after a merge that [Patient] accepts. *)
Definition pick {T : Type} (a : arg T) (old : T) : T :=
  match a with
  | Val v => v
  | _ => old
  end.

(** [x <= y] on numbers. *)
Definition num_le (x y : num) : bool := num_lt x y || num_eq x y.

(** The type of a number, and the numbers that are not NaN: [<] orders the
    [int]s totally, and the [float]s that are not NaN. *)
Definition is_int (k : num) : Prop := exists z, k = Int z.
Definition is_float (k : num) : Prop := exists f, k = Float f.
Definition is_number (k : num) : Prop :=
  match k with Int _ => True | Float f => PyFloat.is_nan f = false end.

Definition real_float (k : num) : Prop := is_float k /\ is_number k.

(** The keys of a list are all [int], or all [float] and none of them NaN. *)
Definition uniform (key : Info.t -> num) (l : list Info.t) : Prop :=
  (forall x, is_int (key x)) \/
  ((forall x, is_float (key x)) /\ Forall (fun x => is_number (key x)) l).

(** An order embedding of the floats that are not NaN into integer triples
    compared lexicographically. *)
Definition rank (x : float) : Z * Z * Z :=
  match x with
  | S754_infinity true => (-2, 0, 0)
  | S754_finite true m e => (-1, - e, Zneg m)
  | S754_zero _ => (0, 0, 0)
  | S754_finite false m e => (1, e, Zpos m)
  | S754_infinity false => (2, 0, 0)
  | S754_nan => (3, 0, 0)
  end.

Definition lex3 (a b : Z * Z * Z) : comparison :=
  let '(a1, a2, a3) := a in
  let '(b1, b2, b3) := b in
  match a1 ?= b1 with
  | Eq => match a2 ?= b2 with
          | Eq => a3 ?= b3
          | c => c
          end
  | c => c
  end.

Definition lexlt (a b : Z * Z * Z) : Prop :=
  let '(a1, a2, a3) := a in
  let '(b1, b2, b3) := b in
  a1 < b1 \/ (a1 = b1 /\ (a2 < b2 \/ (a2 = b2 /\ a3 < b3))).

(** A body breaks a constraint of [Patient]: one of the seven fields is
    missing or null, or the value of age, gender, height or weight is out of
    range.  A string that is present is within the constraints of id, name
    and city, whatever it is. *)
Definition violates (body : PatientArgs.t) : Prop :=
  PatientArgs.id body = None \/
  PatientArgs.name body = None \/
  PatientArgs.city body = None \/
  (forall a, PatientArgs.age body = Some a -> ~ 0 < a < 120) \/
  (forall g, PatientArgs.gender body = Some g -> ~ In g ["male"; "female"; "others"]) \/
  (forall h, PatientArgs.height body = Some h -> PyFloat.gt h f0 = false) \/
  (forall w, PatientArgs.weight body = Some w -> PyFloat.gt w f0 = false).

(** The order of two elements by their keys. *)
Definition key_le {A : Type} (key : A -> num) (x y : A) : Prop :=
  num_le (key x) (key y) = true.
Definition key_ge {A : Type} (key : A -> num) (x y : A) : Prop :=
  num_le (key y) (key x) = true.

(** [f] selects the elements whose key equals a given one: an element
    strictly below a selected element is not selected. *)
Definition separates {A : Type} (key : A -> num) (f : A -> bool) (l : list A)
  : Prop :=
  forall x y, In x l -> In y l ->
    num_lt (key y) (key x) = true -> f x = true -> f y = false.

(** What the sort endpoint is to return for the records [values]: the list
    [l] holds the same records, each one in relation [le] with every later
    one, and the records that [same] groups with a given record come in the
    order they have in [values]. *)
Definition ordered_and_stable (le : Info.t -> Info.t -> Prop)
  (same : Info.t -> Info.t -> bool) (values l : list Info.t) : Prop :=
  Permutation l values /\
  StronglySorted le l /\
  forall r, filter (same r) l = filter (same r) values.

(** ** The accuracy of the C library *)

(** The floats next to a positive float in canonical form, one unit in the
    last place above and below it. *)
Definition next_up (x : float) : float :=
  match x with
  | S754_finite false m e =>
      if Zpos m + 1 <? 9007199254740992 then S754_finite false (m + 1) e
      else if e + 1 <=? 971 then S754_finite false 4503599627370496 (e + 1)
      else S754_infinity false
  | _ => x
  end.

Definition next_down (x : float) : float :=
  match x with
  | S754_finite false m e =>
      if (Zpos m =? 4503599627370496) && (-1074 <? e)
      then S754_finite false 9007199254740991 (e - 1)
      else match Zpos m - 1 with
           | Zpos m' => S754_finite false m' e
           | _ => S754_zero false
           end
  | _ => x
  end.

(** [pow(x, 2.0)] is accurate to one unit in the last place: it leaves
    [errno] alone and returns the correctly rounded square of [x] or one of
    the two floats next to it.  The C libraries in use document an error
    below one unit in the last place for [pow], which implies this. *)
Definition within_one_ulp {L : PyFloat.Libm} (x : float) : Prop :=
  exists y : float,
    PyFloat.libm_pow2 x = (y, false) /\
    (y = PyFloat.mul x x \/ y = next_up (PyFloat.mul x x) \/
     y = next_down (PyFloat.mul x x)).

(** ** Sample data *)

Definition f1_70 : float := Eval vm_compute in PyFloat.decimal 170 (-2).
Definition f70_0 : float := Eval vm_compute in PyFloat.decimal 700 (-1).
Definition f24_22 : float := Eval vm_compute in PyFloat.decimal 2422 (-2).
Definition f1_60 : float := Eval vm_compute in PyFloat.decimal 160 (-2).
Definition f45_0 : float := Eval vm_compute in PyFloat.decimal 450 (-1).
Definition f17_58 : float := Eval vm_compute in PyFloat.decimal 1758 (-2).
Definition f27_34 : float := Eval vm_compute in PyFloat.decimal 2734 (-2).
Definition f15_57 : float := Eval vm_compute in PyFloat.decimal 1557 (-2).
Definition f1e_200 : float := Eval vm_compute in PyFloat.decimal 1 (-200).
Definition f1e200 : float := Eval vm_compute in PyFloat.decimal 1 200.

Definition asha : Patient.t :=
  Patient.mk "P001" "Asha" "Pune" 34 "female" f1_70 f70_0.

Definition ravi : Patient.t :=
  Patient.mk "P002" "Ravi" "Delhi" 51 "male" f1_60 f45_0.

Definition asha_info : Info.t :=
  Info.mk "Asha" "Pune" 34 "female" f1_70 f70_0 f24_22 "Normal".

Definition ravi_info : Info.t :=
  Info.mk "Ravi" "Delhi" 51 "male" f1_60 f45_0 f17_58 "Underweight".

Definition sample_file : dict := [("P001", asha_info); ("P002", ravi_info)].

(** A store with two records of the same age. *)
Definition tie_file : dict :=
  [("P001", asha_info);
   ("P002", ravi_info);
   ("P003", Info.mk "Mira" "Agra" 34 "others" f1_60 f70_0
              f27_34 "Overweight");
   ("P004", Info.mk "Tara" "Kochi" 20 "female" f1_70 f45_0
              f15_57 "Underweight")].

Definition body_of (p : Patient.t) : PatientArgs.t :=
  PatientArgs.mk (Some (Patient.id p)) (Some (Patient.name p))
    (Some (Patient.city p)) (Some (Patient.age p)) (Some (Patient.gender p))
    (Some (Patient.height p)) (Some (Patient.weight p)).

Definition with_height (h : float) (p : Patient.t) : Patient.t :=
  Patient.mk (Patient.id p) (Patient.name p) (Patient.city p) (Patient.age p)
    (Patient.gender p) h (Patient.weight p).

(** A file that was not written by the service: the bmi and the verdict of
    its record are not the derived ones. *)
Definition stale_file : dict :=
  [("P001", Info.mk "Asha" "Pune" 34 "female" f1_70 f70_0 f25 "Overweight")].

(** A file in which a height is NaN, which [json.load] reads. *)
Definition nan_file : dict :=
  [("P001", asha_info);
   ("P002", Info.mk "Ravi" "Delhi" 51 "male" S754_nan f45_0 S754_nan "Obese");
   ("P003", Info.mk "Mira" "Agra" 34 "others" f1_60 f70_0 f27_34 "Overweight")].

(** ** A C library for the examples *)

Definition f2_759 : float := Eval vm_compute in PyFloat.decimal 2759 (-3).
Definition f140_785438095 : float :=
  Eval vm_compute in PyFloat.decimal 140785438095 (-9).
Definition f18_49 : float := Eval vm_compute in PyFloat.decimal 1849 (-2).

(** A [pow] that returns the correctly rounded square, except at 2.759,
    where it returns the float just below it, as glibc 2.36 does: there
    [2.759 ** 2] is [0x1.e72c55c96030bp+2] and [2.759 * 2.759] is
    [0x1.e72c55c96030cp+2]. *)
Definition sample_pow2 (x : float) : float * bool :=
  if PyFloat.eq x f2_759 then (S754_finite false 8570441288778507 (-50), false)
  else (PyFloat.mul x x, false).

(** The closed lemmas of this development, the examples and the instances
    of the theorems, are about this C library. *)
Definition sample_libm : PyFloat.Libm.
Proof.
  refine {| PyFloat.libm_pow2 := sample_pow2 |}.
  intros x. unfold sample_pow2.
  destruct (PyFloat.eq x f2_759); [reflexivity|].
  destruct x as [[|]|[|]| |s m e]; try reflexivity.
  unfold PyFloat.mul, SFmul. rewrite xorb_nilpotent.
  unfold binary_round_aux.
  destruct (shr_fexp _ _ (Zpos (m * m)) (e + e) loc_Exact) as [mrs1 e1].
  destruct (shr_fexp _ _ _ e1 loc_Exact) as [mrs2 e2].
  destruct (shr_m mrs2); try reflexivity.
  destruct (e2 <=? _); reflexivity.
Defined.

#[global] Existing Instance sample_libm.

(** ** The informational endpoints *)

(** GET / and GET /about return constant objects. *)
Definition root : list (string * string) :=
  [("message", "Patient Management System API runnig!"); ("status", "healthy")].

Definition hello : list (string * string) :=
  [("message", "A fully functional patient management system API")].

(** ** The HTTP answers *)

(** The status code of the response the framework builds from what an
    endpoint does: the code of the JSONResponse it returns or of the
    HTTPException it raises, and 500 for any other exception that leaves it. *)
Definition status_of (r : result JSONResponse) : Z :=
  match r with
  | Ok (Response s _) => s
  | Raise (HTTPException s _) => s
  | Raise _ => 500
  end.

(** POST /patient as a client sees it: a body that the request validation
    refuses is answered 422 and never reaches the endpoint. *)
Definition http_post_patient {L : PyFloat.Libm} (body : PatientArgs.t) (file : dict)
  : Z * dict :=
  match Patient_new body with
  | Raise _ => (422, file)
  | Ok patient =>
      let '(r, file') := create_patient_data patient file in
      (status_of r, file')
  end.

(** ** client.py: the "Add Patient" page *)

Module Client.

(** A [requests.Response].  In a boolean test it counts as its [ok]
    property: false exactly when the status code is a client or server
    error, from 400 to 599. *)
Record Response : Type := mkResponse { status_code : Z }.

(** [response and ...]: [None] is what [make_request] returns when the
    request could not be made. *)
Definition truthy (response : option Response) : bool :=
  match response with
  | Some r => negb ((400 <=? status_code r) && (status_code r <? 600))
  | None => false
  end.

Definition status_is (response : option Response) (code : Z) : bool :=
  match response with
  | Some r => status_code r =? code
  | None => false
  end.

(** What the page shows. *)
Inductive st : Type :=
| success (body : string)
| error (body : string)
| warning (body : string).

(** [make_request("/patient", method="POST", data=data)]: with the server
    up, the response of POST /patient; when the connection fails, the
    connection error is shown and [None] is returned.  Other failures of
    the request are left out. *)
Definition make_request_post {L : PyFloat.Libm} (data : PatientArgs.t) (up : bool)
  (file : dict)
  : list st * option Response * dict :=
  if up then
    let '(code, file') := http_post_patient data file in
    ([], Some (mkResponse code), file')
  else
    ([error "❌ Cannot connect to API server. Please make sure the FastAPI server is running on http://localhost:8000"],
     None, file).

(** The values of the widgets of the form when it is submitted. *)
Record AddForm : Type := mkAddForm {
  patient_id : string;
  name : string;
  age : Z;
  city : string;
  gender : string;
  height : float;
  weight : float
}.

(** A [str] in a boolean test: true unless empty. *)
Definition nonblank (s : string) : bool := negb (String.eqb s "").

(** [add_patient] once the form is submitted: what is shown, and the file
    of the server afterwards. *)
Definition add_patient {L : PyFloat.Libm} (form : AddForm) (up : bool) (file : dict)
  : list st * dict :=
  if nonblank (patient_id form) && nonblank (name form) && nonblank (city form) then
    let patient_data :=
      PatientArgs.mk (Some (patient_id form)) (Some (name form)) (Some (city form))
        (Some (age form)) (Some (gender form)) (Some (height form))
        (Some (weight form)) in
    let '(shown, response, file') := make_request_post patient_data up file in
    if truthy response && status_is response 200 then
      (shown ++ [success "✅ Patient added successfully!"], file')
    else if truthy response && status_is response 400 then
      (shown ++ [error "❌ Patient ID already exists!"], file')
    else
      (shown ++ [error "❌ Error occurred while adding patient."], file')
  else
    ([error "❌ Please fill all required fields marked with *"], file).

(** The bounds of the widgets: age 1 to 120, gender one of the three
    choices, height 0.1 to 3.0, weight 1.0 to 500.0, the numbers being
    binary64 values. *)
Definition f0_1 : float := Eval vm_compute in PyFloat.decimal 1 (-1).
Definition f3_0 : float := Eval vm_compute in PyFloat.decimal 30 (-1).
Definition f1_0 : float := Eval vm_compute in PyFloat.decimal 10 (-1).
Definition f500_0 : float := Eval vm_compute in PyFloat.decimal 5000 (-1).

Definition in_widget_range (form : AddForm) : Prop :=
  1 <= age form <= 120 /\
  In (gender form) ["male"; "female"; "others"] /\
  PyFloat.valid (height form) = true /\
  PyFloat.le f0_1 (height form) = true /\ PyFloat.le (height form) f3_0 = true /\
  PyFloat.le f1_0 (weight form) = true /\ PyFloat.le (weight form) f500_0 = true.

End Client.

(** ** More predicates *)

Definition f1e_150 : float := Eval vm_compute in PyFloat.decimal 1 (-150).
Definition f1e150 : float := Eval vm_compute in PyFloat.decimal 1 150.

(** The four verdicts in increasing order. *)
Definition level (verdict : string) : Z :=
  if String.eqb verdict "Underweight" then 0
  else if String.eqb verdict "Normal" then 1
  else if String.eqb verdict "Overweight" then 2
  else 3.

(** A float that is not below zero: its sign bit is clear, or it is NaN. *)
Definition unsigned (x : float) : Prop :=
  match x with
  | S754_zero false | S754_infinity false | S754_finite false _ _ | S754_nan => True
  | _ => False
  end.

(** No two of the elements have equal keys. *)
Definition no_ties {A : Type} (key : A -> num) (l : list A) : Prop :=
  NoDup l /\
  forall x y, In x l -> In y l -> num_eq (key x) (key y) = true -> x = y.

Definition key_lt {A : Type} (key : A -> num) (x y : A) : Prop :=
  num_lt (key x) (key y) = true.

(** * Properties *)

(** ** The order of the floats *)

Lemma lex3_Lt (a b : Z * Z * Z) : lex3 a b = Lt <-> lexlt a b.
Proof.
  destruct a as [[a1 a2] a3], b as [[b1 b2] b3]; unfold lex3, lexlt.
  destruct (Z.compare_spec a1 b1), (Z.compare_spec a2 b2),
    (Z.compare_spec a3 b3); split; intros; try discriminate; try lia;
    reflexivity.
Qed.

Lemma lex3_Eq (a b : Z * Z * Z) : lex3 a b = Eq <-> a = b.
Proof.
  destruct a as [[a1 a2] a3], b as [[b1 b2] b3]; unfold lex3.
  destruct (Z.compare_spec a1 b1), (Z.compare_spec a2 b2),
    (Z.compare_spec a3 b3); split; intros E; try discriminate;
    try (injection E; intros; lia); subst; reflexivity.
Qed.

Lemma lex3_Gt (a b : Z * Z * Z) : lex3 a b = Gt <-> lexlt b a.
Proof.
  destruct a as [[a1 a2] a3], b as [[b1 b2] b3]; unfold lex3, lexlt.
  destruct (Z.compare_spec a1 b1), (Z.compare_spec a2 b2),
    (Z.compare_spec a3 b3); split; intros; try discriminate; try lia;
    reflexivity.
Qed.

Lemma SFcompare_nan_r (x : float) : SFcompare x S754_nan = None.
Proof. destruct x; reflexivity. Qed.

Lemma SFcompare_rank (x y : float) :
  PyFloat.is_nan x = false -> PyFloat.is_nan y = false ->
  SFcompare x y = Some (lex3 (rank x) (rank y)).
Proof.
  destruct x as [s|s| |s m e], y as [t|t| |t n g]; simpl; intros Hx Hy;
    try discriminate; try (destruct s); try (destruct t); try reflexivity;
    unfold lex3, rank.
  rewrite Z.compare_refl, Z.compare_opp, (Z.compare_antisym e g).
  destruct (e ?= g); reflexivity.
Qed.

(** The comparisons as statements on ranks. *)
Lemma lt_rank (x y : float) :
  PyFloat.lt x y = true <->
  PyFloat.is_nan x = false /\ PyFloat.is_nan y = false /\ lexlt (rank x) (rank y).
Proof.
  unfold PyFloat.lt, SFltb.
  destruct (PyFloat.is_nan x) eqn:Hx.
  { destruct x; try discriminate. simpl. split; [discriminate | intros [H _]; discriminate]. }
  destruct (PyFloat.is_nan y) eqn:Hy.
  { destruct y; try discriminate. rewrite SFcompare_nan_r.
    split; [discriminate | intros [_ [H _]]; discriminate]. }
  rewrite (SFcompare_rank x y Hx Hy), <- lex3_Lt.
  destruct (lex3 (rank x) (rank y)); split; intros H; try discriminate;
    try (apply proj2, proj2 in H; discriminate); auto.
Qed.

Lemma eq_rank (x y : float) :
  PyFloat.eq x y = true <->
  PyFloat.is_nan x = false /\ PyFloat.is_nan y = false /\ rank x = rank y.
Proof.
  unfold PyFloat.eq, SFeqb.
  destruct (PyFloat.is_nan x) eqn:Hx.
  { destruct x; try discriminate. simpl. split; [discriminate | intros [H _]; discriminate]. }
  destruct (PyFloat.is_nan y) eqn:Hy.
  { destruct y; try discriminate. rewrite SFcompare_nan_r.
    split; [discriminate | intros [_ [H _]]; discriminate]. }
  rewrite (SFcompare_rank x y Hx Hy), <- lex3_Eq.
  destruct (lex3 (rank x) (rank y)); split; intros H; try discriminate;
    try (apply proj2, proj2 in H; discriminate); auto.
Qed.

Lemma le_rank (x y : float) :
  PyFloat.le x y = true <->
  PyFloat.is_nan x = false /\ PyFloat.is_nan y = false /\
  (lexlt (rank x) (rank y) \/ rank x = rank y).
Proof.
  unfold PyFloat.le, SFleb.
  destruct (PyFloat.is_nan x) eqn:Hx.
  { destruct x; try discriminate. simpl. split; [discriminate | intros [H _]; discriminate]. }
  destruct (PyFloat.is_nan y) eqn:Hy.
  { destruct y; try discriminate. rewrite SFcompare_nan_r.
    split; [discriminate | intros [_ [H _]]; discriminate]. }
  rewrite (SFcompare_rank x y Hx Hy), <- lex3_Lt, <- lex3_Eq.
  destruct (lex3 (rank x) (rank y)); split; intros H; try discriminate; auto.
  destruct H as [_ [_ [H | H]]]; discriminate.
Qed.

Lemma lt_false_rank (x y : float) :
  PyFloat.is_nan x = false -> PyFloat.is_nan y = false ->
  PyFloat.lt x y = false ->
  lexlt (rank y) (rank x) \/ rank x = rank y.
Proof.
  intros Hx Hy. unfold PyFloat.lt, SFltb.
  rewrite (SFcompare_rank x y Hx Hy), <- lex3_Gt, <- lex3_Eq.
  destruct (lex3 (rank x) (rank y)); intros H; try discriminate; auto.
Qed.

(** Turns float comparisons among the hypotheses and in the goal into linear
    arithmetic on the components of the ranks. *)
Ltac float_order :=
  repeat match goal with
  | H : PyFloat.lt _ _ = true |- _ => apply lt_rank in H; destruct H as (? & ? & H)
  | H : PyFloat.le _ _ = true |- _ => apply le_rank in H; destruct H as (? & ? & H)
  | H : PyFloat.eq _ _ = true |- _ => apply eq_rank in H; destruct H as (? & ? & H)
  | H : PyFloat.ge _ _ = true |- _ => unfold PyFloat.ge in H; fold (PyFloat.le) in H
  | H : PyFloat.gt _ _ = true |- _ => unfold PyFloat.gt in H; fold (PyFloat.lt) in H
  end;
  repeat match goal with
  | |- context [rank ?x] =>
      let a := fresh "r" in let b := fresh "r" in let c := fresh "r" in
      destruct (rank x) as [[a b] c]
  | H : context [rank ?x] |- _ =>
      let a := fresh "r" in let b := fresh "r" in let c := fresh "r" in
      destruct (rank x) as [[a b] c]
  end;
  unfold lexlt in *;
  repeat match goal with
  | H : (_, _, _) = (_, _, _) |- _ => injection H as ? ? ?
  | H : _ \/ (_, _, _) = (_, _, _) |- _ => destruct H as [H | H]
  end.

Lemma le_not_lt (x y : float) :
  PyFloat.le x y = true -> PyFloat.lt y x = false.
Proof.
  intros H. destruct (PyFloat.lt y x) eqn:E; [|reflexivity].
  exfalso. float_order; lia.
Qed.

Lemma le_trans (x y z : float) :
  PyFloat.le x y = true -> PyFloat.le y z = true -> PyFloat.le x z = true.
Proof.
  intros H1 H2. apply le_rank.
  apply le_rank in H1. destruct H1 as (Hx & Hy & H1).
  apply le_rank in H2. destruct H2 as (_ & Hz & H2).
  repeat split; auto.
  float_order; try (left; lia); right; f_equal; try f_equal; lia.
Qed.

(** The constants are binary64 values in canonical form. *)
Lemma constants_valid :
  forallb PyFloat.valid
    [f0; f18_5; f25; f30; f1_70; f70_0; f24_22; f1_60; f45_0; f17_58;
     f27_34; f15_57; f1e_200; f1e200] = true.
Proof. reflexivity. Qed.

(** ** The [bmi] and [verdict] properties *)

Lemma pow2_Raise {L : PyFloat.Libm} (x : float) (e : exn) :
  PyFloat.pow2 x = Raise e -> e = OverflowError.
Proof.
  unfold PyFloat.pow2. destruct x as [s|s| |s m g]; try discriminate.
  destruct (PyFloat.eq _ PyFloat.one); [discriminate|].
  destruct (PyFloat.libm_pow2 _) as [ix erange].
  destruct (if erange then _ else _); intros H; inversion H; reflexivity.
Qed.

(** A base that is positive, finite and not 1.0 goes to the C library: when
    the library leaves [errno] alone and returns a finite value, that value
    is the square. *)
Lemma pow2_libm {L : PyFloat.Libm} (m : positive) (e : Z) (y : float) :
  PyFloat.eq (S754_finite false m e) PyFloat.one = false ->
  PyFloat.libm_pow2 (S754_finite false m e) = (y, false) ->
  PyFloat.is_inf y = false ->
  PyFloat.pow2 (S754_finite false m e) = Ok y.
Proof.
  intros N E I. unfold PyFloat.pow2. rewrite N, E, I. reflexivity.
Qed.

Lemma sign_unsigned (x : float) : PyFloat.sign x = false <-> unsigned x.
Proof.
  destruct x as [[|]|[|]| |[|] m e]; simpl; split; intros H;
    try discriminate; try contradiction; auto.
Qed.

(** The square that [**] returns is not negative. *)
Lemma pow2_unsigned {L : PyFloat.Libm} (x sq : float) :
  PyFloat.pow2 x = Ok sq -> unsigned sq.
Proof.
  unfold PyFloat.pow2. destruct x as [s|s| |s m g].
  - intros H. inversion H. exact I.
  - intros H. inversion H. exact I.
  - intros H. inversion H. exact I.
  - destruct (PyFloat.eq _ PyFloat.one); [intros H; inversion H; exact I|].
    pose proof (PyFloat.libm_pow2_sign (S754_finite false m g)) as S.
    destruct (PyFloat.libm_pow2 _) as [ix erange]. simpl in S.
    destruct (if erange then _ else _); intros H; inversion H. subst ix.
    apply sign_unsigned. exact S.
Qed.

Lemma bmi_of_square {L : PyFloat.Libm} (p : Patient.t) (sq : float) :
  PyFloat.pow2 (Patient.height p) = Ok sq -> PyFloat.is_zero sq = false ->
  Patient.bmi p = Ok (PyFloat.round (PyFloat.div (Patient.weight p) sq) 2).
Proof.
  intros E Z. unfold Patient.bmi, PyFloat.truediv. rewrite E. simpl.
  rewrite Z. reflexivity.
Qed.

Lemma bmi_defined_iff {L : PyFloat.Libm} (h : float) :
  bmi_defined h = true <->
  exists sq, PyFloat.pow2 h = Ok sq /\ PyFloat.is_zero sq = false.
Proof.
  unfold bmi_defined. destruct (PyFloat.pow2 h) as [sq|e]; split.
  - intros H. exists sq. split; [reflexivity|].
    destruct (PyFloat.is_zero sq); [discriminate | reflexivity].
  - intros (sq' & E & Z). inversion E. subst sq'. rewrite Z. reflexivity.
  - discriminate.
  - intros (sq' & E & _). discriminate.
Qed.

Lemma bmi_Ok_inv {L : PyFloat.Libm} (p : Patient.t) (b : float) :
  Patient.bmi p = Ok b ->
  exists sq,
    PyFloat.pow2 (Patient.height p) = Ok sq /\ PyFloat.is_zero sq = false /\
    b = PyFloat.round (PyFloat.div (Patient.weight p) sq) 2.
Proof.
  unfold Patient.bmi, PyFloat.truediv.
  destruct (PyFloat.pow2 (Patient.height p)) as [sq|e]; [|discriminate]. simpl.
  destruct (PyFloat.is_zero sq) eqn:Z; [discriminate|].
  intros H. inversion H. exists sq. auto.
Qed.

Lemma bmi_Raise {L : PyFloat.Libm} (p : Patient.t) (e : exn) :
  Patient.bmi p = Raise e -> e = ZeroDivisionError \/ e = OverflowError.
Proof.
  unfold Patient.bmi, PyFloat.truediv.
  destruct (PyFloat.pow2 (Patient.height p)) as [sq|e'] eqn:E; simpl.
  - destruct (PyFloat.is_zero sq); intros H; inversion H. left. reflexivity.
  - intros H. inversion H. subst e'. right. apply (pow2_Raise _ _ E).
Qed.

Lemma bmi_when_defined {L : PyFloat.Libm} (p : Patient.t) :
  bmi_defined (Patient.height p) = true -> exists b, Patient.bmi p = Ok b.
Proof.
  intros H. apply bmi_defined_iff in H. destruct H as (sq & E & Z).
  eexists. apply (bmi_of_square p sq E Z).
Qed.

Lemma bmi_undefined {L : PyFloat.Libm} (p : Patient.t) :
  bmi_defined (Patient.height p) = false -> exists e, Patient.bmi p = Raise e.
Proof.
  intros H. destruct (Patient.bmi p) as [b|e] eqn:E; [|eauto].
  apply bmi_Ok_inv in E. destruct E as (sq & E & Z & _).
  assert (D : bmi_defined (Patient.height p) = true)
    by (apply bmi_defined_iff; eauto).
  congruence.
Qed.

Lemma verdict_of_bmi {L : PyFloat.Libm} (p : Patient.t) (b : float) :
  Patient.bmi p = Ok b -> Patient.verdict p = Ok (Patient.classify b).
Proof. unfold Patient.verdict. intros ->. reflexivity. Qed.

(** The bmi of a weight over each of the three squares an accurate [pow]
    can return for the height. *)
Lemma bmi_of_accurate_square {L : PyFloat.Libm} (p : Patient.t) (m : positive)
  (e : Z) (b : float) :
  Patient.height p = S754_finite false m e ->
  PyFloat.eq (S754_finite false m e) PyFloat.one = false ->
  within_one_ulp (S754_finite false m e) ->
  (forall sq,
     sq = PyFloat.mul (S754_finite false m e) (S754_finite false m e) \/
     sq = next_up (PyFloat.mul (S754_finite false m e) (S754_finite false m e)) \/
     sq = next_down (PyFloat.mul (S754_finite false m e) (S754_finite false m e)) ->
     PyFloat.is_inf sq = false /\ PyFloat.is_zero sq = false /\
     PyFloat.round (PyFloat.div (Patient.weight p) sq) 2 = b) ->
  Patient.bmi p = Ok b.
Proof.
  intros Hh N (y & E & Hy) H.
  destruct (H y Hy) as (I & Z & R).
  rewrite <- R. apply bmi_of_square; [|exact Z].
  rewrite Hh. apply pow2_libm; assumption.
Qed.

(** C1, as amended.  For every height > 0 and weight > 0 such that
    [height ** 2] returns a square that is not zero, [bmi] returns
    [round(weight / square, 2)], the square being the one the C library's
    [pow] computes.  With a [pow] that is accurate to one unit in the last
    place at the height, height 1.70 and weight 70.0 give 24.22, and height
    1.60 and weight 45.0 give 17.58. *)
Theorem bmi_rounded_quotient {L : PyFloat.Libm} :
  (forall (p : Patient.t) (sq : float),
     positive_ok (Patient.height p) = true ->
     positive_ok (Patient.weight p) = true ->
     PyFloat.pow2 (Patient.height p) = Ok sq ->
     PyFloat.is_zero sq = false ->
     Patient.bmi p = Ok (PyFloat.round (PyFloat.div (Patient.weight p) sq) 2)) /\
  (forall p : Patient.t,
     Patient.height p = PyFloat.decimal 170 (-2) ->
     Patient.weight p = PyFloat.decimal 700 (-1) ->
     within_one_ulp (PyFloat.decimal 170 (-2)) ->
     Patient.bmi p = Ok (PyFloat.decimal 2422 (-2))) /\
  (forall p : Patient.t,
     Patient.height p = PyFloat.decimal 160 (-2) ->
     Patient.weight p = PyFloat.decimal 450 (-1) ->
     within_one_ulp (PyFloat.decimal 160 (-2)) ->
     Patient.bmi p = Ok (PyFloat.decimal 1758 (-2))).
Proof.
  split; [|split].
  - intros p sq _ _ E Z. apply (bmi_of_square p sq E Z).
  - intros p Hh Hw A.
    change (PyFloat.decimal 170 (-2)) with f1_70 in *. unfold f1_70 in *.
    apply (bmi_of_accurate_square p _ _ _ Hh); [reflexivity | exact A |].
    intros sq [-> | [-> | ->]]; rewrite Hw; vm_compute; auto.
  - intros p Hh Hw A.
    change (PyFloat.decimal 160 (-2)) with f1_60 in *. unfold f1_60 in *.
    apply (bmi_of_accurate_square p _ _ _ Hh); [reflexivity | exact A |].
    intros sq [-> | [-> | ->]]; rewrite Hw; vm_compute; auto.
Qed.

Lemma sample_within_one_ulp (x : float) :
  PyFloat.eq x f2_759 = false -> within_one_ulp x.
Proof.
  intros N. exists (PyFloat.mul x x). split; [|left; reflexivity].
  simpl. unfold sample_pow2. rewrite N. reflexivity.
Qed.

Lemma bmi_rounded_quotient_witness :
  Patient.bmi asha
  = Ok (PyFloat.round (PyFloat.div f70_0 (PyFloat.mul f1_70 f1_70)) 2) /\
  Patient.bmi asha = Ok (PyFloat.decimal 2422 (-2)) /\
  Patient.bmi ravi = Ok (PyFloat.decimal 1758 (-2)).
Proof.
  split; [|split].
  - apply (proj1 bmi_rounded_quotient asha (PyFloat.mul f1_70 f1_70));
      reflexivity.
  - apply (proj1 (proj2 bmi_rounded_quotient) asha); try reflexivity.
    apply sample_within_one_ulp. reflexivity.
  - apply (proj2 (proj2 bmi_rounded_quotient) ravi); try reflexivity.
    apply sample_within_one_ulp. reflexivity.
Defined.

(** C1 as stated fails: a height of 1e-200 is greater than 0, its square
    underflows to 0.0, and the division raises; a height of 1e200 squares
    out of range.  Both bodies pass the validation of [Patient], and the
    POST endpoint answers with the exception and stores nothing. *)
Lemma bmi_not_total :
  positive_ok f1e_200 = true /\ positive_ok f70_0 = true /\
  Patient.bmi (with_height f1e_200 asha) = Raise ZeroDivisionError /\
  post_patient (body_of (with_height f1e_200 asha)) [] = (Raise ZeroDivisionError, []) /\
  positive_ok f1e200 = true /\
  Patient.bmi (with_height f1e200 asha) = Raise OverflowError.
Proof. repeat split; vm_compute; reflexivity. Qed.

(** The two failures do not depend on the C library: the exact square of
    1e-200 is below every positive float and that of 1e200 above every
    finite one, so a [pow] that returns 0.0 for the first and [inf] for the
    second, whatever it does to [errno], gives the same results. *)
Lemma tiny_and_huge_heights_any_library {L : PyFloat.Libm} (flag : bool) :
  (PyFloat.libm_pow2 f1e_200 = (S754_zero false, flag) ->
   Patient.bmi (with_height f1e_200 asha) = Raise ZeroDivisionError) /\
  (PyFloat.libm_pow2 f1e200 = (S754_infinity false, flag) ->
   Patient.bmi (with_height f1e200 asha) = Raise OverflowError).
Proof.
  split; intros E; unfold Patient.bmi, with_height; simpl Patient.height.
  - unfold f1e_200 in *. unfold PyFloat.pow2.
    change (PyFloat.eq _ PyFloat.one) with false. cbv iota. rewrite E.
    destruct flag; reflexivity.
  - unfold f1e200 in *. unfold PyFloat.pow2.
    change (PyFloat.eq _ PyFloat.one) with false. cbv iota. rewrite E.
    destruct flag; reflexivity.
Qed.

(** Where the square of the C library is not the correctly rounded one, the
    bmi follows the library.  At height 2.759 glibc returns the float below
    the correctly rounded square, which is within one unit in the last
    place; with weight 140.785438095 the bmi is 18.5 and the verdict Normal,
    and that is the record a create stores, where the correctly rounded
    square would give 18.49 and Underweight. *)
Lemma bmi_follows_the_library :
  let p := Patient.mk "P009" "Tara" "Kochi" 30 "female" f2_759 f140_785438095 in
  within_one_ulp f2_759 /\
  Patient.bmi p = Ok f18_5 /\
  Patient.verdict p = Ok "Normal" /\
  post_patient (body_of p) []
  = (Ok (Response 200 "Patient data created successfully"),
     [("P009", Info.mk "Tara" "Kochi" 30 "female" f2_759 f140_785438095 f18_5
                 "Normal")]) /\
  PyFloat.round (PyFloat.div f140_785438095 (PyFloat.mul f2_759 f2_759)) 2 = f18_49 /\
  Patient.classify f18_49 = "Underweight".
Proof.
  split.
  - eexists. split; [reflexivity|]. right. right. reflexivity.
  - repeat split; vm_compute; reflexivity.
Qed.

(** C2.  For every bmi value the verdict is the step function: below 18.5
    Underweight, from 18.5 and below 25 Normal, from 25 and below 30
    Overweight, from 30 Obese; the [verdict] property is that function of
    the [bmi] property. *)
Theorem verdict_step_function {L : PyFloat.Libm} :
  (forall b : float,
     (PyFloat.lt b f18_5 = true -> Patient.classify b = "Underweight") /\
     (PyFloat.ge b f18_5 = true -> PyFloat.lt b f25 = true ->
      Patient.classify b = "Normal") /\
     (PyFloat.ge b f25 = true -> PyFloat.lt b f30 = true ->
      Patient.classify b = "Overweight") /\
     (PyFloat.ge b f30 = true -> Patient.classify b = "Obese")) /\
  (forall (p : Patient.t) (b : float),
     Patient.bmi p = Ok b -> Patient.verdict p = Ok (Patient.classify b)).
Proof.
  split; [|exact verdict_of_bmi].
  intros b. unfold Patient.classify, PyFloat.ge.
  assert (L1 : PyFloat.le f18_5 f25 = true) by reflexivity.
  assert (L2 : PyFloat.le f25 f30 = true) by reflexivity.
  repeat split.
  - intros ->. reflexivity.
  - intros H1 H2. fold (PyFloat.le f18_5 b) in *.
    rewrite (le_not_lt _ _ H1), H1, H2. reflexivity.
  - intros H1 H2. fold (PyFloat.le f25 b) in *. fold (PyFloat.le f18_5 b).
    pose proof (le_trans _ _ _ L1 H1) as H0.
    rewrite (le_not_lt _ _ H0), H0, (le_not_lt _ _ H1), H1, H2. reflexivity.
  - intros H1. fold (PyFloat.le f30 b) in *.
    fold (PyFloat.le f18_5 b). fold (PyFloat.le f25 b).
    pose proof (le_trans _ _ _ L2 H1) as H2.
    pose proof (le_trans _ _ _ L1 H2) as H3.
    rewrite (le_not_lt _ _ H3), H3, (le_not_lt _ _ H2), H2, (le_not_lt _ _ H1).
    reflexivity.
Qed.

Lemma verdict_step_function_witness :
  Patient.classify f17_58 = "Underweight" /\
  Patient.classify f24_22 = "Normal" /\
  Patient.classify (PyFloat.decimal 275 (-1)) = "Overweight" /\
  Patient.classify f30 = "Obese" /\
  Patient.verdict asha = Ok (Patient.classify f24_22).
Proof.
  split; [|split; [|split; [|split]]].
  - apply (proj1 (proj1 verdict_step_function f17_58)); reflexivity.
  - apply (proj1 (proj2 (proj1 verdict_step_function f24_22))); reflexivity.
  - apply (proj1 (proj2 (proj2 (proj1 verdict_step_function _)))); reflexivity.
  - apply (proj2 (proj2 (proj2 (proj1 verdict_step_function f30)))); reflexivity.
  - apply (proj2 verdict_step_function asha); reflexivity.
Defined.

(** Outside NaN the four brackets cover every value; a NaN bmi, which is in
    no bracket, falls to the last branch. *)
Lemma brackets_exhaustive (b : float) :
  PyFloat.is_nan b = false ->
  PyFloat.lt b f18_5 = true \/
  (PyFloat.ge b f18_5 = true /\ PyFloat.lt b f25 = true) \/
  (PyFloat.ge b f25 = true /\ PyFloat.lt b f30 = true) \/
  PyFloat.ge b f30 = true.
Proof.
  intros Hb. unfold PyFloat.ge. fold (PyFloat.le f18_5 b).
  fold (PyFloat.le f25 b). fold (PyFloat.le f30 b).
  assert (T : forall c, PyFloat.is_nan c = false ->
                        PyFloat.lt b c = false -> PyFloat.le c b = true).
  { intros c Hc H. apply le_rank. repeat split; auto.
    destruct (lt_false_rank b c Hb Hc H) as [H'|H']; auto. }
  destruct (PyFloat.lt b f18_5) eqn:E1; auto.
  destruct (PyFloat.lt b f25) eqn:E2; [right; left; auto|].
  destruct (PyFloat.lt b f30) eqn:E3; [right; right; left; auto|].
  right; right; right; auto.
Qed.

Lemma classify_nan : Patient.classify S754_nan = "Obese".
Proof. reflexivity. Qed.

(** ** Validation *)

Lemma literal_In (choices : list string) (s : string) :
  literal choices s = true <-> In s choices.
Proof.
  unfold literal. rewrite existsb_exists. split.
  - intros [x [Hin Heq]]. apply String.eqb_eq in Heq. subst. exact Hin.
  - intros Hin. exists s. split; [exact Hin | apply String.eqb_refl].
Qed.

Lemma check_nil {T : Type} (field : string) (ok : T -> bool) (v : option T) :
  check field ok v = [] <-> exists x, v = Some x /\ ok x = true.
Proof.
  unfold check. destruct v as [x|].
  - destruct (ok x) eqn:E; split.
    + intros _. exists x. split; auto.
    + reflexivity.
    + discriminate.
    + intros [y [Hy Hok]]. inversion Hy. subst. congruence.
  - split; [discriminate | intros [x [Hx _]]; discriminate].
Qed.

Lemma check_In {T : Type} (field f : string) (ok : T -> bool) (v : option T) :
  In f (check field ok v) <-> f = field /\ forall x, v = Some x -> ok x = false.
Proof.
  unfold check. destruct v as [x|].
  - destruct (ok x) eqn:E; simpl; split.
    + intros [].
    + intros [_ H]. specialize (H x eq_refl). congruence.
    + intros [H|[]]. split; [auto|]. intros y Hy. inversion Hy. subst. exact E.
    + intros [H _]. left. auto.
  - simpl. split.
    + intros [H|[]]. split; [auto|]. intros x Hx. discriminate.
    + intros [H _]. left. auto.
Qed.

Lemma Patient_errors_nil (k : PatientArgs.t) :
  Patient_errors k = [] ->
  exists i n c a g h w,
    k = PatientArgs.mk (Some i) (Some n) (Some c) (Some a) (Some g) (Some h) (Some w) /\
    age_ok a = true /\ gender_ok g = true /\
    positive_ok h = true /\ positive_ok w = true.
Proof.
  unfold Patient_errors. intros H.
  repeat match type of H with
  | _ ++ _ = [] => apply app_eq_nil in H; destruct H as [?H H]
  end.
  repeat match goal with
  | E : check _ _ _ = [] |- _ => apply check_nil in E; destruct E as (? & ? & ?)
  end.
  destruct k; simpl in *; subst.
  do 7 eexists. split; [reflexivity|]. auto.
Qed.

Lemma Patient_new_Ok (i n c : string) (a : Z) (g : string) (h w : float) :
  age_ok a = true -> gender_ok g = true ->
  positive_ok h = true -> positive_ok w = true ->
  Patient_new (PatientArgs.mk (Some i) (Some n) (Some c) (Some a) (Some g) (Some h) (Some w))
  = Ok (Patient.mk i n c a g h w).
Proof.
  intros Ha Hg Hh Hw. unfold Patient_new, Patient_errors, check. simpl.
  rewrite Ha, Hg, Hh, Hw. reflexivity.
Qed.

Lemma Patient_new_Raise (k : PatientArgs.t) :
  Patient_errors k <> [] ->
  Patient_new k = Raise (ValidationError (Patient_errors k)).
Proof.
  intros H. unfold Patient_new.
  destruct (Patient_errors k) eqn:E; [congruence|].
  destruct k as [[?|] [?|] [?|] [?|] [?|] [?|] [?|]]; reflexivity.
Qed.

Lemma Patient_new_Ok_inv (k : PatientArgs.t) (p : Patient.t) :
  Patient_new k = Ok p ->
  k = body_of p /\
  age_ok (Patient.age p) = true /\ gender_ok (Patient.gender p) = true /\
  positive_ok (Patient.height p) = true /\ positive_ok (Patient.weight p) = true.
Proof.
  intros H.
  destruct (Patient_errors k) eqn:E.
  - destruct (Patient_errors_nil k E) as (i & n & c & a & g & h & w & -> & Ha & Hg & Hh & Hw).
    rewrite (Patient_new_Ok i n c a g h w Ha Hg Hh Hw) in H. inversion H. subst p.
    simpl. auto.
  - rewrite Patient_new_Raise in H by congruence. discriminate.
Qed.

Lemma age_ok_iff (a : Z) : age_ok a = true <-> 0 < a < 120.
Proof. unfold age_ok. rewrite andb_true_iff, !Z.ltb_lt. tauto. Qed.

Lemma gender_ok_iff (g : string) :
  gender_ok g = true <-> In g ["male"; "female"; "others"].
Proof. apply literal_In. Qed.

Lemma not_true_false (b : bool) : ~ b = true <-> b = false.
Proof. destruct b; split; congruence. Qed.

Lemma violates_errors (body : PatientArgs.t) :
  violates body -> Patient_errors body <> [].
Proof.
  intros V E.
  destruct (Patient_errors_nil body E) as (i & n & c & a & g & h & w & -> & Ha & Hg & Hh & Hw).
  destruct V as [V | [V | [V | [V | [V | [V | V]]]]]]; simpl in V;
    try discriminate.
  - apply (V a eq_refl). apply age_ok_iff. exact Ha.
  - apply (V g eq_refl). apply gender_ok_iff. exact Hg.
  - specialize (V h eq_refl). unfold positive_ok in Hh. congruence.
  - specialize (V w eq_refl). unfold positive_ok in Hw. congruence.
Qed.

(** A body that [Patient] refuses breaks a constraint. *)
Lemma errors_violates (body : PatientArgs.t) :
  Patient_errors body <> [] -> violates body.
Proof.
  intros E. unfold violates.
  destruct body as [[i|] [n|] [c|] [a|] [g|] [h|] [w|]]; simpl; auto;
    try (do 3 right; left; intros ? ?; discriminate);
    try (do 4 right; left; intros ? ?; discriminate);
    try (do 5 right; left; intros ? ?; discriminate);
    try (do 6 right; intros ? ?; discriminate).
  destruct (age_ok a) eqn:Ha.
  2:{ do 3 right. left. intros a' Q. inversion Q. subst a'. intros Hin.
      assert (age_ok a = true) by (apply age_ok_iff; exact Hin). congruence. }
  destruct (gender_ok g) eqn:Hg.
  2:{ do 4 right. left. intros g' Q. inversion Q. subst g'. intros Hin.
      assert (gender_ok g = true) by (apply gender_ok_iff; exact Hin).
      congruence. }
  destruct (positive_ok h) eqn:Hh.
  2:{ do 5 right. left. intros h' Q. inversion Q. subst h'. exact Hh. }
  destruct (positive_ok w) eqn:Hw.
  2:{ do 6 right. intros w' Q. inversion Q. subst w'. exact Hw. }
  exfalso. apply E. unfold Patient_errors, check. simpl.
  rewrite Ha, Hg, Hh, Hw. reflexivity.
Qed.

Ltac errors_field :=
  unfold Patient_errors; rewrite !in_app_iff, !check_In; split;
  [ intros H x Hx;
    repeat match goal with
    | H : _ \/ _ |- _ => destruct H as [H | H]
    end; destruct H as [N H]; try discriminate N; auto
  | intros H;
    repeat (first [ solve [left; split; [reflexivity | exact H]] | right ]);
    try solve [split; [reflexivity | exact H]] ].

Lemma In_errors_id (body : PatientArgs.t) :
  In "id" (Patient_errors body) <->
  forall i, PatientArgs.id body = Some i -> any_str i = false.
Proof. errors_field. Qed.

Lemma In_errors_name (body : PatientArgs.t) :
  In "name" (Patient_errors body) <->
  forall n, PatientArgs.name body = Some n -> any_str n = false.
Proof. errors_field. Qed.

Lemma In_errors_city (body : PatientArgs.t) :
  In "city" (Patient_errors body) <->
  forall c, PatientArgs.city body = Some c -> any_str c = false.
Proof. errors_field. Qed.

Lemma required_str (v : option string) :
  (forall x, v = Some x -> any_str x = false) <-> v = None.
Proof.
  destruct v as [x|]; split; intros H.
  - specialize (H x eq_refl). discriminate.
  - discriminate.
  - reflexivity.
  - intros x Q. discriminate.
Qed.

Lemma In_errors_age (body : PatientArgs.t) :
  In "age" (Patient_errors body) <->
  forall a, PatientArgs.age body = Some a -> age_ok a = false.
Proof. errors_field. Qed.

Lemma In_errors_gender (body : PatientArgs.t) :
  In "gender" (Patient_errors body) <->
  forall g, PatientArgs.gender body = Some g -> gender_ok g = false.
Proof. errors_field. Qed.

Lemma In_errors_height (body : PatientArgs.t) :
  In "height" (Patient_errors body) <->
  forall h, PatientArgs.height body = Some h -> positive_ok h = false.
Proof. errors_field. Qed.

Lemma In_errors_weight (body : PatientArgs.t) :
  In "weight" (Patient_errors body) <->
  forall w, PatientArgs.weight body = Some w -> positive_ok w = false.
Proof. errors_field. Qed.

Lemma forall_iff {T : Type} (v : option T) (P Q : T -> Prop) :
  (forall x, P x <-> Q x) ->
  (forall x, v = Some x -> P x) <-> (forall x, v = Some x -> Q x).
Proof. intros H. split; intros G x Hx; apply H; auto. Qed.

(** C5, as amended.  On create a body is rejected with a ValidationError,
    and nothing is stored, exactly when it breaks a constraint of [Patient]:
    id, name, city, age, gender, height or weight is missing, the age is not
    strictly between 0 and 120, the gender is outside male, female, others,
    the height is not > 0 or the weight is not > 0; the error lists the
    fields that fail and no other.  id, name and city only have to be
    present: a body that breaks none of these constraints passes the
    validation whatever its three strings are.  The body is taken as
    decoded, its age an integer and its height and weight floats. *)
Theorem create_rejects_out_of_range {L : PyFloat.Libm} (body : PatientArgs.t)
  (file : dict) :
  (violates body ->
   exists fields,
     fields <> [] /\
     post_patient body file = (Raise (ValidationError fields), file) /\
     (In "id" fields <-> PatientArgs.id body = None) /\
     (In "name" fields <-> PatientArgs.name body = None) /\
     (In "city" fields <-> PatientArgs.city body = None) /\
     (In "age" fields <->
      forall a, PatientArgs.age body = Some a -> ~ 0 < a < 120) /\
     (In "gender" fields <->
      forall g, PatientArgs.gender body = Some g ->
                ~ In g ["male"; "female"; "others"]) /\
     (In "height" fields <->
      forall h, PatientArgs.height body = Some h -> PyFloat.gt h f0 = false) /\
     (In "weight" fields <->
      forall w, PatientArgs.weight body = Some w -> PyFloat.gt w f0 = false)) /\
  (~ violates body ->
   exists i n c a g h w,
     body = PatientArgs.mk (Some i) (Some n) (Some c) (Some a) (Some g) (Some h)
              (Some w) /\
     Patient_new body = Ok (Patient.mk i n c a g h w) /\
     forall e, fst (post_patient body file) <> Raise (ValidationError e)).
Proof.
  split.
  - intros V. exists (Patient_errors body).
    pose proof (violates_errors body V) as E.
    split; [exact E|]. split; [|repeat split].
    + unfold post_patient. rewrite (Patient_new_Raise body E). reflexivity.
    + rewrite In_errors_id. apply required_str.
    + rewrite In_errors_id. apply required_str.
    + rewrite In_errors_name. apply required_str.
    + rewrite In_errors_name. apply required_str.
    + rewrite In_errors_city. apply required_str.
    + rewrite In_errors_city. apply required_str.
    + rewrite In_errors_age. apply forall_iff. intros a.
      rewrite <- age_ok_iff, not_true_false. tauto.
    + rewrite In_errors_age. apply forall_iff. intros a.
      rewrite <- age_ok_iff, not_true_false. tauto.
    + rewrite In_errors_gender. apply forall_iff. intros g.
      rewrite <- gender_ok_iff, not_true_false. tauto.
    + rewrite In_errors_gender. apply forall_iff. intros g.
      rewrite <- gender_ok_iff, not_true_false. tauto.
    + apply In_errors_height.
    + apply In_errors_height.
    + apply In_errors_weight.
    + apply In_errors_weight.
  - intros NV.
    destruct (Patient_errors body) as [|f fs] eqn:E.
    + destruct (Patient_errors_nil body E)
        as (i & n & c & a & g & h & w & -> & Ha & Hg & Hh & Hw).
      exists i, n, c, a, g, h, w. split; [reflexivity|].
      pose proof (Patient_new_Ok i n c a g h w Ha Hg Hh Hw) as V.
      split; [exact V|].
      intros e. unfold post_patient. rewrite V.
      unfold create_patient_data.
      destruct (dict_in _ _); [discriminate|].
      destruct (model_dump _) as [x|e'] eqn:D; [discriminate|].
      simpl. intros Q. inversion Q. subst e'.
      unfold model_dump in D.
      destruct (Patient.bmi _) as [b|e'] eqn:B; simpl in D.
      * unfold Patient.verdict in D. rewrite B in D. discriminate.
      * inversion D. subst e'. destruct (bmi_Raise _ _ B); discriminate.
    + exfalso. apply NV. apply errors_violates. rewrite E. discriminate.
Qed.

Lemma create_rejects_out_of_range_witness :
  (exists fields,
     fields <> [] /\
     post_patient
       (PatientArgs.mk (Some "P003") (Some "Mira") (Some "Agra") (Some 120)
          (Some "female") (Some f1_60) (Some f45_0)) sample_file
     = (Raise (ValidationError fields), sample_file) /\
     In "age" fields /\ ~ In "name" fields) /\
  Patient_new
    (PatientArgs.mk (Some "") (Some "") (Some "") (Some 34) (Some "female")
       (Some f1_70) (Some f70_0))
  = Ok (Patient.mk "" "" "" 34 "female" f1_70 f70_0).
Proof.
  split.
  - destruct (proj1 (create_rejects_out_of_range
                       (PatientArgs.mk (Some "P003") (Some "Mira") (Some "Agra")
                          (Some 120) (Some "female") (Some f1_60) (Some f45_0))
                       sample_file))
      as (fields & Hne & Hpost & _ & Hname & _ & Hage & _).
    + do 3 right. left. simpl. intros a H. inversion H. lia.
    + exists fields. split; [exact Hne|]. split; [exact Hpost|]. split.
      * apply Hage. simpl. intros a H. inversion H. lia.
      * intros H. apply Hname in H. discriminate.
  - destruct (proj2 (create_rejects_out_of_range
                       (PatientArgs.mk (Some "") (Some "") (Some "") (Some 34)
                          (Some "female") (Some f1_70) (Some f70_0)) []))
      as (i & n & c & a & g & h & w & E & V & _).
    + intros [H | [H | [H | [H | [H | [H | H]]]]]]; simpl in H;
        try discriminate.
      * apply (H 34 eq_refl). lia.
      * apply (H "female" eq_refl). simpl. auto.
      * specialize (H f1_70 eq_refl). discriminate.
      * specialize (H f70_0 eq_refl). discriminate.
    + inversion E. subst. exact V.
Defined.

(** C5 as stated fails: the fields [id], [name] and [city] carry no length
    constraint, so a body whose three strings are empty is accepted and
    stored. *)
Lemma empty_strings_are_stored :
  post_patient
    (PatientArgs.mk (Some "") (Some "") (Some "") (Some 34) (Some "female")
       (Some f1_70) (Some f70_0)) []
  = (Ok (Response 200 "Patient data created successfully"),
     [("", Info.mk "" "" 34 "female" f1_70 f70_0 f24_22 "Normal")]).
Proof. vm_compute. reflexivity. Qed.

(** C6.  [PatientUpdate] declares gender as [Literal['male', 'female']]:
    the value "others", which [Patient] admits, is refused by the update
    model, and the PUT endpoint is never reached with it. *)
Theorem update_refuses_gender_others {L : PyFloat.Libm} :
  gender_ok "others" = true /\
  PatientUpdate.new (PatientUpdate.mk Unset Unset Unset (Val "others") Unset Unset)
  = Raise (ValidationError ["gender"]) /\
  put_patient_edit
    (PatientUpdate.mk Unset Unset Unset (Val "others") Unset Unset) "P001" sample_file
  = (Raise (ValidationError ["gender"]), sample_file).
Proof. repeat split. Qed.

(** Every other value that [Patient] admits can be set through an update. *)
Lemma update_sets_admissible_values
  (n c : string) (a : Z) (g : string) (h w : float) :
  age_ok a = true -> In g ["male"; "female"] ->
  positive_ok h = true -> positive_ok w = true ->
  PatientUpdate.new (PatientUpdate.mk (Val n) (Val c) (Val a) (Val g) (Val h) (Val w))
  = Ok (PatientUpdate.mk (Val n) (Val c) (Val a) (Val g) (Val h) (Val w)).
Proof.
  intros Ha Hg Hh Hw.
  apply age_ok_iff in Ha.
  assert (Ha' : PatientUpdate.age_ok a = true)
    by (unfold PatientUpdate.age_ok; apply Z.ltb_lt; lia).
  assert (Hg' : PatientUpdate.gender_ok g = true) by (apply literal_In; exact Hg).
  unfold PatientUpdate.new, PatientUpdate.errors, check_opt. simpl.
  rewrite Ha', Hg', Hh, Hw. reflexivity.
Qed.

(** ** The mapping *)

Lemma dict_in_get (k : string) (d : dict) :
  dict_in k d = true <-> exists v, dict_get k d = Some v.
Proof.
  unfold dict_in. destruct (dict_get k d) as [v|]; split.
  - intros _. exists v. reflexivity.
  - reflexivity.
  - discriminate.
  - intros [v H]. discriminate.
Qed.

Lemma dict_get_set_eq (k : string) (v : Info.t) (d : dict) :
  dict_get k (dict_set k v d) = Some v.
Proof.
  induction d as [|[k' v'] d IH]; simpl.
  - rewrite String.eqb_refl. reflexivity.
  - destruct (String.eqb k k') eqn:E; simpl; rewrite E; auto.
Qed.

Lemma dict_get_set_neq (k k' : string) (v : Info.t) (d : dict) :
  k <> k' -> dict_get k (dict_set k' v d) = dict_get k d.
Proof.
  intros N. induction d as [|[k0 v0] d IH]; simpl.
  - apply String.eqb_neq in N. rewrite N. reflexivity.
  - destruct (String.eqb k' k0) eqn:E; simpl.
    + apply String.eqb_eq in E. subst k0.
      apply String.eqb_neq in N. rewrite N. reflexivity.
    + destruct (String.eqb k k0); auto.
Qed.

Lemma dict_set_same (k : string) (v : Info.t) (d : dict) :
  dict_get k d = Some v -> dict_set k v d = d.
Proof.
  induction d as [|[k' v'] d IH]; simpl; [discriminate|].
  destruct (String.eqb k k') eqn:E.
  - intros H. inversion H. reflexivity.
  - intros H. rewrite (IH H). reflexivity.
Qed.

Lemma dict_keys_set (k : string) (v : Info.t) (d : dict) :
  dict_in k d = true -> dict_keys (dict_set k v d) = dict_keys d.
Proof.
  unfold dict_in, dict_keys. induction d as [|[k' v'] d IH]; simpl; [discriminate|].
  destruct (String.eqb k k') eqn:E; simpl; [reflexivity|].
  intros H. rewrite (IH H). reflexivity.
Qed.

Lemma dict_keys_set_new (k : string) (v : Info.t) (d : dict) :
  dict_in k d = false -> dict_set k v d = d ++ [(k, v)].
Proof.
  unfold dict_in. induction d as [|[k' v'] d IH]; simpl; [reflexivity|].
  destruct (String.eqb k k') eqn:E; simpl; [discriminate|].
  intros H. rewrite (IH H). reflexivity.
Qed.

Lemma dict_values_set (P : Info.t -> Prop) (k : string) (v : Info.t) (d : dict) :
  Forall P (dict_values d) -> P v -> Forall P (dict_values (dict_set k v d)).
Proof.
  unfold dict_values. intros H Hv.
  induction d as [|[k' v'] d IH]; simpl.
  - constructor; [exact Hv | constructor].
  - inversion H; subst.
    destruct (String.eqb k k'); simpl; constructor; auto.
Qed.

Lemma dict_values_del (P : Info.t -> Prop) (k : string) (d : dict) :
  Forall P (dict_values d) -> Forall P (dict_values (dict_del k d)).
Proof.
  unfold dict_values. intros H.
  induction d as [|[k' v'] d IH]; simpl; [constructor|].
  inversion H; subst.
  destruct (String.eqb k k'); simpl; [assumption|]. constructor; auto.
Qed.

(** ** Create *)

Lemma model_dump_Ok {L : PyFloat.Libm} (p : Patient.t) (sq : float) :
  PyFloat.pow2 (Patient.height p) = Ok sq -> PyFloat.is_zero sq = false ->
  model_dump p =
    Ok (Info.mk (Patient.name p) (Patient.city p) (Patient.age p)
          (Patient.gender p) (Patient.height p) (Patient.weight p)
          (PyFloat.round (PyFloat.div (Patient.weight p) sq) 2)
          (Patient.classify
             (PyFloat.round (PyFloat.div (Patient.weight p) sq) 2))).
Proof.
  intros E Z. unfold model_dump, Patient.verdict.
  rewrite (bmi_of_square p sq E Z). reflexivity.
Qed.

Lemma model_dump_Raise {L : PyFloat.Libm} (p : Patient.t) :
  bmi_defined (Patient.height p) = false -> exists e, model_dump p = Raise e.
Proof.
  intros H. unfold model_dump.
  destruct (bmi_undefined p H) as [e ->]. exists e. reflexivity.
Qed.

Lemma model_dump_Ok_inv {L : PyFloat.Libm} (p : Patient.t) (x : Info.t) :
  model_dump p = Ok x ->
  exists sq,
    PyFloat.pow2 (Patient.height p) = Ok sq /\ PyFloat.is_zero sq = false /\
    x = Info.mk (Patient.name p) (Patient.city p) (Patient.age p)
          (Patient.gender p) (Patient.height p) (Patient.weight p)
          (PyFloat.round (PyFloat.div (Patient.weight p) sq) 2)
          (Patient.classify
             (PyFloat.round (PyFloat.div (Patient.weight p) sq) 2)).
Proof.
  intros H. unfold model_dump, Patient.verdict in H.
  destruct (Patient.bmi p) as [b|e] eqn:B; [|discriminate].
  apply bmi_Ok_inv in B. destruct B as (sq & E & Z & ->).
  simpl in H. inversion H. exists sq. auto.
Qed.

(** The record [model_dump] returns carries the fields of the model. *)
Lemma model_dump_fields {L : PyFloat.Libm} (p : Patient.t) (x : Info.t) :
  model_dump p = Ok x ->
  Info.name x = Patient.name p /\ Info.city x = Patient.city p /\
  Info.age x = Patient.age p /\ Info.gender x = Patient.gender p /\
  Info.height x = Patient.height p /\ Info.weight x = Patient.weight p.
Proof.
  intros H. apply model_dump_Ok_inv in H. destruct H as (sq & _ & _ & ->).
  simpl. repeat split.
Qed.

Lemma model_dump_defined {L : PyFloat.Libm} (p : Patient.t) (x : Info.t) :
  model_dump p = Ok x -> bmi_defined (Patient.height p) = true.
Proof.
  intros H. apply model_dump_Ok_inv in H. destruct H as (sq & E & Z & _).
  apply bmi_defined_iff. eauto.
Qed.

Lemma model_dump_derived {L : PyFloat.Libm} (p : Patient.t) (x : Info.t) :
  model_dump p = Ok x -> derived_ok x.
Proof.
  intros H. apply model_dump_Ok_inv in H. destruct H as (sq & E & Z & ->).
  split; [|reflexivity]. exists sq. simpl. auto.
Qed.

(** Two records with the same height and weight that both satisfy the
    invariant have the same bmi and verdict. *)
Lemma derived_ok_unique {L : PyFloat.Libm} (x y : Info.t) :
  derived_ok x -> derived_ok y ->
  Info.height x = Info.height y -> Info.weight x = Info.weight y ->
  Info.bmi x = Info.bmi y /\ Info.verdict x = Info.verdict y.
Proof.
  intros [(sq & E & _ & B) V] [(sq' & E' & _ & B') V'] Hh Hw.
  rewrite Hh, E' in E. inversion E. subst sq'.
  assert (Q : Info.bmi x = Info.bmi y) by (rewrite B, B', Hw; reflexivity).
  split; [exact Q|]. rewrite V, V', Q. reflexivity.
Qed.

(** C8.  For every store and every candidate whose id is already a key of
    the store, create fails with the 400 "Patient ID already exists"
    conflict and the store is what it was before. *)
Theorem create_duplicate_id_conflict {L : PyFloat.Libm}
  (patient : Patient.t) (file : dict) :
  dict_in (Patient.id patient) file = true ->
  create_patient_data patient file
  = (Raise (HTTPException 400 "Patient ID already exists"), file) /\
  (forall body, Patient_new body = Ok patient ->
     post_patient body file
     = (Raise (HTTPException 400 "Patient ID already exists"), file)).
Proof.
  intros H.
  assert (C : create_patient_data patient file
              = (Raise (HTTPException 400 "Patient ID already exists"), file)).
  { unfold create_patient_data, load_data. rewrite H. reflexivity. }
  split; [exact C|].
  intros body Hb. unfold post_patient. rewrite Hb. exact C.
Qed.

Lemma create_duplicate_id_conflict_witness :
  create_patient_data asha sample_file
  = (Raise (HTTPException 400 "Patient ID already exists"), sample_file) /\
  post_patient (body_of asha) sample_file
  = (Raise (HTTPException 400 "Patient ID already exists"), sample_file).
Proof.
  destruct (create_duplicate_id_conflict asha sample_file) as [H1 H2].
  - reflexivity.
  - split; [exact H1|]. apply H2. reflexivity.
Defined.

(** A body within the constraints, with a fresh id and a height whose
    square is returned and is not zero, is stored behind the records that
    are there. *)
Lemma create_stores_record {L : PyFloat.Libm} (p : Patient.t) (file : dict)
  (sq : float) :
  dict_in (Patient.id p) file = false ->
  age_ok (Patient.age p) = true -> gender_ok (Patient.gender p) = true ->
  positive_ok (Patient.height p) = true -> positive_ok (Patient.weight p) = true ->
  PyFloat.pow2 (Patient.height p) = Ok sq -> PyFloat.is_zero sq = false ->
  post_patient (body_of p) file
  = (Ok (Response 200 "Patient data created successfully"),
     file ++ [(Patient.id p,
               Info.mk (Patient.name p) (Patient.city p) (Patient.age p)
                 (Patient.gender p) (Patient.height p) (Patient.weight p)
                 (PyFloat.round (PyFloat.div (Patient.weight p) sq) 2)
                 (Patient.classify
                    (PyFloat.round (PyFloat.div (Patient.weight p) sq) 2)))]).
Proof.
  intros Hid Ha Hg Hh Hw Hb Hz. destruct p as [i n c a g h w]; simpl in *.
  unfold post_patient, body_of. simpl.
  rewrite (Patient_new_Ok i n c a g h w Ha Hg Hh Hw).
  unfold create_patient_data, load_data, save_data. simpl. rewrite Hid.
  rewrite (model_dump_Ok (Patient.mk i n c a g h w) sq Hb Hz). simpl.
  rewrite (dict_keys_set_new i _ file Hid). reflexivity.
Qed.

(** ** Delete *)

Lemma delete_missing (p_id : string) (file : dict) :
  dict_in p_id file = false ->
  delete_patient_data p_id file
  = (Raise (HTTPException 404 "Patient ID not found"), file).
Proof.
  intros H. unfold delete_patient_data, load_data. rewrite H. reflexivity.
Qed.

Lemma dict_get_del_eq (k : string) (d : dict) :
  NoDup (dict_keys d) -> dict_get k (dict_del k d) = None.
Proof.
  unfold dict_keys. induction d as [|[k' v'] d IH]; simpl; intros ND; [reflexivity|].
  inversion ND as [|? ? Hnin ND']; subst.
  destruct (String.eqb k k') eqn:E.
  - apply String.eqb_eq in E. subst k'.
    destruct (dict_get k d) as [v|] eqn:G; [|reflexivity].
    exfalso. apply Hnin. clear - G.
    induction d as [|[k1 v1] d IHd]; simpl in *; [discriminate|].
    destruct (String.eqb k k1) eqn:E1.
    + apply String.eqb_eq in E1. left. auto.
    + right. auto.
  - simpl. rewrite E. auto.
Qed.

Lemma delete_removes (p_id : string) (file : dict) :
  dict_in p_id file = true -> NoDup (dict_keys file) ->
  exists file',
    delete_patient_data p_id file
    = (Ok (Response 200 "Patient data deleted successfully"), file') /\
    dict_get p_id file' = None.
Proof.
  intros H ND. exists (dict_del p_id file). split.
  - unfold delete_patient_data, load_data, save_data. rewrite H. reflexivity.
  - apply dict_get_del_eq. exact ND.
Qed.

(** ** Update *)

Lemma update_unfold {L : PyFloat.Libm}
  (u : PatientUpdate.t) (p_id : string) (file : dict)
  (existing : Info.t) :
  dict_get p_id file = Some existing ->
  update_patient_data u p_id file =
    match (p <- Patient_new (merged_info existing u p_id) ;; model_dump p) with
    | Raise e => (Raise e, file)
    | Ok x => (Ok (Response 200 "Patient data updated successfully"),
               dict_set p_id x file)
    end.
Proof.
  intros H. unfold update_patient_data, load_data, save_data. rewrite H.
  reflexivity.
Qed.

Lemma update_missing {L : PyFloat.Libm}
  (u : PatientUpdate.t) (p_id : string) (file : dict) :
  dict_get p_id file = None ->
  update_patient_data u p_id file
  = (Raise (HTTPException 404 "Patient ID not Found"), file).
Proof.
  intros H. unfold update_patient_data, load_data. rewrite H. reflexivity.
Qed.

(** What an update stores has passed the validation of [Patient] and
    carries freshly computed derived fields. *)
Lemma update_stores_validated {L : PyFloat.Libm} (u : PatientUpdate.t) (p_id : string)
  (file file' : dict) (r : JSONResponse) :
  update_patient_data u p_id file = (Ok r, file') ->
  exists x, file' = dict_set p_id x file /\ info_valid x /\ derived_ok x.
Proof.
  destruct (dict_get p_id file) as [existing|] eqn:G.
  - rewrite (update_unfold u p_id file existing G).
    destruct (Patient_new (merged_info existing u p_id)) as [p|e] eqn:V; simpl;
      [|discriminate].
    destruct (model_dump p) as [x|e] eqn:D; [|discriminate].
    intros H. inversion H. subst. exists x. split; [reflexivity|].
    split; [|exact (model_dump_derived p x D)].
    apply Patient_new_Ok_inv in V.
    destruct V as (_ & Ha & Hg & Hh & Hw).
    destruct (model_dump_fields p x D) as (_ & _ & Ea & Eg & Eh & Ew).
    apply age_ok_iff in Ha. unfold info_valid. rewrite Ea, Eg, Eh, Ew. tauto.
  - rewrite (update_missing u p_id file G). discriminate.
Qed.

Lemma update_failure_keeps_file {L : PyFloat.Libm} (u : PatientUpdate.t) (p_id : string)
  (file file' : dict) (e : exn) :
  update_patient_data u p_id file = (Raise e, file') -> file' = file.
Proof.
  destruct (dict_get p_id file) as [existing|] eqn:G.
  - rewrite (update_unfold u p_id file existing G).
    destruct (p <- Patient_new (merged_info existing u p_id) ;; model_dump p);
      intros H; inversion H; reflexivity.
  - rewrite (update_missing u p_id file G). intros H. inversion H. reflexivity.
Qed.

(** C10.  An update validates the merged record with [Patient] before it
    stores it: [PatientUpdate] accepts any age above 0, but when the merged
    record breaks a constraint of [Patient] the update ends with the
    ValidationError and the file is unchanged; whatever record an update
    leaves under any key is either the record that was there or one whose
    age is strictly between 0 and 120. *)
Theorem update_revalidates {L : PyFloat.Libm}
  (u : PatientUpdate.t) (p_id : string) (file : dict) :
  (forall a : Z, 0 < a ->
     PatientUpdate.new (PatientUpdate.mk Unset Unset (Val a) Unset Unset Unset)
     = Ok (PatientUpdate.mk Unset Unset (Val a) Unset Unset Unset)) /\
  (forall existing : Info.t,
     dict_get p_id file = Some existing ->
     Patient_errors (merged_info existing u p_id) <> [] ->
     update_patient_data u p_id file
     = (Raise (ValidationError (Patient_errors (merged_info existing u p_id))), file)) /\
  (forall (k : string) (x : Info.t),
     dict_get k (snd (update_patient_data u p_id file)) = Some x ->
     dict_get k file = Some x \/ 0 < Info.age x < 120).
Proof.
  split; [|split].
  - intros a Ha. unfold PatientUpdate.new, PatientUpdate.errors, check_opt. simpl.
    unfold PatientUpdate.age_ok. apply Z.ltb_lt in Ha. rewrite Ha. reflexivity.
  - intros existing G E.
    rewrite (update_unfold u p_id file existing G).
    rewrite (Patient_new_Raise _ E). reflexivity.
  - intros k x.
    destruct (update_patient_data u p_id file) as [[r|e] file'] eqn:U; simpl.
    + destruct (update_stores_validated u p_id file file' r U) as (y & -> & Hv & _).
      destruct (String.eqb k p_id) eqn:E.
      * apply String.eqb_eq in E. subst k. rewrite dict_get_set_eq.
        intros H. inversion H. subst. right. apply Hv.
      * apply String.eqb_neq in E. rewrite (dict_get_set_neq k p_id y file E).
        auto.
    + rewrite (update_failure_keeps_file u p_id file file' e U). auto.
Qed.

Lemma update_revalidates_witness :
  PatientUpdate.new (PatientUpdate.mk Unset Unset (Val 150) Unset Unset Unset)
  = Ok (PatientUpdate.mk Unset Unset (Val 150) Unset Unset Unset) /\
  update_patient_data (PatientUpdate.mk Unset Unset (Val 150) Unset Unset Unset)
    "P001" sample_file
  = (Raise (ValidationError ["age"]), sample_file) /\
  (dict_get "P002" sample_file = Some ravi_info \/ 0 < Info.age ravi_info < 120).
Proof.
  pose proof (update_revalidates
                (PatientUpdate.mk Unset Unset (Val 150) Unset Unset Unset)
                "P001" sample_file) as (H1 & H2 & H3).
  split; [apply H1; lia|]. split.
  - apply (H2 asha_info); [reflexivity | discriminate].
  - apply H3. reflexivity.
Defined.

Lemma assign_Some {T : Type} (a : arg T) (old v : T) :
  assign a old = Some v -> v = pick a old.
Proof. destruct a; simpl; intros H; inversion H; reflexivity. Qed.

Lemma merged_info_nil (existing : Info.t) (u : PatientUpdate.t) (p_id : string) :
  Patient_errors (merged_info existing u p_id) = [] ->
  Patient_new (merged_info existing u p_id) =
    Ok (Patient.mk p_id
          (pick (PatientUpdate.name u) (Info.name existing))
          (pick (PatientUpdate.city u) (Info.city existing))
          (pick (PatientUpdate.age u) (Info.age existing))
          (pick (PatientUpdate.gender u) (Info.gender existing))
          (pick (PatientUpdate.height u) (Info.height existing))
          (pick (PatientUpdate.weight u) (Info.weight existing))).
Proof.
  intros E.
  destruct (Patient_errors_nil _ E) as (i & n & c & a & g & h & w & M & Ha & Hg & Hh & Hw).
  rewrite M, (Patient_new_Ok i n c a g h w Ha Hg Hh Hw).
  unfold merged_info in M. inversion M.
  repeat match goal with
  | H : assign _ _ = Some _ |- _ => apply assign_Some in H
  end.
  subst. reflexivity.
Qed.

(** C3, as amended.  For every existing record and every PatientUpdate
    whose merged record passes the validation of [Patient] and whose merged
    height has a square that is returned and is not zero, the update answers
    200 and replaces the record under the same key: each set field has the
    value of the update, each unset field its old value, the keys of the
    store and the other records are untouched, and bmi and verdict are
    computed from the merged height and weight.  With no field set, on a
    record whose bmi and verdict are the derived ones, the store is left as
    it was. *)
Theorem update_merges_fields {L : PyFloat.Libm} (u : PatientUpdate.t)
  (p_id : string) (file : dict) (existing : Info.t) :
  dict_get p_id file = Some existing ->
  Patient_errors (merged_info existing u p_id) = [] ->
  bmi_defined (pick (PatientUpdate.height u) (Info.height existing)) = true ->
  exists x : Info.t,
    update_patient_data u p_id file
    = (Ok (Response 200 "Patient data updated successfully"), dict_set p_id x file) /\
    dict_keys (dict_set p_id x file) = dict_keys file /\
    dict_get p_id (dict_set p_id x file) = Some x /\
    (forall k, k <> p_id -> dict_get k (dict_set p_id x file) = dict_get k file) /\
    Info.name x = pick (PatientUpdate.name u) (Info.name existing) /\
    Info.city x = pick (PatientUpdate.city u) (Info.city existing) /\
    Info.age x = pick (PatientUpdate.age u) (Info.age existing) /\
    Info.gender x = pick (PatientUpdate.gender u) (Info.gender existing) /\
    Info.height x = pick (PatientUpdate.height u) (Info.height existing) /\
    Info.weight x = pick (PatientUpdate.weight u) (Info.weight existing) /\
    (exists sq : float,
       PyFloat.pow2 (Info.height x) = Ok sq /\ PyFloat.is_zero sq = false /\
       Info.bmi x = PyFloat.round (PyFloat.div (Info.weight x) sq) 2) /\
    Info.verdict x = Patient.classify (Info.bmi x) /\
    (u = PatientUpdate.empty -> derived_ok existing -> dict_set p_id x file = file).
Proof.
  intros G E B.
  pose proof (merged_info_nil existing u p_id E) as V.
  set (p := Patient.mk p_id
          (pick (PatientUpdate.name u) (Info.name existing))
          (pick (PatientUpdate.city u) (Info.city existing))
          (pick (PatientUpdate.age u) (Info.age existing))
          (pick (PatientUpdate.gender u) (Info.gender existing))
          (pick (PatientUpdate.height u) (Info.height existing))
          (pick (PatientUpdate.weight u) (Info.weight existing))) in *.
  apply bmi_defined_iff in B. destruct B as (sq & Hsq & Hz).
  pose proof (model_dump_Ok p sq Hsq Hz) as D.
  eexists. split.
  { rewrite (update_unfold u p_id file existing G), V. simpl. rewrite D.
    reflexivity. }
  split.
  { apply dict_keys_set. apply dict_in_get. exists existing. exact G. }
  split; [apply dict_get_set_eq|].
  split; [intros k N; apply dict_get_set_neq; exact N|].
  do 6 (split; [reflexivity|]).
  split; [exists sq; simpl; auto|].
  split; [reflexivity|].
  intros -> [(sq' & Hsq' & _ & Hb) Hv]. apply dict_set_same. rewrite G. f_equal.
  subst p. simpl in *. rewrite Hsq in Hsq'. inversion Hsq'. subst sq'.
  destruct existing; simpl in *. rewrite <- Hb, <- Hv. reflexivity.
Qed.

Lemma sample_file_derived : Forall derived_ok (dict_values sample_file).
Proof.
  repeat constructor; try (eexists; split; [reflexivity|]; split; reflexivity).
Qed.

Lemma update_merges_fields_witness :
  (exists x : Info.t,
     update_patient_data
       (PatientUpdate.mk Unset Unset Unset Unset Unset (Val f45_0)) "P001" sample_file
     = (Ok (Response 200 "Patient data updated successfully"),
        dict_set "P001" x sample_file) /\
     Info.name x = "Asha" /\ Info.height x = f1_70 /\ Info.weight x = f45_0 /\
     Info.verdict x = Patient.classify (Info.bmi x)) /\
  update_patient_data PatientUpdate.empty "P001" sample_file
  = (Ok (Response 200 "Patient data updated successfully"), sample_file).
Proof.
  split.
  - destruct (update_merges_fields
                (PatientUpdate.mk Unset Unset Unset Unset Unset (Val f45_0))
                "P001" sample_file asha_info)
      as (x & HU & _ & _ & _ & Hn & _ & _ & _ & Hh & Hw & _ & Hv & _);
      [reflexivity | reflexivity | reflexivity |].
    exists x. split; [exact HU|].
    split; [exact Hn|]. split; [exact Hh|]. split; [exact Hw | exact Hv].
  - destruct (update_merges_fields PatientUpdate.empty "P001" sample_file asha_info)
      as (x & HU & _ & _ & _ & _ & _ & _ & _ & _ & _ & _ & _ & Hnoop);
      [reflexivity | reflexivity | reflexivity |].
    rewrite HU, (Hnoop eq_refl); [reflexivity|].
    pose proof sample_file_derived as F. inversion F. assumption.
Defined.

(** On the sample store the update of the weight to 45.0 stores the bmi
    15.57 and the verdict Underweight. *)
Lemma update_weight_example :
  update_patient_data
    (PatientUpdate.mk Unset Unset Unset Unset Unset (Val f45_0)) "P001" sample_file
  = (Ok (Response 200 "Patient data updated successfully"),
     [("P001", Info.mk "Asha" "Pune" 34 "female" f1_70 f45_0 f15_57 "Underweight");
      ("P002", ravi_info)]).
Proof. vm_compute. reflexivity. Qed.

(** C3 as stated fails.  An update can be refused: an age of 150 passes
    [PatientUpdate] and is stopped by [Patient]; a field set to null is
    written over the old value and stopped by [Patient]; a height of 1e-200
    passes both and the division raises; each time the record stays as it
    was.  And an update with no field set is not a no-op on a record whose
    bmi is not the derived one: it is accepted and replaces the bmi and the
    verdict. *)
Lemma update_can_be_refused :
  PatientUpdate.new (PatientUpdate.mk Unset Unset (Val 150) Unset Unset Unset)
  = Ok (PatientUpdate.mk Unset Unset (Val 150) Unset Unset Unset) /\
  put_patient_edit (PatientUpdate.mk Unset Unset (Val 150) Unset Unset Unset)
    "P001" sample_file
  = (Raise (ValidationError ["age"]), sample_file) /\
  dict_get "P001" sample_file = Some asha_info /\
  Info.age asha_info <> 150 /\
  put_patient_edit (PatientUpdate.mk Null Unset Unset Unset Unset Unset)
    "P001" sample_file
  = (Raise (ValidationError ["name"]), sample_file) /\
  put_patient_edit (PatientUpdate.mk Unset Unset Unset Unset (Val f1e_200) Unset)
    "P001" sample_file
  = (Raise ZeroDivisionError, sample_file) /\
  put_patient_edit PatientUpdate.empty "P001" stale_file
  = (Ok (Response 200 "Patient data updated successfully"),
     [("P001", asha_info)]) /\
  stale_file <> [("P001", asha_info)].
Proof.
  split; [reflexivity|]. split; [reflexivity|]. split; [reflexivity|].
  split; [discriminate|]. split; [vm_compute; reflexivity|].
  split; [vm_compute; reflexivity|]. split; [vm_compute; reflexivity|].
  discriminate.
Qed.

(** The empty update on the sample store changes nothing. *)
Lemma empty_update_is_noop :
  put_patient_edit PatientUpdate.empty "P001" sample_file
  = (Ok (Response 200 "Patient data updated successfully"), sample_file).
Proof. vm_compute. reflexivity. Qed.

(** ** The derived-field invariant *)

Lemma serve_keeps {L : PyFloat.Libm} (P : Info.t -> Prop) :
  (forall k p x, Patient_new k = Ok p -> model_dump p = Ok x -> P x) ->
  forall (r : request) (file : dict),
    Forall P (dict_values file) -> Forall P (dict_values (snd (serve r file))).
Proof.
  intros HP r file HF. destruct r as [body | body p_id | p_id]; simpl.
  - unfold post_patient.
    destruct (Patient_new body) as [p|e] eqn:V; [|exact HF].
    unfold create_patient_data, load_data, save_data.
    destruct (dict_in (Patient.id p) file); [exact HF|].
    destruct (model_dump p) as [x|e] eqn:D; [|exact HF]. simpl.
    apply dict_values_set; [exact HF | exact (HP body p x V D)].
  - unfold put_patient_edit.
    destruct (PatientUpdate.new body) as [u|e]; [|exact HF].
    destruct (dict_get p_id file) as [existing|] eqn:G.
    + rewrite (update_unfold u p_id file existing G).
      destruct (Patient_new (merged_info existing u p_id)) as [p|e] eqn:V;
        [|exact HF]. simpl.
      destruct (model_dump p) as [x|e] eqn:D; [|exact HF]. simpl.
      apply dict_values_set; [exact HF | exact (HP _ p x V D)].
    + rewrite (update_missing u p_id file G). exact HF.
  - unfold delete_patient_data, load_data, save_data.
    destruct (dict_in p_id file); simpl; [|exact HF].
    apply dict_values_del. exact HF.
Qed.

Lemma serve_all_keeps {L : PyFloat.Libm} (P : Info.t -> Prop) :
  (forall k p x, Patient_new k = Ok p -> model_dump p = Ok x -> P x) ->
  forall (rs : list request) (file : dict),
    Forall P (dict_values file) -> Forall P (dict_values (serve_all rs file)).
Proof.
  intros HP rs. unfold serve_all.
  induction rs as [|r rs IH]; intros file HF; simpl; [exact HF|].
  apply IH. apply (serve_keeps P HP r file HF).
Qed.

Lemma In_values_set (k : string) (v y : Info.t) (d : dict) :
  In y (dict_values (dict_set k v d)) -> y = v \/ In y (dict_values d).
Proof.
  unfold dict_values. induction d as [|[k' v'] d IH]; simpl.
  - intros [H|[]]. left. auto.
  - destruct (String.eqb k k'); simpl.
    + intros [H|H]; [left; auto | right; right; exact H].
    + intros [H|H]; [right; left; exact H|].
      destruct (IH H) as [H'|H']; [left; exact H' | right; right; exact H'].
Qed.

Lemma In_values_del (k : string) (y : Info.t) (d : dict) :
  In y (dict_values (dict_del k d)) -> In y (dict_values d).
Proof.
  unfold dict_values. induction d as [|[k' v'] d IH]; simpl; [auto|].
  destruct (String.eqb k k'); simpl.
  - intros H. right. exact H.
  - intros [H|H]; [left; exact H | right; apply IH; exact H].
Qed.

(** Whatever the file holds, a record that is in it after a request was in
    it before or is the [model_dump] of a validated [Patient]. *)
Lemma serve_new_records {L : PyFloat.Libm} (P : Info.t -> Prop) :
  (forall k p x, Patient_new k = Ok p -> model_dump p = Ok x -> P x) ->
  forall (r : request) (file : dict) (y : Info.t),
    In y (dict_values (snd (serve r file))) -> In y (dict_values file) \/ P y.
Proof.
  intros HP r file y. destruct r as [body | body p_id | p_id]; simpl.
  - unfold post_patient.
    destruct (Patient_new body) as [p|e] eqn:V; [|auto].
    unfold create_patient_data, load_data, save_data.
    destruct (dict_in (Patient.id p) file); [auto|].
    destruct (model_dump p) as [x|e] eqn:D; [|auto]. simpl.
    intros H. destruct (In_values_set _ _ _ _ H) as [-> | H']; [|auto].
    right. exact (HP body p x V D).
  - unfold put_patient_edit.
    destruct (PatientUpdate.new body) as [u|e]; [|auto].
    destruct (dict_get p_id file) as [existing|] eqn:G.
    + rewrite (update_unfold u p_id file existing G).
      destruct (Patient_new (merged_info existing u p_id)) as [p|e] eqn:V;
        [|auto]. simpl.
      destruct (model_dump p) as [x|e] eqn:D; [|auto]. simpl.
      intros H. destruct (In_values_set _ _ _ _ H) as [-> | H']; [|auto].
      right. exact (HP _ p x V D).
    + rewrite (update_missing u p_id file G). auto.
  - unfold delete_patient_data, load_data, save_data.
    destruct (dict_in p_id file); simpl; [|auto].
    intros H. left. apply (In_values_del p_id). exact H.
Qed.

(** C4.  Create, update and delete keep the derived-field invariant: when
    every record of the store has bmi = round(weight / height ** 2, 2) and
    verdict = the class of its bmi, so has every record of the store the
    request leaves, accepted or not; starting from the empty store, every
    sequence of requests leaves such a store; and on any store at all, a
    record that is there after a request was there before or satisfies the
    invariant. *)
Theorem derived_fields_invariant {L : PyFloat.Libm} :
  (forall (r : request) (file : dict),
     Forall derived_ok (dict_values file) ->
     Forall derived_ok (dict_values (snd (serve r file)))) /\
  (forall rs : list request, Forall derived_ok (dict_values (serve_all rs []))) /\
  (forall (r : request) (file : dict) (x : Info.t),
     In x (dict_values (snd (serve r file))) ->
     In x (dict_values file) \/ derived_ok x).
Proof.
  assert (HP : forall k p x, Patient_new k = Ok p -> model_dump p = Ok x ->
                             derived_ok x).
  { intros k p x _ D. exact (model_dump_derived p x D). }
  split; [|split].
  - apply (serve_keeps derived_ok HP).
  - intros rs. apply (serve_all_keeps derived_ok HP). constructor.
  - apply (serve_new_records derived_ok HP).
Qed.

Lemma derived_fields_invariant_witness :
  Forall derived_ok
    (dict_values
       (snd (serve (Update (PatientUpdate.mk Unset Unset Unset Unset Unset (Val f45_0)) "P001")
               sample_file))).
Proof.
  apply (proj1 derived_fields_invariant).
  exact sample_file_derived.
Defined.

(** The range constraints of [Patient] are kept as well. *)
Lemma model_dump_stored_ok {L : PyFloat.Libm}
  (k : PatientArgs.t) (p : Patient.t) (x : Info.t) :
  Patient_new k = Ok p -> model_dump p = Ok x -> stored_ok x.
Proof.
  intros V D. split; [|split].
  - apply Patient_new_Ok_inv in V. destruct V as (_ & Ha & Hg & Hh & Hw).
    destruct (model_dump_fields p x D) as (_ & _ & Ea & Eg & Eh & Ew).
    apply age_ok_iff in Ha. unfold info_valid. rewrite Ea, Eg, Eh, Ew. tauto.
  - exact (model_dump_derived p x D).
  - destruct (model_dump_fields p x D) as (_ & _ & _ & _ & Eh & _).
    rewrite Eh. exact (model_dump_defined p x D).
Qed.

Lemma serve_keeps_stored_ok {L : PyFloat.Libm} (r : request) (file : dict) :
  Forall stored_ok (dict_values file) ->
  Forall stored_ok (dict_values (snd (serve r file))).
Proof. apply serve_keeps. exact model_dump_stored_ok. Qed.

Lemma reachable_stored_ok {L : PyFloat.Libm} (rs : list request) :
  Forall stored_ok (dict_values (serve_all rs [])).
Proof. apply (serve_all_keeps stored_ok model_dump_stored_ok). constructor. Qed.

Lemma dict_get_In (k : string) (x : Info.t) (d : dict) :
  dict_get k d = Some x -> In x (dict_values d).
Proof.
  unfold dict_values. induction d as [|[k' v'] d IH]; simpl; [discriminate|].
  destruct (String.eqb k k'); intros H.
  - inversion H. left. reflexivity.
  - right. auto.
Qed.

(** On a record that [model_dump] produced, the update with no field set
    is accepted and leaves the file as it is; so it is on every store
    built by requests from the empty one. *)
Lemma empty_update_noop {L : PyFloat.Libm}
  (p_id : string) (file : dict) (existing : Info.t) :
  dict_get p_id file = Some existing -> stored_ok existing ->
  update_patient_data PatientUpdate.empty p_id file
  = (Ok (Response 200 "Patient data updated successfully"), file).
Proof.
  intros G ((Ha & Hg & Hh & Hw) & ((sq & Hsq & Hz & Hb) & Hv) & _).
  rewrite (update_unfold _ p_id file existing G).
  destruct existing as [n c a g h w b v]; simpl in *.
  apply age_ok_iff in Ha.
  unfold merged_info. simpl.
  rewrite (Patient_new_Ok p_id n c a g h w Ha Hg Hh Hw). simpl.
  rewrite (model_dump_Ok (Patient.mk p_id n c a g h w) sq Hsq Hz). simpl.
  rewrite <- Hb, <- Hv. rewrite (dict_set_same p_id _ file G). reflexivity.
Qed.

Lemma empty_update_noop_reachable {L : PyFloat.Libm}
  (rs : list request) (p_id : string) :
  dict_in p_id (serve_all rs []) = true ->
  update_patient_data PatientUpdate.empty p_id (serve_all rs [])
  = (Ok (Response 200 "Patient data updated successfully"), serve_all rs []).
Proof.
  intros H. apply dict_in_get in H. destruct H as [existing G].
  apply (empty_update_noop p_id _ existing G).
  pose proof (reachable_stored_ok rs) as R.
  rewrite Forall_forall in R. apply R. apply (dict_get_In p_id). exact G.
Qed.

(** ** [sorted] *)

Section SortedFacts.

Variable A : Type.
Variable key : A -> num.

Lemma insert_perm (x : A) (l : list A) : Permutation (insert key x l) (x :: l).
Proof.
  induction l as [|y l IH]; simpl; [apply Permutation_refl|].
  destruct (num_lt (key y) (key x)); [|apply Permutation_refl].
  apply Permutation_trans with (y :: x :: l).
  - apply perm_skip. exact IH.
  - apply perm_swap.
Qed.

Lemma sort_stable_perm (l : list A) : Permutation (sort_stable key l) l.
Proof.
  induction l as [|x l IH]; simpl; [apply perm_nil|].
  apply Permutation_trans with (x :: sort_stable key l).
  - apply insert_perm.
  - apply perm_skip. exact IH.
Qed.

Lemma sorted_perm (l : list A) (reverse : bool) :
  Permutation (sorted key l reverse) l.
Proof.
  unfold sorted. destruct reverse; [|apply sort_stable_perm].
  apply Permutation_trans with (sort_stable key (rev l)).
  - apply Permutation_sym, Permutation_rev.
  - apply Permutation_trans with (rev l).
    + apply sort_stable_perm.
    + apply Permutation_sym, Permutation_rev.
Qed.

(** *** Order *)

(** The keys of the list lie in a set [P] that [<] orders totally. *)
Variable P : num -> Prop.
Hypothesis P_total :
  forall a b, P a -> P b -> num_lt a b = false -> num_le b a = true.
Hypothesis P_trans :
  forall a b c, P a -> P b -> P c ->
    num_le a b = true -> num_le b c = true -> num_le a c = true.

Lemma insert_sorted (x : A) (l : list A) :
  P (key x) -> Forall (fun y => P (key y)) l ->
  StronglySorted (key_le key) l -> StronglySorted (key_le key) (insert key x l).
Proof.
  intros Hx HP HS. induction HS as [|y l HS IH Hy]; simpl.
  - constructor; constructor.
  - inversion HP as [|? ? Py HP']; subst.
    destruct (num_lt (key y) (key x)) eqn:E.
    + constructor; [exact (IH HP')|].
      apply (Permutation_Forall (Permutation_sym (insert_perm x l))).
      constructor; [|exact Hy].
      unfold key_le, num_le. rewrite E. reflexivity.
    + assert (Hxy : key_le key x y) by (apply P_total; assumption).
      constructor; [constructor; assumption|].
      constructor; [exact Hxy|].
      rewrite Forall_forall in *. intros z Hz.
      apply (P_trans (key x) (key y) (key z)); auto.
      apply Hy. exact Hz.
Qed.

Lemma sort_stable_sorted (l : list A) :
  Forall (fun y => P (key y)) l -> StronglySorted (key_le key) (sort_stable key l).
Proof.
  induction l as [|x l IH]; simpl; intros HP; [constructor|].
  inversion HP; subst.
  apply insert_sorted; auto.
  apply (Permutation_Forall (Permutation_sym (sort_stable_perm l))). assumption.
Qed.

Lemma StronglySorted_snoc (R : A -> A -> Prop) (l : list A) (x : A) :
  StronglySorted R l -> Forall (fun y => R y x) l -> StronglySorted R (l ++ [x]).
Proof.
  induction 1 as [|y l HS IH Hy]; simpl; intros HF.
  - constructor; constructor.
  - inversion HF; subst. constructor; [auto|].
    apply Forall_app. split; [exact Hy|]. constructor; [assumption|constructor].
Qed.

Lemma StronglySorted_rev (R : A -> A -> Prop) (l : list A) :
  StronglySorted R l -> StronglySorted (fun a b => R b a) (rev l).
Proof.
  induction 1 as [|y l HS IH Hy]; simpl; [constructor|].
  apply StronglySorted_snoc; [exact IH|].
  apply Forall_rev. exact Hy.
Qed.

Lemma sorted_ascending (l : list A) :
  Forall (fun y => P (key y)) l -> StronglySorted (key_le key) (sorted key l false).
Proof. apply sort_stable_sorted. Qed.

Lemma sorted_descending (l : list A) :
  Forall (fun y => P (key y)) l -> StronglySorted (key_ge key) (sorted key l true).
Proof.
  intros HP. unfold sorted.
  apply (StronglySorted_rev (key_le key)). apply sort_stable_sorted.
  apply Forall_rev. exact HP.
Qed.

(** *** Stability *)

Variable f : A -> bool.

Lemma insert_filter (x : A) (l : list A) :
  separates key f (x :: l) -> filter f (insert key x l) = filter f (x :: l).
Proof.
  intros S. induction l as [|y l IH]; simpl; [reflexivity|].
  destruct (num_lt (key y) (key x)) eqn:E; [|reflexivity].
  simpl. rewrite IH.
  - simpl. destruct (f x) eqn:Fx; [|reflexivity].
    rewrite (S x y); simpl; auto.
  - intros a b Ha Hb. apply S; simpl in *; tauto.
Qed.

Lemma sort_stable_filter (l : list A) :
  separates key f l -> filter f (sort_stable key l) = filter f l.
Proof.
  induction l as [|x l IH]; simpl; intros S; [reflexivity|].
  rewrite insert_filter.
  - simpl. rewrite IH; [reflexivity|].
    intros a b Ha Hb. apply S; simpl; auto.
  - intros a b Ha Hb. apply S.
    + destruct Ha as [Ha|Ha]; [left; exact Ha|right].
      apply (Permutation_in _ (sort_stable_perm l) Ha).
    + destruct Hb as [Hb|Hb]; [left; exact Hb|right].
      apply (Permutation_in _ (sort_stable_perm l) Hb).
Qed.

Lemma sorted_filter (l : list A) (reverse : bool) :
  separates key f l -> filter f (sorted key l reverse) = filter f l.
Proof.
  intros S. unfold sorted. destruct reverse; [|apply sort_stable_filter; exact S].
  rewrite filter_rev, sort_stable_filter, filter_rev, rev_involutive; [reflexivity|].
  intros a b Ha Hb. apply S; apply in_rev; assumption.
Qed.

End SortedFacts.

(** *** The order of the keys *)

Lemma num_le_Int (a b : Z) : num_le (Int a) (Int b) = true <-> a <= b.
Proof.
  unfold num_le. simpl. rewrite orb_true_iff, Z.ltb_lt, Z.eqb_eq. lia.
Qed.

Lemma num_le_Float (x y : float) : num_le (Float x) (Float y) = PyFloat.le x y.
Proof.
  unfold num_le, num_lt, num_eq, PyFloat.lt, PyFloat.eq, PyFloat.le,
    SFltb, SFeqb, SFleb.
  destruct (SFcompare x y) as [[| |]|]; reflexivity.
Qed.

Lemma int_total (a b : num) :
  is_int a -> is_int b -> num_lt a b = false -> num_le b a = true.
Proof.
  intros [x ->] [y ->] H. simpl in H. apply Z.ltb_ge in H.
  apply num_le_Int. exact H.
Qed.

Lemma int_trans (a b c : num) :
  is_int a -> is_int b -> is_int c ->
  num_le a b = true -> num_le b c = true -> num_le a c = true.
Proof.
  intros [x ->] [y ->] [z ->]. rewrite !num_le_Int. lia.
Qed.

Lemma float_total (a b : num) :
  real_float a -> real_float b -> num_lt a b = false -> num_le b a = true.
Proof.
  intros [[x ->] Hx] [[y ->] Hy] H. simpl in *.
  rewrite num_le_Float. apply le_rank. repeat split; auto.
  destruct (lt_false_rank x y Hx Hy H) as [H'|H']; auto.
Qed.

Lemma float_trans (a b c : num) :
  real_float a -> real_float b -> real_float c ->
  num_le a b = true -> num_le b c = true -> num_le a c = true.
Proof.
  intros [[x ->] _] [[y ->] _] [[z ->] _]. rewrite !num_le_Float.
  apply le_trans.
Qed.

Lemma int_separates (a b v : num) :
  is_int a -> is_int b -> is_int v ->
  num_lt a b = true -> num_eq b v = true -> num_eq a v = false.
Proof.
  intros [x ->] [y ->] [z ->]. simpl.
  rewrite Z.ltb_lt, Z.eqb_eq, Z.eqb_neq. lia.
Qed.

Lemma float_separates (a b v : num) :
  is_float a -> is_float b -> is_float v ->
  num_lt a b = true -> num_eq b v = true -> num_eq a v = false.
Proof.
  intros [x ->] [y ->] [z ->]. simpl. intros H1 H2.
  destruct (PyFloat.eq x z) eqn:E; [|reflexivity].
  exfalso. float_order; lia.
Qed.

Lemma positive_not_nan (x : float) : positive_ok x = true -> PyFloat.is_nan x = false.
Proof. destruct x; simpl; auto. Qed.

Lemma sorted_spec (key : Info.t -> num) (l : list Info.t) :
  uniform key l ->
  StronglySorted (key_le key) (sorted key l false) /\
  StronglySorted (key_ge key) (sorted key l true) /\
  forall (r : Info.t) (reverse : bool),
    filter (fun x => num_eq (key x) (key r)) (sorted key l reverse)
    = filter (fun x => num_eq (key x) (key r)) l.
Proof.
  intros [HI | [HF HN]].
  - assert (HP : Forall (fun y => is_int (key y)) l)
      by (apply Forall_forall; intros; apply HI).
    split; [|split].
    + apply (sorted_ascending Info.t key is_int int_total int_trans l HP).
    + apply (sorted_descending Info.t key is_int int_total int_trans l HP).
    + intros r reverse. apply sorted_filter.
      intros x y _ _. apply int_separates; apply HI.
  - assert (HP : Forall (fun y => real_float (key y)) l).
    { rewrite Forall_forall in *. intros x Hx. split; [apply HF | apply HN; exact Hx]. }
    split; [|split].
    + apply (sorted_ascending Info.t key real_float float_total float_trans l HP).
    + apply (sorted_descending Info.t key real_float float_total float_trans l HP).
    + intros r reverse. apply sorted_filter.
      intros x y _ _. apply float_separates; apply HF.
Qed.

Lemma sort_patient_data_unfold (sort_by order : string) (file : dict) :
  In sort_by valid_fields -> In order ["asc"; "desc"] ->
  sort_patient_data sort_by order file
  = (Ok (sorted (get_num sort_by) (dict_values file) (String.eqb order "desc")), file).
Proof.
  intros Hs Ho. unfold sort_patient_data, load_data.
  apply literal_In in Hs. apply literal_In in Ho. rewrite Hs, Ho. simpl.
  destruct (String.eqb order "desc"); reflexivity.
Qed.

Lemma StronglySorted_weaken {A : Type} (R R' : A -> A -> Prop) (l : list A) :
  (forall a b, R a b -> R' a b) -> StronglySorted R l -> StronglySorted R' l.
Proof.
  intros H S. induction S as [|a l S IH F]; constructor; [exact IH|].
  rewrite Forall_forall in *. intros b Hb. apply H. apply (F b Hb).
Qed.

(** The answer of the endpoint in terms of a relation [le] and a test
    [same] on records that agree with the order and the equality of the
    keys. *)
Lemma sort_contract (sort_by : string) (file : dict)
  (le : Info.t -> Info.t -> Prop) (same : Info.t -> Info.t -> bool) :
  In sort_by valid_fields ->
  uniform (get_num sort_by) (dict_values file) ->
  (forall a b, num_le (get_num sort_by a) (get_num sort_by b) = true -> le a b) ->
  (forall r x, same r x = num_eq (get_num sort_by x) (get_num sort_by r)) ->
  (exists l,
     sort_patient_data sort_by "desc" file = (Ok l, file) /\
     ordered_and_stable (fun a b => le b a) same (dict_values file) l) /\
  (exists l,
     sort_patient_data sort_by "asc" file = (Ok l, file) /\
     ordered_and_stable le same (dict_values file) l).
Proof.
  intros Hs HU Hle Hsame.
  destruct (sorted_spec (get_num sort_by) (dict_values file) HU)
    as (Hasc & Hdesc & Hst).
  assert (St : forall r reverse,
             filter (same r) (sorted (get_num sort_by) (dict_values file) reverse)
             = filter (same r) (dict_values file)).
  { intros r reverse.
    rewrite (filter_ext (same r) (fun x => num_eq (get_num sort_by x) (get_num sort_by r)))
      by (intros x; apply Hsame).
    rewrite (filter_ext (same r) (fun x => num_eq (get_num sort_by x) (get_num sort_by r))
               (Hsame r) (dict_values file)).
    apply Hst. }
  split.
  - exists (sorted (get_num sort_by) (dict_values file) true).
    split; [apply (sort_patient_data_unfold sort_by "desc" file Hs); simpl; auto|].
    split; [apply sorted_perm|]. split; [|intros r; apply St].
    apply (StronglySorted_weaken (key_ge (get_num sort_by))); [|exact Hdesc].
    intros x y. unfold key_ge. apply Hle.
  - exists (sorted (get_num sort_by) (dict_values file) false).
    split; [apply (sort_patient_data_unfold sort_by "asc" file Hs); simpl; auto|].
    split; [apply sorted_perm|]. split; [|intros r; apply St].
    apply (StronglySorted_weaken (key_le (get_num sort_by))); [|exact Hasc].
    intros x y. unfold key_le. apply Hle.
Qed.

Lemma uniform_age (l : list Info.t) : uniform (get_num "age") l.
Proof. left. intros x. exists (Info.age x). reflexivity. Qed.

Lemma uniform_height (l : list Info.t) :
  Forall (fun x => PyFloat.is_nan (Info.height x) = false) l ->
  uniform (get_num "height") l.
Proof.
  intros H. right. split; [intros x; exists (Info.height x); reflexivity|].
  exact H.
Qed.

Lemma uniform_weight (l : list Info.t) :
  Forall (fun x => PyFloat.is_nan (Info.weight x) = false) l ->
  uniform (get_num "weight") l.
Proof.
  intros H. right. split; [intros x; exists (Info.weight x); reflexivity|].
  exact H.
Qed.

(** C7, as amended.  For every store, order "desc" by age returns all the
    records, the age of each one at least that of every later one, and
    order "asc" returns them with each age at most that of every later
    one; in both, the records of the same age as a given record come in
    the order they have in the store.  The same holds for height and for
    weight on every store in which no value of that field is NaN. *)
Theorem sort_is_ordered_and_stable (file : dict) :
  ((exists l,
      sort_patient_data "age" "desc" file = (Ok l, file) /\
      ordered_and_stable (fun a b => Info.age b <= Info.age a)
        (fun r x => Info.age x =? Info.age r) (dict_values file) l) /\
   (exists l,
      sort_patient_data "age" "asc" file = (Ok l, file) /\
      ordered_and_stable (fun a b => Info.age a <= Info.age b)
        (fun r x => Info.age x =? Info.age r) (dict_values file) l)) /\
  (Forall (fun x => PyFloat.is_nan (Info.height x) = false) (dict_values file) ->
   (exists l,
      sort_patient_data "height" "desc" file = (Ok l, file) /\
      ordered_and_stable
        (fun a b => PyFloat.ge (Info.height a) (Info.height b) = true)
        (fun r x => PyFloat.eq (Info.height x) (Info.height r))
        (dict_values file) l) /\
   (exists l,
      sort_patient_data "height" "asc" file = (Ok l, file) /\
      ordered_and_stable
        (fun a b => PyFloat.le (Info.height a) (Info.height b) = true)
        (fun r x => PyFloat.eq (Info.height x) (Info.height r))
        (dict_values file) l)) /\
  (Forall (fun x => PyFloat.is_nan (Info.weight x) = false) (dict_values file) ->
   (exists l,
      sort_patient_data "weight" "desc" file = (Ok l, file) /\
      ordered_and_stable
        (fun a b => PyFloat.ge (Info.weight a) (Info.weight b) = true)
        (fun r x => PyFloat.eq (Info.weight x) (Info.weight r))
        (dict_values file) l) /\
   (exists l,
      sort_patient_data "weight" "asc" file = (Ok l, file) /\
      ordered_and_stable
        (fun a b => PyFloat.le (Info.weight a) (Info.weight b) = true)
        (fun r x => PyFloat.eq (Info.weight x) (Info.weight r))
        (dict_values file) l)).
Proof.
  split; [|split].
  - apply (sort_contract "age" file (fun a b => Info.age a <= Info.age b)
             (fun r x => Info.age x =? Info.age r)).
    + simpl. auto.
    + apply uniform_age.
    + intros a b H. apply num_le_Int. exact H.
    + intros r x. reflexivity.
  - intros HN.
    apply (sort_contract "height" file
             (fun a b => PyFloat.le (Info.height a) (Info.height b) = true)
             (fun r x => PyFloat.eq (Info.height x) (Info.height r))).
    + simpl. auto.
    + apply uniform_height. exact HN.
    + intros a b H. rewrite <- num_le_Float. exact H.
    + intros r x. reflexivity.
  - intros HN.
    apply (sort_contract "weight" file
             (fun a b => PyFloat.le (Info.weight a) (Info.weight b) = true)
             (fun r x => PyFloat.eq (Info.weight x) (Info.weight r))).
    + simpl. auto.
    + apply uniform_weight. exact HN.
    + intros a b H. rewrite <- num_le_Float. exact H.
    + intros r x. reflexivity.
Qed.

Lemma sort_is_ordered_and_stable_witness :
  (exists l,
     sort_patient_data "age" "desc" tie_file = (Ok l, tie_file) /\
     ordered_and_stable (fun a b => Info.age b <= Info.age a)
       (fun r x => Info.age x =? Info.age r) (dict_values tie_file) l) /\
  (exists l,
     sort_patient_data "height" "asc" tie_file = (Ok l, tie_file) /\
     ordered_and_stable
       (fun a b => PyFloat.le (Info.height a) (Info.height b) = true)
       (fun r x => PyFloat.eq (Info.height x) (Info.height r))
       (dict_values tie_file) l).
Proof.
  split.
  - apply (proj1 (proj1 (sort_is_ordered_and_stable tie_file))).
  - apply (proj2 (proj1 (proj2 (sort_is_ordered_and_stable tie_file))
                    ltac:(repeat constructor))).
Defined.

(** C7 as stated fails on a store in which a height is NaN: every
    comparison with NaN is false, so the sort finds nothing to move and
    answers with the records in store order, in both directions, although
    1.70 comes before 1.60. *)
Lemma sort_with_nan_is_not_ordered :
  map Info.height (dict_values nan_file) = [f1_70; S754_nan; f1_60] /\
  sort_patient_data "height" "asc" nan_file = (Ok (dict_values nan_file), nan_file) /\
  PyFloat.le f1_70 f1_60 = false /\
  sort_patient_data "height" "desc" nan_file = (Ok (dict_values nan_file), nan_file) /\
  PyFloat.ge f1_70 S754_nan = false.
Proof. repeat split. Qed.

Lemma tie_file_derived : Forall derived_ok (dict_values tie_file).
Proof.
  repeat constructor; try (eexists; split; [reflexivity|]; split; reflexivity).
Qed.

(** On the store with two records of age 34: by age descending they keep
    their order, Asha before Mira; ascending as well. *)
Lemma sort_by_age_example :
  (let '(r, _) := sort_patient_data "age" "desc" tie_file in
   match r with Ok l => map Info.name l | Raise _ => [] end)
  = ["Ravi"; "Asha"; "Mira"; "Tara"] /\
  (let '(r, _) := sort_patient_data "age" "asc" tie_file in
   match r with Ok l => map Info.name l | Raise _ => [] end)
  = ["Tara"; "Asha"; "Mira"; "Ravi"] /\
  (let '(r, _) := sort_patient_data "height" "desc" tie_file in
   match r with Ok l => map Info.name l | Raise _ => [] end)
  = ["Asha"; "Tara"; "Ravi"; "Mira"].
Proof. repeat split. Qed.

(** A field or an order outside the admitted ones is answered 400. *)
Lemma sort_rejects_other_arguments (sort_by order : string) (file : dict) :
  ~ In sort_by valid_fields \/ ~ In order ["asc"; "desc"] ->
  exists detail,
    sort_patient_data sort_by order file = (Raise (HTTPException 400 detail), file).
Proof.
  intros H.
  destruct (literal valid_fields sort_by) eqn:E1.
  - destruct (literal ["asc"; "desc"] order) eqn:E2.
    + apply literal_In in E1, E2. tauto.
    + unfold sort_patient_data. rewrite E1, E2. cbn [negb].
      eexists. reflexivity.
  - unfold sort_patient_data. rewrite E1. cbn [negb]. eexists. reflexivity.
Qed.

(** Every store built by requests from the empty one holds no NaN among its
    heights and weights, whatever the requests were: the sort endpoint
    orders it by each of the three fields. *)
Lemma sort_after_requests {L : PyFloat.Libm} (rs : list request) :
  let values := dict_values (serve_all rs []) in
  Forall (fun x => PyFloat.is_nan (Info.height x) = false) values /\
  Forall (fun x => PyFloat.is_nan (Info.weight x) = false) values.
Proof.
  pose proof (reachable_stored_ok rs) as R. simpl.
  rewrite Forall_forall in R.
  split; apply Forall_forall; intros x Hx;
    destruct (R x Hx) as ((_ & _ & Hh & Hw) & _);
    apply positive_not_nan; assumption.
Qed.

(** * Further properties of the endpoints *)

(** ** What changes the file *)

Lemma create_outcome {L : PyFloat.Libm} (p : Patient.t) (file : dict) :
  (exists e, create_patient_data p file = (Raise e, file)) \/
  (exists x, dict_in (Patient.id p) file = false /\ model_dump p = Ok x /\
     create_patient_data p file
     = (Ok (Response 200 "Patient data created successfully"),
        file ++ [(Patient.id p, x)])).
Proof.
  unfold create_patient_data, load_data, save_data.
  destruct (dict_in (Patient.id p) file) eqn:E.
  - left. eexists. reflexivity.
  - destruct (model_dump p) as [x|e] eqn:D.
    + right. exists x. rewrite (dict_keys_set_new _ x file E). auto.
    + left. exists e. reflexivity.
Qed.

Lemma delete_outcome (p_id : string) (file : dict) :
  delete_patient_data p_id file
  = if dict_in p_id file
    then (Ok (Response 200 "Patient data deleted successfully"), dict_del p_id file)
    else (Raise (HTTPException 404 "Patient ID not found"), file).
Proof.
  unfold delete_patient_data, load_data, save_data.
  destruct (dict_in p_id file); reflexivity.
Qed.

(** X1.  A request that ends in an exception leaves the file as it was,
    whichever of create, update and delete it is; the three reading
    endpoints never change it. *)
Theorem only_accepted_writes_change_the_file {L : PyFloat.Libm} :
  (forall (r : request) (file : dict) (e : exn),
     fst (serve r file) = Raise e -> snd (serve r file) = file) /\
  (forall file, snd (view_data file) = file) /\
  (forall p_id file, snd (view_paitent_data p_id file) = file) /\
  (forall sort_by order file, snd (sort_patient_data sort_by order file) = file).
Proof.
  split; [|split; [|split]].
  - intros r file e. destruct r as [body | body p_id | p_id]; simpl.
    + unfold post_patient. destruct (Patient_new body) as [p|e']; [|reflexivity].
      destruct (create_outcome p file) as [[e' ->] | (x & _ & _ & ->)];
        [reflexivity | discriminate].
    + unfold put_patient_edit.
      destruct (PatientUpdate.new body) as [u|e']; [|reflexivity].
      destruct (update_patient_data u p_id file) as [[r|e'] file'] eqn:U; simpl;
        [discriminate|].
      intros _. exact (update_failure_keeps_file u p_id file file' e' U).
    + rewrite delete_outcome. destruct (dict_in p_id file); [discriminate | reflexivity].
  - reflexivity.
  - intros p_id file. unfold view_paitent_data, load_data.
    destruct (dict_get p_id file); reflexivity.
  - intros sort_by order file. unfold sort_patient_data.
    destruct (negb (literal valid_fields sort_by)); [reflexivity|].
    destruct (negb (literal ["asc"; "desc"] order)); reflexivity.
Qed.

Lemma only_accepted_writes_change_the_file_witness :
  snd (serve (Delete "P009") sample_file) = sample_file.
Proof.
  apply (proj1 only_accepted_writes_change_the_file (Delete "P009") sample_file
           (HTTPException 404 "Patient ID not found")).
  reflexivity.
Defined.

(** ** Create, then read or delete *)

Lemma dict_get_app (k k' : string) (v : Info.t) (d : dict) :
  dict_get k (d ++ [(k', v)]) =
  match dict_get k d with
  | Some y => Some y
  | None => if String.eqb k k' then Some v else None
  end.
Proof.
  induction d as [|[k0 v0] d IH]; simpl; [reflexivity|].
  destruct (String.eqb k k0); [reflexivity | exact IH].
Qed.

Lemma dict_in_false (k : string) (d : dict) :
  dict_in k d = false <-> dict_get k d = None.
Proof.
  unfold dict_in. destruct (dict_get k d); split; intros H; congruence.
Qed.

Lemma post_patient_Ok {L : PyFloat.Libm}
  (body : PatientArgs.t) (file file' : dict) (r : JSONResponse) :
  post_patient body file = (Ok r, file') ->
  exists p x,
    Patient_new body = Ok p /\ dict_in (Patient.id p) file = false /\
    model_dump p = Ok x /\ file' = file ++ [(Patient.id p, x)] /\
    r = Response 200 "Patient data created successfully".
Proof.
  unfold post_patient. destruct (Patient_new body) as [p|e] eqn:V; [|discriminate].
  destruct (create_outcome p file) as [[e ->] | (x & Hin & D & ->)];
    [discriminate|].
  intros H. inversion H. exists p, x. auto.
Qed.

(** X2.  An accepted create puts the new record last, under the id of the
    body and with the fields of the body, and touches nothing else: the
    records that were there come first, in their order, and each id that
    was bound is still bound to the same record. *)
Theorem create_appends_one_record {L : PyFloat.Libm}
  (body : PatientArgs.t) (file file' : dict)
  (r : JSONResponse) :
  post_patient body file = (Ok r, file') ->
  exists (i : string) (x : Info.t),
    PatientArgs.id body = Some i /\
    dict_in i file = false /\
    file' = file ++ [(i, x)] /\
    PatientArgs.name body = Some (Info.name x) /\
    PatientArgs.city body = Some (Info.city x) /\
    PatientArgs.age body = Some (Info.age x) /\
    PatientArgs.gender body = Some (Info.gender x) /\
    PatientArgs.height body = Some (Info.height x) /\
    PatientArgs.weight body = Some (Info.weight x) /\
    (forall k y, dict_get k file = Some y -> dict_get k file' = Some y).
Proof.
  intros H. destruct (post_patient_Ok body file file' r H) as (p & x & V & Hin & D & -> & _).
  apply Patient_new_Ok_inv in V. destruct V as (-> & _).
  apply model_dump_Ok_inv in D. destruct D as (sq & _ & _ & ->).
  exists (Patient.id p). eexists. simpl.
  repeat (split; [reflexivity || exact Hin|]).
  intros k y G. rewrite dict_get_app, G. reflexivity.
Qed.

Lemma create_appends_one_record_witness :
  exists (i : string) (x : Info.t),
    Some "P002" = Some i /\ [("P001", asha_info)] ++ [("P002", ravi_info)]
                            = [("P001", asha_info)] ++ [(i, x)].
Proof.
  destruct (create_appends_one_record (body_of ravi) [("P001", asha_info)]
              sample_file (Response 200 "Patient data created successfully"))
    as (i & x & Hi & _ & Hf & _).
  - reflexivity.
  - exists i, x. split; [exact Hi | exact Hf].
Defined.

(** X3.  After an accepted create, the endpoint function that reads one
    patient returns, for the new id, the stored record, whose bmi and
    verdict are the derived ones, and for any other id what it returned
    before. *)
Theorem view_after_create {L : PyFloat.Libm} (body : PatientArgs.t)
  (file file' : dict) (r : JSONResponse) (i : string) :
  post_patient body file = (Ok r, file') ->
  PatientArgs.id body = Some i ->
  (exists x, view_paitent_data i file' = (Ok x, file') /\
             PatientArgs.name body = Some (Info.name x) /\ derived_ok x) /\
  (forall k, k <> i ->
     fst (view_paitent_data k file') = fst (view_paitent_data k file)).
Proof.
  intros H Hi.
  destruct (post_patient_Ok body file file' r H) as (p & x & V & Hin & D & -> & _).
  pose proof (model_dump_derived p x D) as Hd.
  apply Patient_new_Ok_inv in V. destruct V as (-> & _).
  simpl in Hi. inversion Hi. subst i.
  apply dict_in_false in Hin.
  split.
  - exists x. unfold view_paitent_data, load_data.
    rewrite dict_get_app, Hin, String.eqb_refl.
    destruct (model_dump_fields p x D) as (En & _).
    split; [reflexivity|]. split; [simpl; rewrite En; reflexivity | exact Hd].
  - intros k N. unfold view_paitent_data, load_data. rewrite dict_get_app.
    apply String.eqb_neq in N. rewrite N.
    destruct (dict_get k file); reflexivity.
Qed.

Lemma view_after_create_witness :
  (exists x, view_paitent_data "P002" sample_file = (Ok x, sample_file) /\
             Some "Ravi" = Some (Info.name x) /\ derived_ok x) /\
  (forall k, k <> "P002" ->
     fst (view_paitent_data k sample_file)
     = fst (view_paitent_data k [("P001", asha_info)])).
Proof.
  apply (view_after_create (body_of ravi) [("P001", asha_info)] sample_file
           (Response 200 "Patient data created successfully") "P002");
    reflexivity.
Defined.

Lemma dict_del_app (k : string) (v : Info.t) (d : dict) :
  dict_get k d = None -> dict_del k (d ++ [(k, v)]) = d.
Proof.
  induction d as [|[k0 v0] d IH]; simpl.
  - rewrite String.eqb_refl. reflexivity.
  - destruct (String.eqb k k0); [discriminate|].
    intros H. rewrite (IH H). reflexivity.
Qed.

(** X4.  Deleting the id of a record that was just created gives back the
    file as it was before the create. *)
Theorem create_then_delete_restores {L : PyFloat.Libm}
  (body : PatientArgs.t) (file file' : dict)
  (r : JSONResponse) (i : string) :
  post_patient body file = (Ok r, file') ->
  PatientArgs.id body = Some i ->
  delete_patient_data i file'
  = (Ok (Response 200 "Patient data deleted successfully"), file).
Proof.
  intros H Hi.
  destruct (post_patient_Ok body file file' r H) as (p & x & V & Hin & D & -> & _).
  apply Patient_new_Ok_inv in V. destruct V as (-> & _).
  simpl in Hi. inversion Hi. subst i.
  apply dict_in_false in Hin.
  rewrite delete_outcome. unfold dict_in.
  rewrite dict_get_app, Hin, String.eqb_refl.
  rewrite (dict_del_app _ x file Hin). reflexivity.
Qed.

Lemma create_then_delete_restores_witness :
  delete_patient_data "P002" sample_file
  = (Ok (Response 200 "Patient data deleted successfully"), [("P001", asha_info)]).
Proof.
  apply (create_then_delete_restores (body_of ravi) [("P001", asha_info)]
           sample_file (Response 200 "Patient data created successfully") "P002");
    reflexivity.
Defined.

(** ** Delete *)

Lemma dict_get_None_keys (k : string) (d : dict) :
  dict_get k d = None <-> ~ In k (dict_keys d).
Proof.
  unfold dict_keys. induction d as [|[k0 v0] d IH]; simpl.
  - split; [intros _ [] | reflexivity].
  - destruct (String.eqb k k0) eqn:E.
    + apply String.eqb_eq in E. subst. split; [discriminate | intros H; exfalso; auto].
    + apply String.eqb_neq in E. rewrite IH. split.
      * intros H [H'|H']; [congruence | auto].
      * intros H H'. apply H. right. exact H'.
Qed.

Lemma dict_get_del_neq (k k' : string) (d : dict) :
  k <> k' -> dict_get k (dict_del k' d) = dict_get k d.
Proof.
  intros N. induction d as [|[k0 v0] d IH]; simpl; [reflexivity|].
  destruct (String.eqb k' k0) eqn:E.
  - apply String.eqb_eq in E. subst k0.
    apply String.eqb_neq in N. rewrite N. reflexivity.
  - simpl. destruct (String.eqb k k0); [reflexivity | exact IH].
Qed.

Lemma dict_keys_del (k : string) (d : dict) :
  NoDup (dict_keys d) ->
  dict_keys (dict_del k d) = filter (fun k' => negb (String.eqb k' k)) (dict_keys d).
Proof.
  unfold dict_keys. induction d as [|[k0 v0] d IH]; simpl; intros ND; [reflexivity|].
  inversion ND as [|? ? Hnin ND']; subst.
  destruct (String.eqb k k0) eqn:E.
  - apply String.eqb_eq in E. subst k0. rewrite String.eqb_refl. simpl.
    symmetry. clear - Hnin. induction d as [|[k1 v1] d IHd]; simpl in *; [reflexivity|].
    destruct (String.eqb k1 k) eqn:E1.
    + apply String.eqb_eq in E1. exfalso. auto.
    + simpl. rewrite IHd; auto.
  - rewrite String.eqb_sym, E. simpl. rewrite (IH ND'). reflexivity.
Qed.

(** X5.  Deleting an id that is bound answers 200 and removes that entry
    and no other: the id is unbound afterwards, every other id is bound as
    before, and the remaining ids keep their order. *)
Theorem delete_removes_that_entry_only (p_id : string) (file : dict) :
  NoDup (dict_keys file) ->
  dict_in p_id file = true ->
  exists file',
    delete_patient_data p_id file
    = (Ok (Response 200 "Patient data deleted successfully"), file') /\
    dict_get p_id file' = None /\
    (forall k, k <> p_id -> dict_get k file' = dict_get k file) /\
    dict_keys file' = filter (fun k => negb (String.eqb k p_id)) (dict_keys file).
Proof.
  intros ND H. exists (dict_del p_id file).
  rewrite delete_outcome, H.
  split; [reflexivity|]. split; [apply dict_get_del_eq; exact ND|].
  split; [intros k N; apply dict_get_del_neq; exact N|].
  apply dict_keys_del. exact ND.
Qed.

Lemma delete_removes_that_entry_only_witness :
  exists file',
    delete_patient_data "P003" tie_file
    = (Ok (Response 200 "Patient data deleted successfully"), file') /\
    dict_get "P003" file' = None /\
    (forall k, k <> "P003" -> dict_get k file' = dict_get k tie_file) /\
    dict_keys file'
    = filter (fun k => negb (String.eqb k "P003")) (dict_keys tie_file).
Proof.
  apply (delete_removes_that_entry_only "P003" tie_file).
  - repeat constructor; simpl; intuition discriminate.
  - reflexivity.
Defined.

(** X6.  Once an id is deleted, reading it, updating it and deleting it
    again are all answered 404, and none of them changes the file. *)
Theorem deleted_id_is_gone {L : PyFloat.Libm} (p_id : string) (file file' : dict)
  (r : JSONResponse) (u : PatientUpdate.t) :
  NoDup (dict_keys file) ->
  delete_patient_data p_id file = (Ok r, file') ->
  view_paitent_data p_id file'
  = (Raise (HTTPException 404 "Patient ID not Found"), file') /\
  update_patient_data u p_id file'
  = (Raise (HTTPException 404 "Patient ID not Found"), file') /\
  delete_patient_data p_id file'
  = (Raise (HTTPException 404 "Patient ID not found"), file').
Proof.
  intros ND. rewrite delete_outcome.
  destruct (dict_in p_id file); [|discriminate].
  intros H. inversion H. subst.
  pose proof (dict_get_del_eq p_id file ND) as G.
  split; [|split].
  - unfold view_paitent_data, load_data. rewrite G. reflexivity.
  - apply update_missing. exact G.
  - apply delete_missing. apply dict_in_false. exact G.
Qed.

Lemma deleted_id_is_gone_witness :
  view_paitent_data "P002" [("P001", asha_info)]
  = (Raise (HTTPException 404 "Patient ID not Found"), [("P001", asha_info)]) /\
  update_patient_data PatientUpdate.empty "P002" [("P001", asha_info)]
  = (Raise (HTTPException 404 "Patient ID not Found"), [("P001", asha_info)]) /\
  delete_patient_data "P002" [("P001", asha_info)]
  = (Raise (HTTPException 404 "Patient ID not found"), [("P001", asha_info)]).
Proof.
  apply (deleted_id_is_gone "P002" sample_file [("P001", asha_info)]
           (Response 200 "Patient data deleted successfully") PatientUpdate.empty).
  - repeat constructor; simpl; intuition discriminate.
  - reflexivity.
Defined.

(** The ids of the file stay pairwise distinct under every request. *)
Lemma serve_keeps_NoDup {L : PyFloat.Libm} (r : request) (file : dict) :
  NoDup (dict_keys file) -> NoDup (dict_keys (snd (serve r file))).
Proof.
  intros ND. destruct r as [body | body p_id | p_id]; simpl.
  - unfold post_patient. destruct (Patient_new body) as [p|e]; [|exact ND].
    destruct (create_outcome p file) as [[e ->] | (x & Hin & _ & ->)]; [exact ND|].
    simpl. unfold dict_keys. rewrite map_app. simpl.
    apply dict_in_false, dict_get_None_keys in Hin.
    apply NoDup_app; [exact ND | repeat constructor; simpl; tauto |].
    intros k Hk [<-|[]]. exact (Hin Hk).
  - unfold put_patient_edit. destruct (PatientUpdate.new body) as [u|e]; [|exact ND].
    destruct (dict_get p_id file) as [existing|] eqn:G.
    + rewrite (update_unfold u p_id file existing G).
      destruct (p <- Patient_new (merged_info existing u p_id) ;; model_dump p);
        simpl; [|exact ND].
      rewrite dict_keys_set; [exact ND|]. apply dict_in_get. eauto.
    + rewrite (update_missing u p_id file G). exact ND.
  - rewrite delete_outcome. destruct (dict_in p_id file); simpl; [|exact ND].
    rewrite (dict_keys_del p_id file ND). apply NoDup_filter. exact ND.
Qed.

(** ** Update *)

(** X7.  An update, accepted or not, never adds, removes or moves an id:
    the ids of the file and their order are what they were. *)
Theorem update_keeps_the_ids {L : PyFloat.Libm}
  (body : PatientUpdate.t) (p_id : string) (file : dict) :
  dict_keys (snd (put_patient_edit body p_id file)) = dict_keys file /\
  dict_keys (snd (update_patient_data body p_id file)) = dict_keys file.
Proof.
  assert (U : forall u, dict_keys (snd (update_patient_data u p_id file))
                        = dict_keys file).
  { intros u. destruct (dict_get p_id file) as [existing|] eqn:G.
    - rewrite (update_unfold u p_id file existing G).
      destruct (p <- Patient_new (merged_info existing u p_id) ;; model_dump p);
        simpl; [|reflexivity].
      apply dict_keys_set. apply dict_in_get. eauto.
    - rewrite (update_missing u p_id file G). reflexivity. }
  split; [|apply U].
  unfold put_patient_edit. destruct (PatientUpdate.new body) as [u|e]; [apply U | reflexivity].
Qed.

Lemma assign_pick {T : Type} (a : arg T) (old v : T) :
  assign a old = Some v -> assign a v = Some v.
Proof. destruct a; simpl; intros H; inversion H; reflexivity. Qed.

Lemma update_Ok_inv {L : PyFloat.Libm}
  (u : PatientUpdate.t) (p_id : string) (file file' : dict)
  (r : JSONResponse) :
  update_patient_data u p_id file = (Ok r, file') ->
  exists existing p x,
    dict_get p_id file = Some existing /\
    Patient_new (merged_info existing u p_id) = Ok p /\
    model_dump p = Ok x /\ file' = dict_set p_id x file /\
    r = Response 200 "Patient data updated successfully".
Proof.
  destruct (dict_get p_id file) as [existing|] eqn:G.
  - rewrite (update_unfold u p_id file existing G).
    destruct (Patient_new (merged_info existing u p_id)) as [p|e] eqn:V; simpl;
      [|discriminate].
    destruct (model_dump p) as [x|e] eqn:D; [|discriminate].
    intros H. inversion H. exists existing, p, x. auto.
  - rewrite (update_missing u p_id file G). discriminate.
Qed.

(** X8.  An accepted update is idempotent: sending the same update again
    is accepted again and leaves the file as the first one left it. *)
Theorem update_twice_is_update_once {L : PyFloat.Libm}
  (u : PatientUpdate.t) (p_id : string)
  (file file' : dict) (r : JSONResponse) :
  update_patient_data u p_id file = (Ok r, file') ->
  update_patient_data u p_id file' = (Ok r, file').
Proof.
  intros H.
  destruct (update_Ok_inv u p_id file file' r H) as (existing & p & x & G & V & D & -> & ->).
  assert (M : merged_info x u p_id = merged_info existing u p_id).
  { pose proof V as V'. apply Patient_new_Ok_inv in V'. destruct V' as (E & _).
    pose proof D as D'. apply model_dump_Ok_inv in D'.
    destruct D' as (sq & _ & _ & Ex).
    clear - E Ex. subst x. destruct p as [i n c a g h w].
    unfold merged_info, body_of in *. simpl in *.
    inversion E as [[E1 E2 E3 E4 E5 E6 E7]].
    rewrite (assign_pick _ _ _ E2), (assign_pick _ _ _ E3), (assign_pick _ _ _ E4),
      (assign_pick _ _ _ E5), (assign_pick _ _ _ E6), (assign_pick _ _ _ E7).
    rewrite E2, E3, E4, E5, E6, E7. reflexivity. }
  rewrite (update_unfold u p_id (dict_set p_id x file) x (dict_get_set_eq p_id x file)).
  rewrite M, V. simpl. rewrite D.
  rewrite (dict_set_same p_id x (dict_set p_id x file) (dict_get_set_eq p_id x file)).
  reflexivity.
Qed.

Lemma update_twice_is_update_once_witness :
  let u := PatientUpdate.mk Unset (Val "Goa") Unset Unset Unset (Val f45_0) in
  update_patient_data u "P001" (snd (update_patient_data u "P001" sample_file))
  = (Ok (Response 200 "Patient data updated successfully"),
     snd (update_patient_data u "P001" sample_file)).
Proof.
  intros u.
  apply (update_twice_is_update_once u "P001" sample_file).
  reflexivity.
Defined.

(** X9.  When an update sets neither height nor weight, on a record whose
    bmi and verdict are the derived ones, the record it stores has the bmi
    and the verdict it had: recomputing them changes nothing. *)
Theorem update_of_other_fields_keeps_bmi {L : PyFloat.Libm} (u : PatientUpdate.t)
  (p_id : string) (file file' : dict) (r : JSONResponse) (existing : Info.t) :
  dict_get p_id file = Some existing ->
  derived_ok existing ->
  PatientUpdate.height u = Unset -> PatientUpdate.weight u = Unset ->
  update_patient_data u p_id file = (Ok r, file') ->
  exists x, dict_get p_id file' = Some x /\
            Info.bmi x = Info.bmi existing /\
            Info.verdict x = Info.verdict existing /\
            Info.height x = Info.height existing /\
            Info.weight x = Info.weight existing.
Proof.
  intros G Hd Uh Uw H.
  destruct (update_Ok_inv u p_id file file' r H) as (ex & p & x & G' & V & D & -> & _).
  rewrite G in G'. inversion G'. subst ex.
  exists x. split; [apply dict_get_set_eq|].
  apply Patient_new_Ok_inv in V. destruct V as (E & _).
  destruct (model_dump_fields p x D) as (_ & _ & _ & _ & Eh & Ew).
  destruct p as [i n c a g h w].
  unfold merged_info, body_of in E. rewrite Uh, Uw in E. simpl in E.
  inversion E as [[E1 E2 E3 E4 E5 E6 E7]]. simpl in Eh, Ew.
  assert (Hh : Info.height x = Info.height existing) by congruence.
  assert (Hw : Info.weight x = Info.weight existing) by congruence.
  destruct (derived_ok_unique x existing (model_dump_derived _ x D) Hd Hh Hw)
    as [Hb Hv].
  auto.
Qed.

Lemma update_of_other_fields_keeps_bmi_witness :
  exists x,
    dict_get "P001"
      (snd (update_patient_data
              (PatientUpdate.mk (Val "Asha K") Unset (Val 35) Unset Unset Unset)
              "P001" sample_file)) = Some x /\
    Info.bmi x = f24_22 /\ Info.verdict x = "Normal" /\
    Info.height x = f1_70 /\ Info.weight x = f70_0.
Proof.
  apply (update_of_other_fields_keeps_bmi
           (PatientUpdate.mk (Val "Asha K") Unset (Val 35) Unset Unset Unset)
           "P001" sample_file _ (Response 200 "Patient data updated successfully")
           asha_info); try reflexivity.
  pose proof sample_file_derived as F. inversion F. assumption.
Defined.

(** ** The range constraints as an invariant *)

(** X10.  Every request keeps the records of the file within the
    constraints of [Patient]: age strictly between 0 and 120, gender one of
    male, female, others, height and weight above 0; so every file built by
    requests from the empty one holds only such records, and ids that are
    pairwise distinct. *)
Theorem records_stay_within_constraints {L : PyFloat.Libm} :
  (forall (r : request) (file : dict),
     Forall info_valid (dict_values file) ->
     Forall info_valid (dict_values (snd (serve r file)))) /\
  (forall rs : list request,
     Forall info_valid (dict_values (serve_all rs [])) /\
     NoDup (dict_keys (serve_all rs []))).
Proof.
  assert (HP : forall k p x, Patient_new k = Ok p -> model_dump p = Ok x ->
                             info_valid x).
  { intros k p x V D. apply (model_dump_stored_ok k p x V D). }
  split.
  - apply (serve_keeps info_valid HP).
  - intros rs. split.
    + apply (serve_all_keeps info_valid HP). constructor.
    + assert (G : forall file, NoDup (dict_keys file) ->
                               NoDup (dict_keys (serve_all rs file))).
      { unfold serve_all. induction rs as [|r rs IH]; intros file ND; simpl;
          [exact ND|].
        apply IH. apply serve_keeps_NoDup. exact ND. }
      apply G. constructor.
Qed.

Lemma records_stay_within_constraints_witness :
  Forall info_valid (dict_values (snd (serve (Delete "P001") sample_file))).
Proof.
  apply (proj1 records_stay_within_constraints).
  repeat constructor.
Defined.

(** ** The verdict as a function of the bmi *)

Lemma ge_negb_lt (b c : float) :
  PyFloat.is_nan b = false -> PyFloat.is_nan c = false ->
  PyFloat.ge b c = negb (PyFloat.lt b c).
Proof.
  intros Hb Hc. unfold PyFloat.ge. fold (PyFloat.le c b).
  destruct (PyFloat.lt b c) eqn:E; simpl.
  - destruct (PyFloat.le c b) eqn:E'; [|reflexivity].
    apply le_not_lt in E'. congruence.
  - apply le_rank. repeat split; auto.
    destruct (lt_false_rank b c Hb Hc E) as [H|H]; auto.
Qed.

Lemma classify_by_lt (b : float) :
  PyFloat.is_nan b = false ->
  Patient.classify b =
    if PyFloat.lt b f18_5 then "Underweight"
    else if PyFloat.lt b f25 then "Normal"
    else if PyFloat.lt b f30 then "Overweight"
    else "Obese".
Proof.
  intros Hb. unfold Patient.classify.
  rewrite !(ge_negb_lt b) by (exact Hb || reflexivity).
  destruct (PyFloat.lt b f18_5), (PyFloat.lt b f25), (PyFloat.lt b f30); reflexivity.
Qed.

Lemma le_lt_trans (x y z : float) :
  PyFloat.le x y = true -> PyFloat.lt y z = true -> PyFloat.lt x z = true.
Proof.
  intros H1 H2. apply lt_rank.
  apply le_rank in H1. destruct H1 as (Hx & Hy & H1).
  apply lt_rank in H2. destruct H2 as (_ & Hz & H2).
  repeat split; auto.
  float_order; lia.
Qed.

Lemma lt_nan_l (c : float) : PyFloat.lt S754_nan c = false.
Proof. reflexivity. Qed.

Lemma nan_cases (b : float) : PyFloat.is_nan b = true -> b = S754_nan.
Proof. destruct b; simpl; intros H; congruence. Qed.

Ltac settle_brackets :=
  simpl;
  repeat match goal with
  | |- _ /\ _ => split
  | |- _ <-> _ => split
  end; intros;
  repeat match goal with
  | H : _ /\ _ |- _ => destruct H
  | H : _ \/ _ |- _ => destruct H
  end; try discriminate; try reflexivity; auto.

Lemma lt_trans (x y z : float) :
  PyFloat.lt x y = true -> PyFloat.lt y z = true -> PyFloat.lt x z = true.
Proof.
  intros H1 H2. apply lt_rank.
  apply lt_rank in H1. destruct H1 as (Hx & Hy & H1).
  apply lt_rank in H2. destruct H2 as (_ & Hz & H2).
  repeat split; auto.
  float_order; lia.
Qed.

(** X11.  Each verdict is given on its bracket and nowhere else:
    Underweight exactly when bmi < 18.5, Normal exactly when
    18.5 <= bmi < 25, Overweight exactly when 25 <= bmi < 30, and Obese
    exactly when bmi >= 30 or the bmi is NaN. *)
Theorem verdict_brackets_are_exact (b : float) :
  (Patient.classify b = "Underweight" <-> PyFloat.lt b f18_5 = true) /\
  (Patient.classify b = "Normal" <->
     PyFloat.ge b f18_5 = true /\ PyFloat.lt b f25 = true) /\
  (Patient.classify b = "Overweight" <->
     PyFloat.ge b f25 = true /\ PyFloat.lt b f30 = true) /\
  (Patient.classify b = "Obese" <->
     PyFloat.ge b f30 = true \/ PyFloat.is_nan b = true).
Proof.
  destruct (PyFloat.is_nan b) eqn:Hb.
  - apply nan_cases in Hb. subst b. settle_brackets.
  - assert (L1 : PyFloat.lt f18_5 f25 = true) by reflexivity.
    assert (L2 : PyFloat.lt f25 f30 = true) by reflexivity.
    rewrite (classify_by_lt b Hb).
    rewrite !(ge_negb_lt b) by (exact Hb || reflexivity).
    destruct (PyFloat.lt b f18_5) eqn:E1.
    { pose proof (lt_trans _ _ _ E1 L1) as E2.
      pose proof (lt_trans _ _ _ E2 L2) as E3.
      rewrite E2, E3. settle_brackets. }
    destruct (PyFloat.lt b f25) eqn:E2.
    { pose proof (lt_trans _ _ _ E2 L2) as E3. rewrite E3. settle_brackets. }
    destruct (PyFloat.lt b f30) eqn:E3; settle_brackets.
Qed.

(** X12.  The verdict never goes down when the bmi goes up: for
    bmi1 <= bmi2 the verdict of bmi1 is the same or an earlier one in the
    order Underweight, Normal, Overweight, Obese. *)
Theorem verdict_is_monotone (b1 b2 : float) :
  PyFloat.le b1 b2 = true ->
  level (Patient.classify b1) <= level (Patient.classify b2).
Proof.
  intros H.
  pose proof H as H'. apply le_rank in H'. destruct H' as (N1 & N2 & _).
  rewrite (classify_by_lt b1 N1), (classify_by_lt b2 N2).
  pose proof (le_lt_trans b1 b2 f18_5 H) as T1.
  pose proof (le_lt_trans b1 b2 f25 H) as T2.
  pose proof (le_lt_trans b1 b2 f30 H) as T3.
  destruct (PyFloat.lt b2 f18_5);
    [rewrite (T1 eq_refl); vm_compute; discriminate|].
  destruct (PyFloat.lt b2 f25).
  { rewrite (T2 eq_refl). destruct (PyFloat.lt b1 f18_5); vm_compute; discriminate. }
  destruct (PyFloat.lt b2 f30).
  { rewrite (T3 eq_refl).
    destruct (PyFloat.lt b1 f18_5), (PyFloat.lt b1 f25); vm_compute; discriminate. }
  destruct (PyFloat.lt b1 f18_5), (PyFloat.lt b1 f25), (PyFloat.lt b1 f30);
    vm_compute; discriminate.
Qed.

Lemma verdict_is_monotone_witness :
  level (Patient.classify f17_58) <= level (Patient.classify f24_22).
Proof. apply verdict_is_monotone. reflexivity. Defined.

(** ** The sign of the bmi *)

Lemma binary_round_aux_unsigned (m e : Z) (l : location) :
  unsigned (binary_round_aux PyFloat.prec PyFloat.emax false m e l).
Proof.
  unfold binary_round_aux.
  destruct (shr_fexp _ _ m e l) as [mrs' e'].
  destruct (shr_fexp _ _ _ e' loc_Exact) as [mrs'' e''].
  destruct (shr_m mrs''); simpl; auto.
  destruct (e'' <=? _); simpl; auto.
Qed.

Lemma positive_ok_cases (x : float) :
  positive_ok x = true ->
  x = S754_infinity false \/ exists m e, x = S754_finite false m e.
Proof.
  destruct x as [s|[|]| |[|] m e]; simpl; intros H; try discriminate; eauto.
Qed.

Lemma mul_unsigned (x : float) :
  positive_ok x = true -> unsigned (PyFloat.mul x x).
Proof.
  intros H. destruct (positive_ok_cases x H) as [-> | (m & e & ->)]; simpl; auto.
  apply binary_round_aux_unsigned.
Qed.

Lemma div_unsigned (x y : float) :
  positive_ok x = true -> unsigned y -> unsigned (PyFloat.div x y).
Proof.
  intros H Hy. destruct (positive_ok_cases x H) as [-> | (m & e & ->)];
    destruct y as [[|]|[|]| |[|] n g]; simpl in *; auto; try contradiction.
  unfold PyFloat.div, SFdiv.
  match goal with
  | |- context [SFdiv_core_binary ?a ?b ?c ?d ?e ?f] =>
      destruct (SFdiv_core_binary a b c d e f) as [[mz ez] lz]
  end.
  apply binary_round_aux_unsigned.
Qed.

Lemma round_unsigned (x : float) (ndigits : N) :
  unsigned x -> unsigned (PyFloat.round x ndigits).
Proof.
  destruct x as [[|]|[|]| |[|] m e]; simpl; auto; try contradiction.
  intros _.
  match goal with
  | |- unsigned (match ?n with Zpos _ => _ | _ => _ end) => destruct n
  end; simpl; auto.
  unfold PyFloat.nearest_float, SFdiv.
  match goal with
  | |- context [SFdiv_core_binary ?a ?b ?c ?d ?e ?f] =>
      destruct (SFdiv_core_binary a b c d e f) as [[mz ez] lz]
  end.
  apply binary_round_aux_unsigned.
Qed.

Lemma unsigned_not_below_zero (x : float) : unsigned x -> PyFloat.lt x f0 = false.
Proof. destruct x as [[|]|[|]| |[|] m e]; simpl; auto; contradiction. Qed.

(** X13.  For a height and a weight above 0, a bmi that is returned is
    never below zero: it is a number with a clear sign bit, or NaN. *)
Theorem bmi_is_never_negative {L : PyFloat.Libm} (p : Patient.t) (b : float) :
  positive_ok (Patient.height p) = true ->
  positive_ok (Patient.weight p) = true ->
  Patient.bmi p = Ok b ->
  PyFloat.lt b f0 = false /\ unsigned b.
Proof.
  intros Hh Hw H. apply bmi_Ok_inv in H. destruct H as (sq & E & _ & ->).
  assert (U : unsigned (PyFloat.round (PyFloat.div (Patient.weight p) sq) 2)).
  { apply round_unsigned. apply div_unsigned; [exact Hw|].
    apply (pow2_unsigned _ _ E). }
  split; [apply unsigned_not_below_zero; exact U | exact U].
Qed.

Lemma bmi_is_never_negative_witness :
  PyFloat.lt f24_22 f0 = false /\ unsigned f24_22.
Proof. apply (bmi_is_never_negative asha f24_22); reflexivity. Defined.

(** ** Sorting: the arguments, and descending against ascending *)

(** X14.  The sort endpoint answers with records exactly when the field is
    one of age, height, weight and the order is asc or desc (in lower
    case); otherwise it answers 400, naming the field when the field is
    wrong and the order only when the field is right.  An answer with
    records holds every record of the file once. *)
Theorem sort_answers (sort_by order : string) (file : dict) :
  (In sort_by valid_fields /\ In order ["asc"; "desc"] ->
   exists l, sort_patient_data sort_by order file = (Ok l, file) /\
             Permutation l (dict_values file)) /\
  (~ In sort_by valid_fields ->
   sort_patient_data sort_by order file
   = (Raise (HTTPException 400
        ("Invalid field " ++ sort_by ++
         ". Please choose from ['age', 'height', 'weight']")%string), file)) /\
  (In sort_by valid_fields -> ~ In order ["asc"; "desc"] ->
   sort_patient_data sort_by order file
   = (Raise (HTTPException 400
        ("Invalid order " ++ order ++
         ". Please choose between asc and desc")%string), file)).
Proof.
  split; [|split].
  - intros [Hs Ho]. eexists. split.
    + apply (sort_patient_data_unfold sort_by order file Hs Ho).
    + apply sorted_perm.
  - intros Hs. unfold sort_patient_data.
    destruct (literal valid_fields sort_by) eqn:E; [|reflexivity].
    apply literal_In in E. contradiction.
  - intros Hs Ho. unfold sort_patient_data.
    apply literal_In in Hs. rewrite Hs. cbn [negb].
    destruct (literal ["asc"; "desc"] order) eqn:E; [|reflexivity].
    apply literal_In in E. contradiction.
Qed.

Lemma sort_answers_witness :
  (exists l, sort_patient_data "weight" "asc" sample_file = (Ok l, sample_file) /\
             Permutation l (dict_values sample_file)) /\
  sort_patient_data "name" "up" sample_file
  = (Raise (HTTPException 400
       "Invalid field name. Please choose from ['age', 'height', 'weight']"),
     sample_file) /\
  sort_patient_data "age" "DESC" sample_file
  = (Raise (HTTPException 400
       "Invalid order DESC. Please choose between asc and desc"), sample_file).
Proof.
  split; [|split].
  - apply (proj1 (sort_answers "weight" "asc" sample_file)). simpl. auto.
  - apply (proj1 (proj2 (sort_answers "name" "up" sample_file))).
    simpl. intuition discriminate.
  - apply (proj2 (proj2 (sort_answers "age" "DESC" sample_file))).
    + simpl. auto.
    + simpl. intuition discriminate.
Defined.

Section NoTies.

Variable A : Type.
Variable key : A -> num.
Variable P : num -> Prop.
Hypothesis P_total :
  forall a b, P a -> P b -> num_lt a b = false -> num_le b a = true.
Hypothesis P_trans :
  forall a b c, P a -> P b -> P c ->
    num_le a b = true -> num_le b c = true -> num_le a c = true.
Hypothesis P_asym :
  forall a b, P a -> P b -> num_lt a b = true -> num_lt b a = false.

Lemma sorted_without_ties_is_strict (l : list A) :
  no_ties key l -> StronglySorted (key_le key) l -> StronglySorted (key_lt key) l.
Proof.
  intros [ND T] HS. induction HS as [|a l HS IH Ha]; [constructor|].
  inversion ND as [|? ? Hnin ND']; subst.
  constructor.
  - apply IH; [exact ND'|]. intros x y Hx Hy. apply T; right; assumption.
  - rewrite Forall_forall in *. intros y Hy.
    specialize (Ha y Hy). unfold key_le, num_le in Ha. unfold key_lt.
    destruct (num_lt (key a) (key y)); [reflexivity|]. simpl in Ha.
    exfalso. apply Hnin.
    rewrite (T a y (or_introl eq_refl) (or_intror Hy) Ha). exact Hy.
Qed.

Lemma strict_sorted_unique (l1 l2 : list A) :
  Forall (fun x => P (key x)) l1 ->
  StronglySorted (key_lt key) l1 -> StronglySorted (key_lt key) l2 ->
  Permutation l1 l2 -> l1 = l2.
Proof.
  revert l2. induction l1 as [|a l1 IH]; intros l2 HP S1 S2 Hp.
  - apply Permutation_nil in Hp. auto.
  - destruct l2 as [|b l2];
      [apply Permutation_sym, Permutation_nil in Hp; discriminate|].
    inversion S1 as [|? ? S1' F1]; subst.
    inversion S2 as [|? ? S2' F2]; subst.
    inversion HP as [|? ? Pa HP']; subst.
    assert (Hab : a = b).
    { assert (Ia : In a (b :: l2)) by (apply (Permutation_in _ Hp); left; reflexivity).
      assert (Ib : In b (a :: l1))
        by (apply (Permutation_in _ (Permutation_sym Hp)); left; reflexivity).
      destruct Ia as [Ia|Ia]; [auto|].
      destruct Ib as [Ib|Ib]; [auto|].
      rewrite Forall_forall in F1, F2, HP'.
      pose proof (F1 b Ib) as L1. pose proof (F2 a Ia) as L2.
      unfold key_lt in *.
      rewrite (P_asym (key a) (key b) Pa (HP' b Ib) L1) in L2. discriminate. }
    subst b. f_equal. apply IH; auto.
    apply (Permutation_cons_inv Hp).
Qed.

Lemma sorted_desc_is_rev_asc (l : list A) :
  Forall (fun x => P (key x)) l -> no_ties key l ->
  sorted key l true = rev (sorted key l false).
Proof.
  intros HP NT. unfold sorted. f_equal.
  assert (NT' : forall l', Permutation l l' -> no_ties key l').
  { intros l' Hp. destruct NT as [ND T]. split.
    - apply (Permutation_NoDup Hp ND).
    - intros x y Hx Hy. apply T; apply (Permutation_in _ (Permutation_sym Hp));
        assumption. }
  assert (HP' : forall l', Permutation l l' -> Forall (fun x => P (key x)) l').
  { intros l' Hp. apply (Permutation_Forall Hp). exact HP. }
  pose proof (Permutation_sym (sort_stable_perm A key l)) as Q1.
  pose proof (Permutation_trans (Permutation_rev l)
                (Permutation_sym (sort_stable_perm A key (rev l)))) as Q2.
  apply strict_sorted_unique.
  - apply HP'. exact Q2.
  - apply sorted_without_ties_is_strict; [apply NT'; exact Q2|].
    apply (sort_stable_sorted A key P P_total P_trans).
    apply HP'. apply Permutation_rev.
  - apply sorted_without_ties_is_strict; [apply NT'; exact Q1|].
    apply (sort_stable_sorted A key P P_total P_trans). exact HP.
  - apply Permutation_trans with l; [apply Permutation_sym; exact Q2 | exact Q1].
Qed.

End NoTies.

Lemma int_asym (a b : num) :
  is_int a -> is_int b -> num_lt a b = true -> num_lt b a = false.
Proof.
  intros [x ->] [y ->]. simpl. rewrite Z.ltb_lt, Z.ltb_ge. lia.
Qed.

Lemma float_asym (a b : num) :
  real_float a -> real_float b -> num_lt a b = true -> num_lt b a = false.
Proof.
  intros [[x ->] _] [[y ->] _]. simpl. intros H.
  destruct (PyFloat.lt y x) eqn:E; [|reflexivity].
  exfalso. float_order; lia.
Qed.

Lemma desc_is_rev_asc (sort_by : string) (file : dict) :
  In sort_by valid_fields ->
  uniform (get_num sort_by) (dict_values file) ->
  no_ties (get_num sort_by) (dict_values file) ->
  exists l,
    sort_patient_data sort_by "asc" file = (Ok l, file) /\
    sort_patient_data sort_by "desc" file = (Ok (rev l), file).
Proof.
  intros Hs HU NT.
  exists (sorted (get_num sort_by) (dict_values file) false).
  split; [apply (sort_patient_data_unfold sort_by "asc" file Hs); simpl; auto|].
  rewrite (sort_patient_data_unfold sort_by "desc" file Hs) by (simpl; auto).
  simpl. f_equal. f_equal.
  destruct HU as [HI | [HF HN]].
  - apply (sorted_desc_is_rev_asc Info.t (get_num sort_by) is_int
             int_total int_trans int_asym); [|exact NT].
    apply Forall_forall. intros; apply HI.
  - apply (sorted_desc_is_rev_asc Info.t (get_num sort_by) real_float
             float_total float_trans float_asym); [|exact NT].
    rewrite Forall_forall in *. intros x Hx. split; [apply HF | apply HN; exact Hx].
Qed.

(** X15.  When the records of the file are pairwise different and no two
    of them have the same age, the answer by age descending is the answer
    by age ascending reversed; so it is for height and for weight, when no
    two records have equal values in the field and none of the values is
    NaN. *)
Theorem descending_is_ascending_reversed (file : dict) :
  NoDup (dict_values file) ->
  ((forall x y, In x (dict_values file) -> In y (dict_values file) ->
      Info.age x = Info.age y -> x = y) ->
   exists l,
     sort_patient_data "age" "asc" file = (Ok l, file) /\
     sort_patient_data "age" "desc" file = (Ok (rev l), file)) /\
  (Forall (fun x => PyFloat.is_nan (Info.height x) = false) (dict_values file) ->
   (forall x y, In x (dict_values file) -> In y (dict_values file) ->
      PyFloat.eq (Info.height x) (Info.height y) = true -> x = y) ->
   exists l,
     sort_patient_data "height" "asc" file = (Ok l, file) /\
     sort_patient_data "height" "desc" file = (Ok (rev l), file)) /\
  (Forall (fun x => PyFloat.is_nan (Info.weight x) = false) (dict_values file) ->
   (forall x y, In x (dict_values file) -> In y (dict_values file) ->
      PyFloat.eq (Info.weight x) (Info.weight y) = true -> x = y) ->
   exists l,
     sort_patient_data "weight" "asc" file = (Ok l, file) /\
     sort_patient_data "weight" "desc" file = (Ok (rev l), file)).
Proof.
  intros ND. split; [|split].
  - intros T. apply (desc_is_rev_asc "age" file).
    + simpl. auto.
    + apply uniform_age.
    + split; [exact ND|]. intros x y Hx Hy H. apply (T x y Hx Hy).
      simpl in H. apply Z.eqb_eq. exact H.
  - intros HN T. apply (desc_is_rev_asc "height" file).
    + simpl. auto.
    + apply uniform_height. exact HN.
    + split; [exact ND|]. intros x y Hx Hy H. apply (T x y Hx Hy). exact H.
  - intros HN T. apply (desc_is_rev_asc "weight" file).
    + simpl. auto.
    + apply uniform_weight. exact HN.
    + split; [exact ND|]. intros x y Hx Hy H. apply (T x y Hx Hy). exact H.
Qed.

Lemma descending_is_ascending_reversed_witness :
  (exists l,
     sort_patient_data "age" "asc" sample_file = (Ok l, sample_file) /\
     sort_patient_data "age" "desc" sample_file = (Ok (rev l), sample_file)) /\
  (exists l,
     sort_patient_data "height" "asc" sample_file = (Ok l, sample_file) /\
     sort_patient_data "height" "desc" sample_file = (Ok (rev l), sample_file)).
Proof.
  assert (ND : NoDup (dict_values sample_file))
    by (repeat constructor; simpl; intuition discriminate).
  split.
  - apply (proj1 (descending_is_ascending_reversed sample_file ND)).
    intros x y [<-|[<-|[]]] [<-|[<-|[]]]; simpl; intros H;
      reflexivity || discriminate.
  - apply (proj1 (proj2 (descending_is_ascending_reversed sample_file ND))).
    + repeat constructor.
    + intros x y [<-|[<-|[]]] [<-|[<-|[]]]; simpl; intros H;
        reflexivity || discriminate.
Defined.

(** With a tie the two answers differ: on the store with two records of
    age 34 the descending answer is not the ascending one reversed. *)
Lemma tie_breaks_reversal :
  fst (sort_patient_data "age" "desc" tie_file)
  <> match fst (sort_patient_data "age" "asc" tie_file) with
     | Ok l => Ok (rev l)
     | Raise e => Raise e
     end.
Proof. vm_compute. discriminate. Qed.

(** ** Heights whose square is in range *)

Lemma digits2_pos_bounds (p : positive) :
  2 ^ (Zpos (digits2_pos p) - 1) <= Zpos p < 2 ^ Zpos (digits2_pos p).
Proof.
  induction p as [p IH|p IH|]; simpl digits2_pos.
  - rewrite Pos2Z.inj_succ.
    replace (Z.succ (Zpos (digits2_pos p)) - 1) with (Z.succ (Zpos (digits2_pos p) - 1)) by lia.
    rewrite !Z.pow_succ_r by lia. lia.
  - rewrite Pos2Z.inj_succ.
    replace (Z.succ (Zpos (digits2_pos p)) - 1) with (Z.succ (Zpos (digits2_pos p) - 1)) by lia.
    rewrite !Z.pow_succ_r by lia. lia.
  - simpl. lia.
Qed.

Lemma digits2_pos_unique (p : positive) (k : Z) :
  2 ^ (k - 1) <= Zpos p < 2 ^ k -> 0 < k -> Zpos (digits2_pos p) = k.
Proof.
  intros [L U] Hk. pose proof (digits2_pos_bounds p) as [L' U'].
  assert (A : Zpos (digits2_pos p) - 1 < k).
  { apply (Z.pow_lt_mono_r_iff 2); lia. }
  assert (B : k - 1 < Zpos (digits2_pos p)).
  { apply (Z.pow_lt_mono_r_iff 2); lia. }
  lia.
Qed.

Lemma shr_1_m (mrs : shr_record) :
  0 <= shr_m mrs -> shr_m (shr_1 mrs) = shr_m mrs / 2.
Proof.
  destruct mrs as [m r s]. simpl. destruct m as [|[p|p|]|p]; simpl; intros H;
    try reflexivity; try lia.
  - apply Z.div_unique with 1; lia.
  - apply Z.div_unique with 0; lia.
Qed.

Lemma iter_shr_m (p : positive) (mrs : shr_record) :
  0 <= shr_m mrs ->
  shr_m (iter_pos shr_1 p mrs) = shr_m mrs / 2 ^ Zpos p.
Proof.
  revert mrs. induction p as [p IH|p IH|]; intros mrs H; simpl iter_pos.
  - assert (H1 : 0 <= shr_m (shr_1 mrs)) by (rewrite shr_1_m by lia; apply Z.div_pos; lia).
    assert (H2 : 0 <= shr_m (iter_pos shr_1 p (shr_1 mrs)))
      by (rewrite IH by lia; apply Z.div_pos; lia).
    rewrite IH, IH, shr_1_m by lia.
    rewrite !Z.div_div by lia.
    f_equal. replace (Zpos p~1) with (Zpos p + Zpos p + 1) by lia.
    rewrite !Z.pow_add_r by lia. change (2 ^ 1) with 2. ring.
  - assert (H2 : 0 <= shr_m (iter_pos shr_1 p mrs))
      by (rewrite IH by lia; apply Z.div_pos; lia).
    rewrite IH, IH by lia. rewrite Z.div_div by lia.
    f_equal. replace (Zpos p~0) with (Zpos p + Zpos p) by lia.
    rewrite Z.pow_add_r by lia. reflexivity.
  - rewrite shr_1_m by lia. reflexivity.
Qed.

Lemma shr_record_of_loc_m (m : Z) (l : location) : shr_m (shr_record_of_loc m l) = m.
Proof. destruct l as [|[| |]]; reflexivity. Qed.

Lemma shr_fexp_normal (mx ex : Z) (lx : location) (d : Z) :
  0 < mx -> Zdigits2 mx = d -> 53 <= d -> -1074 <= d + ex - 53 ->
  exists mrs,
    shr_fexp PyFloat.prec PyFloat.emax mx ex lx = (mrs, d + ex - 53) /\
    shr_m mrs = mx / 2 ^ (d - 53).
Proof.
  intros Hm Hd H53 He. unfold shr_fexp. rewrite Hd.
  unfold fexp, emin, PyFloat.prec, PyFloat.emax.
  replace (Z.max (d + ex - 53) (3 - 1024 - 53) - ex) with (d - 53) by lia.
  unfold shr. destruct (d - 53) as [|p|p] eqn:E; try lia.
  - eexists. split; [f_equal; lia|].
    rewrite shr_record_of_loc_m, Z.pow_0_r, Z.div_1_r. reflexivity.
  - eexists. split; [f_equal; lia|].
    rewrite iter_shr_m; rewrite shr_record_of_loc_m; [reflexivity | lia].
Qed.

Lemma Zdigits2_bounds (x : Z) :
  0 < x -> 2 ^ (Zdigits2 x - 1) <= x < 2 ^ Zdigits2 x.
Proof. destruct x as [|p|p]; try lia. intros _. apply digits2_pos_bounds. Qed.

Lemma Zdigits2_unique (x k : Z) :
  0 < x -> 2 ^ (k - 1) <= x < 2 ^ k -> 0 < k -> Zdigits2 x = k.
Proof. destruct x as [|p|p]; try lia. intros _. apply digits2_pos_unique. Qed.

Lemma binary_round_aux_finite (s : bool) (mx ex : Z) (lx : location) (d : Z) :
  0 < mx -> Zdigits2 mx = d -> 53 <= d ->
  -1074 <= d + ex - 53 -> d + ex - 53 + 1 <= 971 ->
  exists m e,
    binary_round_aux PyFloat.prec PyFloat.emax s mx ex lx = S754_finite s m e /\
    4503599627370496 <= Zpos m < 9007199254740992 /\
    d + ex - 53 <= e <= d + ex - 53 + 1.
Proof.
  intros Hm Hd H53 Hlo Hhi. unfold binary_round_aux.
  destruct (shr_fexp_normal mx ex lx d Hm Hd H53 Hlo) as (mrs & E1 & M1).
  rewrite E1.
  assert (P52 : 2 ^ 52 = 4503599627370496) by reflexivity.
  assert (P53 : 2 ^ 53 = 9007199254740992) by reflexivity.
  assert (B1 : 2 ^ 52 <= shr_m mrs < 2 ^ 53).
  { rewrite M1. pose proof (Zdigits2_bounds mx Hm) as [Lo Up]. rewrite Hd in Lo, Up.
    assert (Q : 0 < 2 ^ (d - 53)) by (apply Z.pow_pos_nonneg; lia).
    split.
    - apply Z.div_le_lower_bound; [exact Q|].
      rewrite <- Z.pow_add_r by lia. replace (d - 53 + 52) with (d - 1) by lia. exact Lo.
    - apply Z.div_lt_upper_bound; [exact Q|].
      rewrite <- Z.pow_add_r by lia. replace (d - 53 + 53) with d by lia. exact Up. }
  set (m2 := round_nearest_even (shr_m mrs) (loc_of_shr_record mrs)).
  assert (B2 : 2 ^ 52 <= m2 <= 2 ^ 53).
  { unfold m2, round_nearest_even.
    destruct (loc_of_shr_record mrs) as [|[| |]]; try destruct (Z.even (shr_m mrs)); lia. }
  destruct (Z.eq_dec m2 (2 ^ 53)) as [E2|N2].
  - destruct (shr_fexp_normal m2 (d + ex - 53) loc_Exact 54) as (mrs2 & E3 & M3);
      try lia.
    { apply Zdigits2_unique; try lia;
        (rewrite E2; split; [reflexivity | apply Z.pow_lt_mono_r; lia]). }
    rewrite E3, M3, E2. change (2 ^ 53 / 2 ^ (54 - 53)) with 4503599627370496.
    unfold PyFloat.emax, PyFloat.prec.
    destruct (54 + (d + ex - 53) - 53 <=? 1024 - 53) eqn:Le.
    + do 2 eexists. split; [reflexivity|]. lia.
    + apply Z.leb_gt in Le. lia.
  - destruct (shr_fexp_normal m2 (d + ex - 53) loc_Exact 53) as (mrs2 & E3 & M3);
      try lia.
    { apply Zdigits2_unique; try lia; (change (53 - 1) with 52; lia). }
    rewrite E3, M3. change (2 ^ (53 - 53)) with 1. rewrite Z.div_1_r.
    destruct m2 as [|q|q]; try lia.
    unfold PyFloat.emax, PyFloat.prec.
    destruct (53 + (d + ex - 53) - 53 <=? 1024 - 53) eqn:Le.
    + do 2 eexists. split; [reflexivity|]. lia.
    + apply Z.leb_gt in Le. lia.
Qed.

(** The correctly rounded square of a normal float whose exponent is far
    from both ends of the range is a normal float far from both ends. *)
Lemma mul_normal_finite (m : positive) (e : Z) :
  Zpos (digits2_pos m) = 53 -> -551 <= e <= 446 ->
  exists m' e',
    PyFloat.mul (S754_finite false m e) (S754_finite false m e) = S754_finite false m' e' /\
    4503599627370496 <= Zpos m' < 9007199254740992 /\ -1050 <= e' <= 946.
Proof.
  intros Hd He. unfold PyFloat.mul, SFmul. simpl xorb.
  pose proof (digits2_pos_bounds m) as [Lo Up]. rewrite Hd in Lo, Up.
  change (2 ^ (53 - 1)) with 4503599627370496 in Lo.
  change (2 ^ 53) with 9007199254740992 in Up.
  assert (Hm : 0 < Zpos (m * m)) by lia.
  pose proof (Zdigits2_bounds _ Hm) as [L2 U2].
  set (d := Zdigits2 (Zpos (m * m))) in *.
  rewrite Pos2Z.inj_mul in L2, U2.
  assert (D0 : 0 < d) by (unfold d; simpl; lia).
  assert (D1 : 104 < d).
  { apply (Z.pow_lt_mono_r_iff 2); [lia | lia |].
    change (2 ^ 104) with (4503599627370496 * 4503599627370496). nia. }
  assert (D2 : d - 1 < 106).
  { apply (Z.pow_lt_mono_r_iff 2); [lia | lia |].
    change (2 ^ 106) with (9007199254740992 * 9007199254740992). nia. }
  destruct (binary_round_aux_finite false (Zpos (m * m)) (e + e) loc_Exact d)
    as (m' & e' & E & Bm & Be); try lia; try reflexivity.
  exists m', e'. split; [exact E|]. split; [exact Bm | lia].
Qed.

(** The floats next to such a float are finite and not zero. *)
Lemma near_normal_finite (m : positive) (e : Z) (y : float) :
  4503599627370496 <= Zpos m < 9007199254740992 -> -1050 <= e <= 946 ->
  y = S754_finite false m e \/ y = next_up (S754_finite false m e) \/
  y = next_down (S754_finite false m e) ->
  exists m' e', y = S754_finite false m' e'.
Proof.
  intros Bm Be [-> | [-> | ->]]; [eauto | |].
  - unfold next_up. destruct (Zpos m + 1 <? 9007199254740992); [eauto|].
    destruct (e + 1 <=? 971) eqn:Le; [eauto|]. apply Z.leb_gt in Le. lia.
  - unfold next_down.
    destruct ((Zpos m =? 4503599627370496) && (-1074 <? e)); [eauto|].
    destruct (Zpos m - 1) eqn:Q; try lia. eauto.
Qed.

Lemma in_range_normal (h : float) :
  PyFloat.valid h = true ->
  PyFloat.le f1e_150 h = true -> PyFloat.le h f1e150 = true ->
  exists m e, h = S754_finite false m e /\ Zpos (digits2_pos m) = 53 /\ -551 <= e <= 446.
Proof.
  intros V Lo Up.
  apply le_rank in Lo. destruct Lo as (_ & _ & Lo).
  apply le_rank in Up. destruct Up as (_ & _ & Up).
  destruct h as [s|[|]| |[|] m e]; simpl in Lo, Up;
    try (exfalso; destruct Lo as [Lo|Lo]; destruct Up as [Up|Up];
         try discriminate; lia).
  exists m, e. split; [reflexivity|].
  assert (E : -551 <= e <= 446).
  { destruct Lo as [Lo|Lo]; destruct Up as [Up|Up];
      try (inversion Lo); try (inversion Up); lia. }
  split; [|exact E].
  unfold PyFloat.valid, valid_binary, bounded, canonical_mantissa, fexp, emin in V.
  apply andb_true_iff in V. destruct V as [V _]. apply Z.eqb_eq in V.
  unfold PyFloat.prec, PyFloat.emax in V. lia.
Qed.

(** With an accurate [pow], the square of a height from 1e-150 to 1e150 is
    returned and is a finite float that is not zero. *)
Lemma pow2_in_range {L : PyFloat.Libm} (h : float) :
  PyFloat.valid h = true ->
  PyFloat.le f1e_150 h = true -> PyFloat.le h f1e150 = true ->
  within_one_ulp h ->
  exists m e, PyFloat.pow2 h = Ok (S754_finite false m e).
Proof.
  intros V Lo Up (y & E & Hy).
  destruct (in_range_normal h V Lo Up) as (m & e & -> & Hd & He).
  destruct (mul_normal_finite m e Hd He) as (m' & e' & Q & Bm & Be).
  rewrite Q in Hy.
  destruct (near_normal_finite m' e' y Bm Be Hy) as (m2 & e2 & ->).
  unfold PyFloat.pow2.
  destruct (PyFloat.eq (S754_finite false m e) PyFloat.one).
  - unfold PyFloat.one. eauto.
  - rewrite E. simpl. eauto.
Qed.

Lemma bmi_defined_in_range {L : PyFloat.Libm} (h : float) :
  PyFloat.valid h = true ->
  PyFloat.le f1e_150 h = true -> PyFloat.le h f1e150 = true ->
  within_one_ulp h ->
  bmi_defined h = true.
Proof.
  intros V Lo Up A.
  destruct (pow2_in_range h V Lo Up A) as (m & e & E).
  unfold bmi_defined. rewrite E. reflexivity.
Qed.

(** X16.  For every binary64 height from 1e-150 to 1e150 at which the C
    library's [pow] is accurate to one unit in the last place, and every
    weight above 0, [height ** 2] returns a finite square that is not zero,
    so the bmi property raises nothing: it returns
    [round(weight / square, 2)], the verdict is the class of that value,
    and [model_dump] returns the record. *)
Theorem bmi_returns_for_heights_in_range {L : PyFloat.Libm} (p : Patient.t) :
  PyFloat.valid (Patient.height p) = true ->
  PyFloat.le f1e_150 (Patient.height p) = true ->
  PyFloat.le (Patient.height p) f1e150 = true ->
  positive_ok (Patient.weight p) = true ->
  within_one_ulp (Patient.height p) ->
  exists (m : positive) (e : Z) (b : float),
    PyFloat.pow2 (Patient.height p) = Ok (S754_finite false m e) /\
    Patient.bmi p = Ok b /\
    b = PyFloat.round (PyFloat.div (Patient.weight p) (S754_finite false m e)) 2 /\
    Patient.verdict p = Ok (Patient.classify b) /\
    exists x, model_dump p = Ok x /\ Info.bmi x = b.
Proof.
  intros V Lo Up _ A.
  destruct (pow2_in_range (Patient.height p) V Lo Up A) as (m & e & E).
  pose proof (bmi_of_square p _ E eq_refl) as B.
  exists m, e. eexists. split; [exact E|]. split; [exact B|].
  split; [reflexivity|]. split; [apply verdict_of_bmi; exact B|].
  eexists. split; [apply (model_dump_Ok p _ E eq_refl) | reflexivity].
Qed.

Lemma bmi_returns_for_heights_in_range_witness :
  exists (m : positive) (e : Z) (b : float),
    PyFloat.pow2 f1_60 = Ok (S754_finite false m e) /\
    Patient.bmi ravi = Ok b /\
    b = PyFloat.round (PyFloat.div f45_0 (S754_finite false m e)) 2 /\
    Patient.verdict ravi = Ok (Patient.classify b) /\
    exists x, model_dump ravi = Ok x /\ Info.bmi x = b.
Proof.
  apply (bmi_returns_for_heights_in_range ravi); try reflexivity.
  apply sample_within_one_ulp. reflexivity.
Defined.

(** The two neighbours are the ones of the library of floats, on the
    squares of the examples and at the ends of a binade. *)
Lemma next_float_examples :
  forallb (fun x => SFeqb (next_up x) (SFsucc PyFloat.prec PyFloat.emax x)
                    && SFeqb (next_down x) (SFpred PyFloat.prec PyFloat.emax x))
    [PyFloat.mul f1_70 f1_70; PyFloat.mul f1_60 f1_60; PyFloat.mul f2_759 f2_759;
     PyFloat.one; S754_finite false 9007199254740991 (-53);
     S754_finite false 4503599627370496 (-1074);
     S754_finite false 4503599627370495 (-1074);
     S754_finite false 9007199254740991 971] = true.
Proof. vm_compute. reflexivity. Qed.

(** ** The "Add Patient" page *)

Lemma nonblank_false (s : string) : Client.nonblank s = false <-> s = "".
Proof.
  unfold Client.nonblank. rewrite negb_false_iff. apply String.eqb_eq.
Qed.

(** X17.  When the id, the name or the city of the form is blank, the page
    asks to fill the required fields and sends nothing: the file of the
    server is untouched, whatever the other fields hold. *)
Theorem add_patient_blank_field_sends_nothing {L : PyFloat.Libm}
  (form : Client.AddForm) (up : bool)
  (file : dict) :
  Client.patient_id form = "" \/ Client.name form = "" \/ Client.city form = "" ->
  Client.add_patient form up file
  = ([Client.error "❌ Please fill all required fields marked with *"], file).
Proof.
  intros H. unfold Client.add_patient.
  destruct H as [H | [H | H]]; apply nonblank_false in H; rewrite H;
    rewrite ?andb_false_r; reflexivity.
Qed.

Lemma add_patient_blank_field_sends_nothing_witness :
  Client.add_patient
    (Client.mkAddForm "P009" "" 25 "Pune" "male" f1_70 f70_0) true sample_file
  = ([Client.error "❌ Please fill all required fields marked with *"], sample_file).
Proof.
  apply add_patient_blank_field_sends_nothing. right. left. reflexivity.
Defined.

Lemma model_dump_Raise_cases {L : PyFloat.Libm} (p : Patient.t) (e : exn) :
  model_dump p = Raise e -> e = ZeroDivisionError \/ e = OverflowError.
Proof.
  unfold model_dump. destruct (Patient.bmi p) as [b|e'] eqn:B; simpl.
  - unfold Patient.verdict. rewrite B. discriminate.
  - intros H. inversion H. subst e'. apply (bmi_Raise p e B).
Qed.

Lemma post_status_cases {L : PyFloat.Libm} (body : PatientArgs.t) (file : dict) :
  (exists code, code <> 200 /\ http_post_patient body file = (code, file)) \/
  (exists p x, Patient_new body = Ok p /\ dict_in (Patient.id p) file = false /\
     model_dump p = Ok x /\
     http_post_patient body file = (200, file ++ [(Patient.id p, x)])).
Proof.
  unfold http_post_patient.
  destruct (Patient_new body) as [p|e] eqn:V.
  - destruct (create_outcome p file) as [[e E] | (x & Hin & D & E)].
    + left. rewrite E.
      unfold create_patient_data, load_data in E.
      destruct (dict_in (Patient.id p) file).
      * inversion E. exists 400. split; [discriminate | reflexivity].
      * destruct (model_dump p) as [x|e'] eqn:D; [discriminate|].
        inversion E. subst e'.
        exists 500. split; [discriminate|].
        destruct (model_dump_Raise_cases p e D) as [-> | ->]; reflexivity.
    + right. rewrite E. exists p, x. auto.
  - left. exists 422. split; [discriminate | reflexivity].
Qed.

Lemma test_200 (code : Z) :
  Client.truthy (Some (Client.mkResponse code))
  && Client.status_is (Some (Client.mkResponse code)) 200 = (code =? 200).
Proof.
  unfold Client.truthy, Client.status_is. simpl.
  destruct (code =? 200) eqn:E; [|apply andb_false_r].
  apply Z.eqb_eq in E. subst code. reflexivity.
Qed.

Lemma test_400 (code : Z) :
  Client.truthy (Some (Client.mkResponse code))
  && Client.status_is (Some (Client.mkResponse code)) 400 = false.
Proof.
  unfold Client.truthy, Client.status_is. simpl.
  destruct (code =? 400) eqn:E; [|apply andb_false_r].
  apply Z.eqb_eq in E. subst code. reflexivity.
Qed.

(** X18.  The page never shows "Patient ID already exists!": a response
    with status 400 counts as false in the test that guards that message.
    With the three strings filled in and an id that is already bound, what
    is shown is the general error, and the file is untouched. *)
Theorem add_patient_never_reports_the_duplicate {L : PyFloat.Libm} :
  (forall (form : Client.AddForm) (up : bool) (file : dict),
     ~ In (Client.error "❌ Patient ID already exists!")
          (fst (Client.add_patient form up file))) /\
  (forall (form : Client.AddForm) (file : dict),
     Client.patient_id form <> "" -> Client.name form <> "" ->
     Client.city form <> "" ->
     dict_in (Client.patient_id form) file = true ->
     Client.add_patient form true file
     = ([Client.error "❌ Error occurred while adding patient."], file)).
Proof.
  split.
  - intros form up file. unfold Client.add_patient.
    destruct (Client.nonblank _ && Client.nonblank _ && Client.nonblank _).
    + unfold Client.make_request_post. destruct up.
      * destruct (http_post_patient _ file) as [code file'].
        rewrite test_200, test_400.
        destruct (code =? 200); simpl; intros [H|[]]; discriminate.
      * simpl. intros [H|[H|[]]]; discriminate.
    + simpl. intros [H|[]]. discriminate.
  - intros form file Hi Hn Hc Hin. unfold Client.add_patient.
    assert (B : forall s, s <> "" -> Client.nonblank s = true).
    { intros s Hs. destruct (Client.nonblank s) eqn:E; [reflexivity|].
      apply nonblank_false in E. contradiction. }
    rewrite (B _ Hi), (B _ Hn), (B _ Hc). simpl.
    unfold Client.make_request_post.
    destruct (post_status_cases
                (PatientArgs.mk (Some (Client.patient_id form)) (Some (Client.name form))
                   (Some (Client.city form)) (Some (Client.age form))
                   (Some (Client.gender form)) (Some (Client.height form))
                   (Some (Client.weight form))) file)
      as [(code & Hcode & E) | (p & x & V & Hfresh & _ & _)].
    + rewrite E, test_200, test_400.
      destruct (code =? 200) eqn:E2; [apply Z.eqb_eq in E2; contradiction|].
      reflexivity.
    + apply Patient_new_Ok_inv in V. destruct V as (V & _).
      unfold body_of in V. inversion V as [[V1 V2 V3 V4 V5 V6 V7]].
      rewrite <- V1 in Hfresh. congruence.
Qed.

Lemma add_patient_never_reports_the_duplicate_witness :
  Client.add_patient
    (Client.mkAddForm "P001" "Asha" 34 "Pune" "female" f1_70 f70_0) true sample_file
  = ([Client.error "❌ Error occurred while adding patient."], sample_file).
Proof.
  apply (proj2 add_patient_never_reports_the_duplicate); try discriminate.
  reflexivity.
Defined.

Lemma lt_le_trans (x y z : float) :
  PyFloat.lt x y = true -> PyFloat.le y z = true -> PyFloat.lt x z = true.
Proof.
  intros H1 H2. apply lt_rank.
  apply lt_rank in H1. destruct H1 as (Hx & Hy & H1).
  apply le_rank in H2. destruct H2 as (_ & Hz & H2).
  repeat split; auto.
  float_order; lia.
Qed.

(** X19.  With the three strings filled in, the server up, an id that is
    not bound yet, every widget within its bounds (age 1 to 120, height 0.1
    to 3.0, weight 1.0 to 500.0) and a C library whose [pow] is accurate to
    one unit in the last place at the height, the page adds the patient and
    shows the success message for every age but 120; an age of 120, which
    the age widget admits, is refused by the server and the page shows the
    general error. *)
Theorem add_patient_within_widget_bounds {L : PyFloat.Libm} (form : Client.AddForm)
  (file : dict) :
  Client.in_widget_range form ->
  within_one_ulp (Client.height form) ->
  Client.patient_id form <> "" -> Client.name form <> "" ->
  Client.city form <> "" ->
  dict_in (Client.patient_id form) file = false ->
  (Client.age form <> 120 ->
   exists x,
     Client.add_patient form true file
     = ([Client.success "✅ Patient added successfully!"],
        file ++ [(Client.patient_id form, x)]) /\
     Info.name x = Client.name form /\ Info.age x = Client.age form /\
     Info.height x = Client.height form /\ Info.weight x = Client.weight form /\
     derived_ok x) /\
  (Client.age form = 120 ->
   Client.add_patient form true file
   = ([Client.error "❌ Error occurred while adding patient."], file)).
Proof.
  intros (Ha & Hg & Vh & Lh & Uh & Lw & Uw) Acc Hi Hn Hc Hfresh.
  assert (B : forall s, s <> "" -> Client.nonblank s = true).
  { intros s Hs. destruct (Client.nonblank s) eqn:E; [reflexivity|].
    apply nonblank_false in E. contradiction. }
  assert (Ph : positive_ok (Client.height form) = true).
  { unfold positive_ok, PyFloat.gt. fold (PyFloat.lt f0 (Client.height form)).
    apply (lt_le_trans f0 Client.f0_1); [reflexivity | exact Lh]. }
  assert (Pw : positive_ok (Client.weight form) = true).
  { unfold positive_ok, PyFloat.gt. fold (PyFloat.lt f0 (Client.weight form)).
    apply (lt_le_trans f0 Client.f1_0); [reflexivity | exact Lw]. }
  assert (Bh : bmi_defined (Client.height form) = true).
  { apply bmi_defined_in_range; [exact Vh | | | exact Acc].
    - apply (le_trans f1e_150 Client.f0_1); [reflexivity | exact Lh].
    - apply (le_trans _ Client.f3_0); [exact Uh | reflexivity]. }
  apply gender_ok_iff in Hg.
  unfold Client.add_patient.
  rewrite (B _ Hi), (B _ Hn), (B _ Hc). simpl.
  unfold Client.make_request_post, http_post_patient.
  split.
  - intros N.
    assert (Ha' : age_ok (Client.age form) = true) by (apply age_ok_iff; lia).
    rewrite (Patient_new_Ok _ _ _ _ _ _ _ Ha' Hg Ph Pw).
    destruct (create_outcome
                (Patient.mk (Client.patient_id form) (Client.name form)
                   (Client.city form) (Client.age form) (Client.gender form)
                   (Client.height form) (Client.weight form)) file)
      as [[e E] | (x & _ & D & E)].
    + exfalso. unfold create_patient_data, load_data in E. simpl in E.
      rewrite Hfresh in E.
      apply bmi_defined_iff in Bh. destruct Bh as (sq & Hsq & Hz).
      pose proof (model_dump_Ok
                    (Patient.mk (Client.patient_id form) (Client.name form)
                       (Client.city form) (Client.age form) (Client.gender form)
                       (Client.height form) (Client.weight form)) sq Hsq Hz) as MD.
      rewrite MD in E. discriminate.
    + rewrite E. simpl. exists x. split; [reflexivity|].
      pose proof (model_dump_derived _ x D) as Hd.
      destruct (model_dump_fields _ x D) as (En & _ & Ea & _ & Eh & Ew).
      simpl in *. auto.
  - intros E120.
    assert (Ne : Patient_errors
                   (PatientArgs.mk (Some (Client.patient_id form))
                      (Some (Client.name form)) (Some (Client.city form))
                      (Some (Client.age form)) (Some (Client.gender form))
                      (Some (Client.height form)) (Some (Client.weight form)))
                 <> []).
    { intros E. apply Patient_errors_nil in E.
      destruct E as (i & n & c & a & g & h & w & E & Ha' & _).
      inversion E. subst. apply age_ok_iff in Ha'. lia. }
    rewrite (Patient_new_Raise _ Ne). reflexivity.
Qed.

Lemma add_patient_within_widget_bounds_witness :
  (exists x,
     Client.add_patient
       (Client.mkAddForm "P005" "Noor" 119 "Surat" "others" f1_60 f70_0) true sample_file
     = ([Client.success "✅ Patient added successfully!"],
        sample_file ++ [("P005", x)]) /\
     Info.name x = "Noor" /\ Info.age x = 119 /\
     Info.height x = f1_60 /\ Info.weight x = f70_0 /\ derived_ok x) /\
  Client.add_patient
    (Client.mkAddForm "P005" "Noor" 120 "Surat" "others" f1_60 f70_0) true sample_file
  = ([Client.error "❌ Error occurred while adding patient."], sample_file).
Proof.
  split.
  - apply (add_patient_within_widget_bounds
             (Client.mkAddForm "P005" "Noor" 119 "Surat" "others" f1_60 f70_0)
             sample_file); try discriminate; try reflexivity.
    + unfold Client.in_widget_range. simpl.
      repeat split; try reflexivity; try lia; auto.
    + apply sample_within_one_ulp. reflexivity.
  - apply (add_patient_within_widget_bounds
             (Client.mkAddForm "P005" "Noor" 120 "Surat" "others" f1_60 f70_0)
             sample_file); try discriminate; try reflexivity.
    + unfold Client.in_widget_range. simpl.
      repeat split; try reflexivity; try lia; auto.
    + apply sample_within_one_ulp. reflexivity.
Defined.
